(** * PSoC event logger: EEPROM log store, log codec, IMU history queue
      and button state machine

    Shallow embedding of the firmware sources [25LC256.c/.h], [LogUtils.c/.h],
    [InterruptRoutines.c/.h], [LIS3DH.c/.h], [Notifications.c/.h],
    [RGB_Driver.c/.h] and [main.c].

    Conventions.
    - [uint8_t] and [uint16_t] values are integers of [Z]; every place where
      the C code narrows a value writes the wrap-around out with [u8]/[u16].
    - C arrays are lists of bytes; [memcpy]/[memset] act on an offset window.
      The one [memcpy] the firmware calls on overlapping windows takes the
      C library as a parameter.
    - The 25LC256 is a map from bus address to cell, read through the 8-bit
      SPI data line.  Write cycles are taken to complete, so
      [EEPROM_waitForWriteComplete] returns with the store unchanged.
    - Globals of the firmware and the peripherals it drives are gathered in
      the record [psoc]; interrupt handlers are functions on it. *)

From Stdlib Require Import ZArith List Lia Bool.
Import ListNotations.
Local Open Scope Z_scope.

(* ================================================================== *)
(** ** Machine integers and C arrays *)

Definition u8 (x : Z) : Z := x mod 2 ^ 8.
Definition u16 (x : Z) : Z := x mod 2 ^ 16.

(** [a[i] = v] on an array held as a list; out of range leaves it as is. *)
Fixpoint array_set (a : list Z) (i : nat) (v : Z) : list Z :=
  match a, i with
  | [], _ => []
  | _ :: t, O => v :: t
  | h :: t, S j => h :: array_set t j v
  end.

(** [memcpy(&dst[doff], &src[soff], n)] between two arrays that do not
    overlap: the [n] source bytes replace the window of [dst] at [doff]. *)
Definition memcpy (dst : list Z) (doff : nat) (src : list Z) (soff n : nat)
  : list Z :=
  firstn doff dst ++ firstn n (skipn soff src) ++ skipn (doff + n) dst.

(** [memcpy(&a[doff], &a[soff], n)] with both windows in the same array
    [a].  C defines the call only when the windows do not overlap; for
    overlapping windows the outcome is whatever the C library happens to
    do.  A library is taken as a function of the array and the three
    numbers, and two of them are written out: one that copies the source
    bytes as they are when the call is made (what [memmove] does), and one
    that copies byte by byte from the lowest address upwards in place. *)
Definition memcpy_lib : Type := list Z -> nat -> nat -> nat -> list Z.

Definition memcpy_snapshot : memcpy_lib :=
  fun a doff soff n => memcpy a doff a soff n.

Fixpoint memcpy_upwards (a : list Z) (doff soff n : nat) : list Z :=
  match n with
  | O => a
  | S n' => memcpy_upwards (array_set a doff (nth soff a 0)) (S doff) (S soff) n'
  end.

(** [memset(dst, c, n)]. *)
Definition memset (dst : list Z) (c : Z) (n : nat) : list Z :=
  repeat (u8 c) n ++ skipn n dst.

(** A local array before its first assignment. *)
Definition uninit (n : nat) : list Z := repeat 0 n.

(* ================================================================== *)
(** ** 25LC256.h *)

Definition SPI_EEPROM_PAGE_SIZE : Z := 64.
Definition SPI_EEPROM_PAGE_COUNT : Z := 512.
Definition SPI_EEPROM_SIZE_BYTE : Z := 0x7FFF.

Definition CTRL_REG_PSOC_STATUS : Z := 0x0000.
Definition CTRL_REG_LOG_PAGES_LOW : Z := 0x0008.
Definition CTRL_REG_LOG_PAGES_HIGH : Z := 0x0016.
Definition LOG_DATA_BASE_ADDR : Z := 0x0040.
Definition LOG_PAGES_PER_EVENT : Z := 5.

Definition CTRL_REG_PSOC_START_STOP_SHIFT : Z := 0.
Definition CTRL_REG_PSOC_CONFIG_MODE_SHIFT : Z := 1.
Definition CTRL_REG_PSOC_SEND_FLAG_SHIFT : Z := 2.
Definition CTRL_REG_PSOC_RESET_FLAG_SHIFT : Z := 3.

Definition CTRL_REG_PSOC_SET_START : Z :=
  u8 (Z.shiftl 1 CTRL_REG_PSOC_START_STOP_SHIFT).
Definition CTRL_REG_PSOC_SET_CONFIG : Z :=
  u8 (Z.shiftl 1 CTRL_REG_PSOC_CONFIG_MODE_SHIFT).
Definition CTRL_REG_PSOC_SET_SEND_FLAG : Z :=
  u8 (Z.shiftl 1 CTRL_REG_PSOC_SEND_FLAG_SHIFT).
Definition CTRL_REG_PSOC_SET_RESET_FLAG : Z :=
  u8 (Z.shiftl 1 CTRL_REG_PSOC_RESET_FLAG_SHIFT).

(* ================================================================== *)
(** ** LogUtils.h *)

Definition LOG_MESSAGE_HEADER_BYTE : nat := 4.
Definition LOG_MESSAGE_DATA_BYTE : nat := 60.
Definition LOG_MESSAGE_TOT_BYTE : nat := 64.

Record log_t : Type := mk_log {
  logID : Z;
  intReg : Z;
  timestamp : Z;
  data : list Z
}.

(** [log_t msg;] before any field is assigned. *)
Definition log_uninit : log_t := mk_log 0 0 0 (uninit LOG_MESSAGE_DATA_BYTE).

(* ================================================================== *)
(** ** The EEPROM cell array and its SPI primitives (25LC256.c) *)

Definition eeprom : Type := Z -> Z.

Definition upd (m : eeprom) (a v : Z) : eeprom :=
  fun x => if x =? a then v else m x.

(** The two address bytes of an instruction, [(addr & 0xFF00) >> 8] and
    [addr & 0x00FF], as the cell they select. *)
Definition bus_addr (addr : Z) : Z :=
  Z.lor (Z.shiftl (Z.shiftr (Z.land addr 0xFF00) 8) 8) (Z.land addr 0x00FF).

Definition EEPROM_readByte (m : eeprom) (addr : Z) : Z :=
  u8 (m (bus_addr addr)).

Definition EEPROM_writeByte (m : eeprom) (addr dataByte : Z) : eeprom :=
  upd m (bus_addr addr) (u8 dataByte).

(** Sequential read of [nBytes] cells starting at [addr]. *)
Definition EEPROM_readPage (m : eeprom) (addr : Z) (nBytes : nat) : list Z :=
  map (fun i => u8 (m (bus_addr addr + Z.of_nat i))) (seq 0 nBytes).

(** The write latch of the chip: bytes go to [base + off], [off] counting
    modulo the page size, so that a write running over the end of the page
    continues at its beginning (the side effect [EEPROM_writePage]
    documents). *)
Fixpoint page_program (m : eeprom) (base off : Z) (bytes : list Z) : eeprom :=
  match bytes with
  | [] => m
  | b :: bs =>
      page_program (upd m (base + off mod SPI_EEPROM_PAGE_SIZE) (u8 b))
                   base (off + 1) bs
  end.

Definition EEPROM_writePage (m : eeprom) (addr : Z) (dat : list Z)
           (nBytes : nat) : eeprom :=
  let a := bus_addr addr in
  page_program m (a - a mod SPI_EEPROM_PAGE_SIZE) (a mod SPI_EEPROM_PAGE_SIZE)
               (map (fun i => nth i dat 0) (seq 0 nBytes)).

Definition EEPROM_waitForWriteComplete (m : eeprom) : eeprom := m.

(* ------------------------------------------------------------------ *)
(** *** Control byte *)

Definition EEPROM_saveResetFlag (m : eeprom) (flag : Z) : eeprom :=
  let ctrl_reg := EEPROM_readByte m CTRL_REG_PSOC_STATUS in
  let ctrl_reg :=
    if flag =? 1
    then u8 (Z.lor ctrl_reg CTRL_REG_PSOC_SET_RESET_FLAG)
    else u8 (Z.land ctrl_reg (Z.lnot CTRL_REG_PSOC_SET_RESET_FLAG)) in
  EEPROM_waitForWriteComplete
    (EEPROM_writeByte m CTRL_REG_PSOC_STATUS ctrl_reg).

(** The three flag writers share one shape: read, set or clear the bit of
    [mask], write back, and clear the reset marker when it was set. *)
Definition save_flag_bit (mask : Z) (m : eeprom) (flag : Z) : eeprom :=
  let ctrl_reg := EEPROM_readByte m CTRL_REG_PSOC_STATUS in
  let ctrl_reg :=
    if flag =? 1
    then u8 (Z.lor ctrl_reg mask)
    else u8 (Z.land ctrl_reg (Z.lnot mask)) in
  let m := EEPROM_waitForWriteComplete
             (EEPROM_writeByte m CTRL_REG_PSOC_STATUS ctrl_reg) in
  if negb (Z.land ctrl_reg CTRL_REG_PSOC_SET_RESET_FLAG =? 0)
  then EEPROM_saveResetFlag m 0
  else m.

Definition retrieve_flag_bit (mask shift : Z) (m : eeprom) : Z :=
  let ctrl_reg := EEPROM_readByte m CTRL_REG_PSOC_STATUS in
  let ctrl_reg := u8 (Z.land ctrl_reg mask) in
  u8 (Z.land (Z.shiftr ctrl_reg shift) 0x01).

Definition EEPROM_saveStartStopState : eeprom -> Z -> eeprom :=
  save_flag_bit CTRL_REG_PSOC_SET_START.
Definition EEPROM_retrieveStartStopState : eeprom -> Z :=
  retrieve_flag_bit CTRL_REG_PSOC_SET_START CTRL_REG_PSOC_START_STOP_SHIFT.

Definition EEPROM_saveConfigFlag : eeprom -> Z -> eeprom :=
  save_flag_bit CTRL_REG_PSOC_SET_CONFIG.
Definition EEPROM_retrieveConfigFlag : eeprom -> Z :=
  retrieve_flag_bit CTRL_REG_PSOC_SET_CONFIG CTRL_REG_PSOC_CONFIG_MODE_SHIFT.

Definition EEPROM_saveSendFlag : eeprom -> Z -> eeprom :=
  save_flag_bit CTRL_REG_PSOC_SET_SEND_FLAG.
Definition EEPROM_retrieveSendFlag : eeprom -> Z :=
  retrieve_flag_bit CTRL_REG_PSOC_SET_SEND_FLAG CTRL_REG_PSOC_SEND_FLAG_SHIFT.

Definition EEPROM_retrieveResetFlag : eeprom -> Z :=
  retrieve_flag_bit CTRL_REG_PSOC_SET_RESET_FLAG CTRL_REG_PSOC_RESET_FLAG_SHIFT.

(* ------------------------------------------------------------------ *)
(** *** Page counter *)

Definition EEPROM_retrieveLogPages (m : eeprom) : Z :=
  let reg_count := u16 (Z.shiftl (EEPROM_readByte m CTRL_REG_LOG_PAGES_HIGH) 8) in
  u16 (Z.lor reg_count (EEPROM_readByte m CTRL_REG_LOG_PAGES_LOW)).

Definition EEPROM_retrieveLogCount (m : eeprom) : Z :=
  let page_count := EEPROM_retrieveLogPages m in
  u8 (page_count / LOG_PAGES_PER_EVENT).

Definition EEPROM_incrementLogCounter (m : eeprom) : eeprom :=
  let reg_count := EEPROM_retrieveLogPages m in
  if reg_count <? SPI_EEPROM_PAGE_COUNT
  then
    let reg_count := u16 (reg_count + 1) in
    let buffer := uninit 2 in
    let buffer := array_set buffer 0 (u8 (Z.land reg_count 0x00FF)) in
    let buffer := array_set buffer 1 (u8 (Z.land (Z.shiftr reg_count 8) 0x00FF)) in
    EEPROM_waitForWriteComplete
      (EEPROM_writePage m CTRL_REG_LOG_PAGES_LOW buffer 2)
  else m.

(* ================================================================== *)
(** ** LogUtils.c *)

Definition LOG_insertPayload (msg : log_t) (dataPtr : list Z) : log_t :=
  mk_log (logID msg) (intReg msg) (timestamp msg)
         (memcpy (data msg) 0 dataPtr 0 LOG_MESSAGE_DATA_BYTE).

Definition LOG_createMessage (id ireg time : Z) (dataPtr : list Z) : log_t :=
  let message := log_uninit in
  let message := mk_log (u8 id) (intReg message) (timestamp message) (data message) in
  let message := mk_log (logID message) (u8 ireg) (timestamp message) (data message) in
  let message := mk_log (logID message) (intReg message) (u16 time) (data message) in
  LOG_insertPayload message dataPtr.

Definition LOG_unpackMessage (buffer : list Z) (message : log_t) : list Z :=
  let buffer := array_set buffer 0 (logID message) in
  let buffer := array_set buffer 1 (intReg message) in
  let buffer := array_set buffer 2 (u8 (Z.land (timestamp message) 0xFF)) in
  let buffer :=
    array_set buffer 3 (u8 (Z.land (Z.shiftr (timestamp message) 8) 0xFF)) in
  memcpy buffer 4 (data message) 0 LOG_MESSAGE_DATA_BYTE.

Definition LOG_packMessage (message : log_t) (buffer : list Z) : log_t :=
  let message :=
    mk_log (nth 0 buffer 0) (intReg message) (timestamp message) (data message) in
  let message :=
    mk_log (logID message) (nth 1 buffer 0) (timestamp message) (data message) in
  let message :=
    mk_log (logID message) (intReg message)
           (u16 (Z.lor (Z.shiftl (nth 3 buffer 0) 8) (nth 2 buffer 0)))
           (data message) in
  mk_log (logID message) (intReg message) (timestamp message)
         (memcpy (data message) 0 buffer 4 LOG_MESSAGE_DATA_BYTE).

(* ================================================================== *)
(** ** Log pages in the EEPROM (25LC256.c, continued) *)

Definition EEPROM_storeLogData (m : eeprom) (dataPtr : list Z) : eeprom :=
  let page_count := EEPROM_retrieveLogPages m in
  let page_addr := u16 (LOG_DATA_BASE_ADDR + page_count * SPI_EEPROM_PAGE_SIZE) in
  if page_addr <=? SPI_EEPROM_SIZE_BYTE - SPI_EEPROM_PAGE_SIZE
  then
    EEPROM_waitForWriteComplete
      (EEPROM_writePage m page_addr dataPtr (Z.to_nat SPI_EEPROM_PAGE_SIZE))
  else m.

Definition EEPROM_storeLogMessage (m : eeprom) (message : log_t) : eeprom :=
  let buffer := uninit 64 in
  let buffer := LOG_unpackMessage buffer message in
  let m := EEPROM_storeLogData m buffer in
  EEPROM_incrementLogCounter m.

(** The scan loop of [EEPROM_findLogID].  [fuel] bounds the number of
    header reads; [None] is returned only when it runs out. *)
Fixpoint findLogID_loop (fuel : nat) (m : eeprom) (id addrPtr : Z)
  : option Z :=
  match fuel with
  | O => None
  | S fuel' =>
      if negb (EEPROM_readByte m addrPtr =? id)
      then
        let addrPtr := u16 (addrPtr + SPI_EEPROM_PAGE_SIZE) in
        if addrPtr >=? SPI_EEPROM_SIZE_BYTE
        then Some 0xFFFF
        else findLogID_loop fuel' m id addrPtr
      else Some addrPtr
  end.

(** 512 header reads are more than the scan ever makes
    ([findLogID_loop_total] below), so the last branch is never taken. *)
Definition EEPROM_findLogID (m : eeprom) (id : Z) : Z :=
  match findLogID_loop 512 m id LOG_DATA_BASE_ADDR with
  | Some addrPtr => addrPtr
  | None => 0xFFFF
  end.

Definition EEPROM_retrieveLogData (m : eeprom) (id pageIndex : Z) : list Z :=
  let page_addr := u16 (EEPROM_findLogID m id + pageIndex * SPI_EEPROM_PAGE_SIZE) in
  EEPROM_readPage m page_addr (Z.to_nat SPI_EEPROM_PAGE_SIZE).

Definition EEPROM_retrieveLogMessage (m : eeprom) (id pageIndex : Z) : log_t :=
  let buffer := EEPROM_retrieveLogData m id pageIndex in
  let msgRX := log_uninit in
  LOG_packMessage msgRX buffer.

(** The body of the erase loop, run [n] times from [page_addr]. *)
Fixpoint resetMemory_loop (n : nat) (m : eeprom) (resetBuffer : list Z)
         (page_addr : Z) : eeprom :=
  match n with
  | O => m
  | S n' =>
      let m := EEPROM_waitForWriteComplete
                 (EEPROM_writePage m page_addr resetBuffer
                                   (Z.to_nat SPI_EEPROM_PAGE_SIZE)) in
      resetMemory_loop n' m resetBuffer (u16 (page_addr + SPI_EEPROM_PAGE_SIZE))
  end.

(** [for (i = 1; i < SPI_EEPROM_PAGE_COUNT; i++)] runs the body
    [SPI_EEPROM_PAGE_COUNT - 1] times. *)
Definition EEPROM_resetMemory (m : eeprom) : eeprom :=
  let resetBuffer := memset (uninit 64) 0x00 (Z.to_nat SPI_EEPROM_PAGE_SIZE) in
  let page_addr := 0x0000 in
  let m := resetMemory_loop (Z.to_nat (SPI_EEPROM_PAGE_COUNT - 1)) m
                            resetBuffer page_addr in
  EEPROM_saveResetFlag m 1.

(* ================================================================== *)
(** ** LIS3DH.h and LIS3DH.c: registers and the history queue *)

Definition LIS3DH_FIFO_BYTES_IN_LEVEL : nat := 6.
Definition LIS3DH_LEVELS_IN_FIFO : nat := 32.
Definition LIS3DH_BYTES_IN_FIFO : nat := 192.
Definition LIS3DH_BYTES_IN_FIFO_HIGH_REG : nat := 96.
Definition LIS3DH_FIFO_STORED : nat := 6.
Definition LIS3DH_DOWN_SAMPLE : nat := 2.
Definition LIS3DH_BYTES_IN_FIFO_DOWNSAMPLED : nat :=
  LIS3DH_BYTES_IN_FIFO_HIGH_REG / LIS3DH_DOWN_SAMPLE.
Definition LIS3DH_BYTES_IN_LOG_BUFFER : nat :=
  LIS3DH_BYTES_IN_FIFO_DOWNSAMPLED * LIS3DH_FIFO_STORED.

Definition LIS3DH_CTRL_REG1 : Z := 0x20.
Definition LIS3DH_CTRL_REG1_STOP_XYZ : Z := 0x68.
Definition LIS3DH_CTRL_REG1_START_XYZ : Z := 0x6F.
Definition LIS3DH_CTRL_REG3 : Z := 0x22.
Definition LIS3DH_CTRL_REG3_I1_IA1_OVERRUN : Z := 0x42.
Definition LIS3DH_CTRL_REG3_NULL : Z := 0x00.
Definition LIS3DH_CTRL_REG4 : Z := 0x23.
Definition LIS3DH_CTRL_REG4_BDU_ACTIVE : Z := 0x80.
Definition LIS3DH_CTRL_REG5 : Z := 0x24.
Definition LIS3DH_CTRL_REG5_FIFO_ENABLE : Z := 0x40.
Definition LIS3DH_CTRL_REG5_FIFO_DISABLE : Z := 0x00.
Definition LIS3DH_FIFO_CTRL_REG : Z := 0x2E.
Definition LIS3DH_FIFO_CTRL_REG_BYPASS_MODE : Z := 0x00.
Definition LIS3DH_FIFO_CTRL_REG_FIFO_MODE : Z := 0x40.
Definition LIS3DH_INT1_CFG : Z := 0x30.
Definition LIS3DH_ITN1_CFG_DISABLE_EVENTS : Z := 0x00.
Definition LIS3DH_INT1_CFG_XYZ_HIGH_EVENTS : Z := 0x2A.
Definition LIS3DH_INT1_THS : Z := 0x32.
Definition LIS3DH_INT1_THS_VALUE : Z := 0x64.
Definition LIS3DH_INT1_DURATION : Z := 0x33.
Definition LIS3DH_INT1_DURATION_VALUE : Z := 0x14.

(** The register file of the accelerometer; a two-byte transfer
    [{reg, value}] on its SPI port writes one register. *)
Definition imu_regs : Type := Z -> Z.

Definition IMU_WriteReg (r : imu_regs) (reg value : Z) : imu_regs :=
  fun x => if x =? reg then u8 value else r x.

Definition IMU_Setup (r : imu_regs) : imu_regs :=
  let r := IMU_WriteReg r LIS3DH_CTRL_REG1 LIS3DH_CTRL_REG1_STOP_XYZ in
  let r := IMU_WriteReg r LIS3DH_CTRL_REG3 LIS3DH_CTRL_REG3_NULL in
  let r := IMU_WriteReg r LIS3DH_CTRL_REG4 LIS3DH_CTRL_REG4_BDU_ACTIVE in
  let r := IMU_WriteReg r LIS3DH_CTRL_REG5 LIS3DH_CTRL_REG5_FIFO_ENABLE in
  let r := IMU_WriteReg r LIS3DH_FIFO_CTRL_REG LIS3DH_FIFO_CTRL_REG_BYPASS_MODE in
  let r := IMU_WriteReg r LIS3DH_INT1_CFG LIS3DH_ITN1_CFG_DISABLE_EVENTS in
  let r := IMU_WriteReg r LIS3DH_INT1_THS LIS3DH_INT1_THS_VALUE in
  IMU_WriteReg r LIS3DH_INT1_DURATION LIS3DH_INT1_DURATION_VALUE.

Definition IMU_Stop (r : imu_regs) : imu_regs :=
  let r := IMU_WriteReg r LIS3DH_CTRL_REG1 LIS3DH_CTRL_REG1_STOP_XYZ in
  let r := IMU_WriteReg r LIS3DH_CTRL_REG3 LIS3DH_CTRL_REG3_NULL in
  let r := IMU_WriteReg r LIS3DH_CTRL_REG5 LIS3DH_CTRL_REG5_FIFO_DISABLE in
  let r := IMU_WriteReg r LIS3DH_FIFO_CTRL_REG LIS3DH_FIFO_CTRL_REG_BYPASS_MODE in
  IMU_WriteReg r LIS3DH_INT1_CFG LIS3DH_ITN1_CFG_DISABLE_EVENTS.

Definition IMU_Start (r : imu_regs) : imu_regs :=
  let r := IMU_WriteReg r LIS3DH_CTRL_REG1 LIS3DH_CTRL_REG1_START_XYZ in
  let r := IMU_WriteReg r LIS3DH_CTRL_REG3 LIS3DH_CTRL_REG3_I1_IA1_OVERRUN in
  let r := IMU_WriteReg r LIS3DH_CTRL_REG5 LIS3DH_CTRL_REG5_FIFO_ENABLE in
  let r := IMU_WriteReg r LIS3DH_FIFO_CTRL_REG LIS3DH_FIFO_CTRL_REG_FIFO_MODE in
  IMU_WriteReg r LIS3DH_INT1_CFG LIS3DH_INT1_CFG_XYZ_HIGH_EVENTS.

Definition IMU_Init (r : imu_regs) : imu_regs := IMU_Stop (IMU_Setup r).

Definition IMU_ResetFIFO (r : imu_regs) : imu_regs :=
  let r := IMU_WriteReg r LIS3DH_FIFO_CTRL_REG LIS3DH_FIFO_CTRL_REG_BYPASS_MODE in
  IMU_WriteReg r LIS3DH_FIFO_CTRL_REG LIS3DH_FIFO_CTRL_REG_FIFO_MODE.

(** Sampling and interrupt events are off: the five registers hold what
    [IMU_Stop] writes. *)
Definition IMU_acquisition_disabled (r : imu_regs) : bool :=
  (r LIS3DH_CTRL_REG1 =? LIS3DH_CTRL_REG1_STOP_XYZ)
  && (r LIS3DH_CTRL_REG3 =? LIS3DH_CTRL_REG3_NULL)
  && (r LIS3DH_CTRL_REG5 =? LIS3DH_CTRL_REG5_FIFO_DISABLE)
  && (r LIS3DH_FIFO_CTRL_REG =? LIS3DH_FIFO_CTRL_REG_BYPASS_MODE)
  && (r LIS3DH_INT1_CFG =? LIS3DH_ITN1_CFG_DISABLE_EVENTS).

(** [for (i = 0; i < n; i++) body], the loop variable counting from 0. *)
Definition for_loop {S : Type} (n : nat) (body : nat -> S -> S) (s : S) : S :=
  fold_left (fun acc i => body i acc) (seq 0 n) s.

(** First half of [IMU_StoreFIFO]: the high register of every axis, then
    every other FIFO level. *)
Definition high_registers (buffer : list Z) : list Z :=
  for_loop LIS3DH_BYTES_IN_FIFO_HIGH_REG
    (fun i high_reg_data => array_set high_reg_data i (nth (i * 2 + 1) buffer 0))
    (uninit LIS3DH_BYTES_IN_FIFO_HIGH_REG).

Definition down_sample (high_reg_data : list Z) : list Z :=
  for_loop (LIS3DH_LEVELS_IN_FIFO / LIS3DH_DOWN_SAMPLE)
    (fun i d =>
       let d := array_set d (i * 3) (nth ((i * 3) * 2) high_reg_data 0) in
       let d := array_set d (i * 3 + 1) (nth ((i * 3) * 2 + 1) high_reg_data 0) in
       array_set d (i * 3 + 2) (nth ((i * 3) * 2 + 2) high_reg_data 0))
    (uninit (LIS3DH_BYTES_IN_FIFO_HIGH_REG / LIS3DH_DOWN_SAMPLE)).

(** The first [memcpy] moves 240 bytes of the queue 48 bytes up within
    the queue itself: source and destination overlap, so what it leaves
    depends on the library [libc].  The second one copies from a local
    array. *)
Definition IMU_StoreFIFO (libc : memcpy_lib) (IMU_log_queue buffer : list Z)
  : list Z :=
  let high_reg_data := high_registers buffer in
  let down_sampled_data := down_sample high_reg_data in
  let IMU_log_queue :=
    libc IMU_log_queue LIS3DH_BYTES_IN_FIFO_DOWNSAMPLED 0%nat
         (LIS3DH_BYTES_IN_LOG_BUFFER - LIS3DH_BYTES_IN_FIFO_DOWNSAMPLED)%nat in
  memcpy IMU_log_queue 0 down_sampled_data 0 LIS3DH_BYTES_IN_FIFO_DOWNSAMPLED.

Definition IMU_getPayload (IMU_log_queue messagge : list Z) (index : Z)
  : list Z :=
  let index := u8 (index + 1) in
  if index =? 5
  then
    let messagge := memset messagge 0 60 in
    memcpy messagge 0 IMU_log_queue 0 48
  else
    memcpy messagge 0 IMU_log_queue (Z.to_nat (288 - index * 60)) 60.

(* ================================================================== *)
(** ** InterruptRoutines.h: globals, and the board they live on *)

Definition UART_RX_OPERATION_ACK : Z := 0x4B.
Definition UART_RX_RESET_MEMORY : Z := 0x52.
Definition UART_RX_NUMBER_OF_LOGS : Z := 0x4E.
Definition UART_RX_READ_CTRL_REG : Z := 0x43.
Definition UART_RX_SEND_LOG_ID : Z := 0x4C.

(** [typedef enum { STOP_MODE, START_MODE, CONFIG_MODE } button_t;]
    The handlers assign a [uint8_t] to a [button_t], so the enumeration is
    kept as its integer values. *)
Definition button_t : Type := Z.
Definition STOP_MODE : button_t := 0.
Definition START_MODE : button_t := 1.
Definition CONFIG_MODE : button_t := 2.

Record psoc : Type := mk_psoc {
  (* firmware globals *)
  button_state : button_t;
  send_flag : Z;
  IMU_data_ready_flag : Z;
  IMU_over_threshold_flag : Z;
  IMU_log_queue : list Z;
  (* peripherals *)
  cells : eeprom;              (* 25LC256 *)
  lis3dh : imu_regs;           (* accelerometer registers *)
  pwm_notify_enabled : bool;   (* PWM_NOTIFY control register, enable bit *)
  pwm_notify_compare : Z;      (* PWM_NOTIFY compare value *)
  uart_rx : list Z;            (* bytes waiting in the UART receiver *)
  uart_tx : list Z             (* bytes sent so far, oldest first *)
}.

Definition set_button_state (s : psoc) (v : button_t) : psoc :=
  mk_psoc v (send_flag s) (IMU_data_ready_flag s) (IMU_over_threshold_flag s)
          (IMU_log_queue s) (cells s) (lis3dh s) (pwm_notify_enabled s)
          (pwm_notify_compare s) (uart_rx s) (uart_tx s).
Definition set_send_flag (s : psoc) (v : Z) : psoc :=
  mk_psoc (button_state s) v (IMU_data_ready_flag s) (IMU_over_threshold_flag s)
          (IMU_log_queue s) (cells s) (lis3dh s) (pwm_notify_enabled s)
          (pwm_notify_compare s) (uart_rx s) (uart_tx s).
Definition set_data_ready (s : psoc) (v : Z) : psoc :=
  mk_psoc (button_state s) (send_flag s) v (IMU_over_threshold_flag s)
          (IMU_log_queue s) (cells s) (lis3dh s) (pwm_notify_enabled s)
          (pwm_notify_compare s) (uart_rx s) (uart_tx s).
Definition set_over_threshold (s : psoc) (v : Z) : psoc :=
  mk_psoc (button_state s) (send_flag s) (IMU_data_ready_flag s) v
          (IMU_log_queue s) (cells s) (lis3dh s) (pwm_notify_enabled s)
          (pwm_notify_compare s) (uart_rx s) (uart_tx s).
Definition set_log_queue (s : psoc) (q : list Z) : psoc :=
  mk_psoc (button_state s) (send_flag s) (IMU_data_ready_flag s)
          (IMU_over_threshold_flag s) q (cells s) (lis3dh s)
          (pwm_notify_enabled s) (pwm_notify_compare s) (uart_rx s) (uart_tx s).
Definition set_cells (s : psoc) (m : eeprom) : psoc :=
  mk_psoc (button_state s) (send_flag s) (IMU_data_ready_flag s)
          (IMU_over_threshold_flag s) (IMU_log_queue s) m (lis3dh s)
          (pwm_notify_enabled s) (pwm_notify_compare s) (uart_rx s) (uart_tx s).
Definition set_lis3dh (s : psoc) (r : imu_regs) : psoc :=
  mk_psoc (button_state s) (send_flag s) (IMU_data_ready_flag s)
          (IMU_over_threshold_flag s) (IMU_log_queue s) (cells s) r
          (pwm_notify_enabled s) (pwm_notify_compare s) (uart_rx s) (uart_tx s).
Definition set_pwm_notify (s : psoc) (en : bool) (cmp : Z) : psoc :=
  mk_psoc (button_state s) (send_flag s) (IMU_data_ready_flag s)
          (IMU_over_threshold_flag s) (IMU_log_queue s) (cells s) (lis3dh s)
          en cmp (uart_rx s) (uart_tx s).
Definition set_uart (s : psoc) (rx tx : list Z) : psoc :=
  mk_psoc (button_state s) (send_flag s) (IMU_data_ready_flag s)
          (IMU_over_threshold_flag s) (IMU_log_queue s) (cells s) (lis3dh s)
          (pwm_notify_enabled s) (pwm_notify_compare s) rx tx.

(** [UART_GetChar]: the oldest waiting byte, or 0 when none waits. *)
Definition UART_GetChar (s : psoc) : Z * psoc :=
  match uart_rx s with
  | [] => (0, s)
  | c :: rx => (c, set_uart s rx (uart_tx s))
  end.

Definition UART_PutChar (s : psoc) (c : Z) : psoc :=
  set_uart s (uart_rx s) (uart_tx s ++ [u8 c]).

Definition UART_PutArray (s : psoc) (a : list Z) (n : nat) : psoc :=
  set_uart s (uart_rx s) (uart_tx s ++ map (fun i => nth i a 0) (seq 0 n)).

Definition LOG_sendData (s : psoc) (message : log_t) : psoc :=
  let buffer := uninit LOG_MESSAGE_TOT_BYTE in
  let buffer := LOG_unpackMessage buffer message in
  UART_PutArray s buffer LOG_MESSAGE_TOT_BYTE.

(* ------------------------------------------------------------------ *)
(** *** Notifications.c *)

Definition LED_Notify_Stop (s : psoc) : psoc :=
  if pwm_notify_enabled s
  then set_pwm_notify s false (pwm_notify_compare s)
  else s.

Definition LED_Notify_Start (s : psoc) : psoc :=
  let s := if negb (pwm_notify_enabled s)
           then set_pwm_notify s true (pwm_notify_compare s)
           else s in
  set_pwm_notify s (pwm_notify_enabled s) 255.

Definition LED_Notify_Config (s : psoc) : psoc :=
  let s := if negb (pwm_notify_enabled s)
           then set_pwm_notify s true (pwm_notify_compare s)
           else s in
  set_pwm_notify s (pwm_notify_enabled s) 127.

(* ------------------------------------------------------------------ *)
(** *** InterruptRoutines.c *)

Definition CUSTOM_ISR_CONFIG (s : psoc) : psoc :=
  if negb (button_state s =? CONFIG_MODE)
  then
    let s := if button_state s =? START_MODE
             then set_lis3dh s (IMU_Stop (lis3dh s))
             else s in
    let s := set_button_state s CONFIG_MODE in
    let s := set_cells s (EEPROM_saveConfigFlag (cells s) 1) in
    LED_Notify_Config s
  else
    let s := set_button_state s (EEPROM_retrieveStartStopState (cells s)) in
    let s := set_cells s (EEPROM_saveConfigFlag (cells s) 0) in
    let s :=
      if button_state s =? STOP_MODE
      then LED_Notify_Stop s
      else if button_state s =? START_MODE
           then
             let s := LED_Notify_Start s in
             set_lis3dh s (IMU_Start (lis3dh s))
           else s in
    set_cells s (EEPROM_saveSendFlag (cells s) (send_flag s)).

Definition CUSTOM_ISR_START (s : psoc) : psoc :=
  if button_state s =? START_MODE
  then
    let s := set_lis3dh s (IMU_Stop (lis3dh s)) in
    let s := set_cells s (EEPROM_saveStartStopState (cells s) 0) in
    let s := LED_Notify_Stop s in
    set_button_state s STOP_MODE
  else if button_state s =? STOP_MODE
       then
         let s := set_lis3dh s (IMU_Start (lis3dh s)) in
         let s := set_cells s (EEPROM_saveStartStopState (cells s) 1) in
         let s := LED_Notify_Start s in
         set_button_state s START_MODE
       else s.

(** The five iterations of the [UART_RX_SEND_LOG_ID] case. *)
Definition send_log_pages (s : psoc) (log_id : Z) : psoc :=
  for_loop (Z.to_nat LOG_PAGES_PER_EVENT)
    (fun i s =>
       let log_page := EEPROM_retrieveLogMessage (cells s) log_id (Z.of_nat i) in
       LOG_sendData s log_page)
    s.

Definition CUSTOM_ISR_RX (s : psoc) : psoc :=
  let '(op_code, s) := UART_GetChar s in
  if op_code =? UART_RX_RESET_MEMORY
  then
    let s := set_cells s (EEPROM_resetMemory (cells s)) in
    UART_PutChar s UART_RX_OPERATION_ACK
  else if op_code =? UART_RX_NUMBER_OF_LOGS
  then
    let log_count := EEPROM_retrieveLogCount (cells s) in
    UART_PutChar s log_count
  else if op_code =? UART_RX_READ_CTRL_REG
  then
    let ctrl_reg := EEPROM_readByte (cells s) CTRL_REG_PSOC_STATUS in
    UART_PutChar s ctrl_reg
  else if op_code =? UART_RX_SEND_LOG_ID
  then
    let '(log_id, s) := UART_GetChar s in
    send_log_pages s log_id
  else s.

(* ================================================================== *)
(** ** main.c *)

(** What [main] finds when power comes on: the globals zeroed by the C
    start-up code, the receiver empty, and whatever the two chips hold. *)
Definition power_on (m : eeprom) (r : imu_regs) : psoc :=
  mk_psoc 0 0 0 0 (repeat 0 LIS3DH_BYTES_IN_LOG_BUFFER) m r false 0 [] [].

(** [main] up to the entry of its endless loop. *)
Definition main_setup (s : psoc) : psoc :=
  let s := set_lis3dh s (IMU_Init (lis3dh s)) in
  let s := set_button_state s STOP_MODE in
  let s := set_cells s (EEPROM_saveStartStopState (cells s) 0) in
  let s := set_send_flag s 0 in
  let s := set_data_ready s 0 in
  set_over_threshold s 0.

(** Turning the board off and on again keeps the EEPROM and nothing else. *)
Definition power_cycle (s : psoc) : psoc :=
  main_setup (power_on (cells s) (lis3dh s)).

(** The loop of the over-threshold branch: five pages, each a 60-byte
    window of the queue under the same header. *)
Definition appendLog (m : eeprom) (log_id int_reg time : Z)
           (queue : list Z) : eeprom :=
  for_loop (Z.to_nat LOG_PAGES_PER_EVENT)
    (fun i m =>
       let payload := uninit LOG_MESSAGE_DATA_BYTE in
       let payload := IMU_getPayload queue payload (Z.of_nat i) in
       let log_message := LOG_createMessage log_id int_reg time payload in
       EEPROM_storeLogMessage m log_message)
    m.

(** The over-threshold branch of the loop body; [int_reg] and [time] are
    what [IMU_ReadByte(LIS3DH_INT1_SRC)] and [LOG_getTimestamp] deliver.
    The wait for the interrupt source to clear is taken to end. *)
Definition main_over_threshold (s : psoc) (int_reg time : Z) : psoc :=
  if IMU_over_threshold_flag s =? 1
  then
    let log_id := EEPROM_retrieveLogCount (cells s) in
    let s := set_cells s (appendLog (cells s) log_id int_reg time
                                    (IMU_log_queue s)) in
    let s := set_lis3dh s (IMU_ResetFIFO (lis3dh s)) in
    set_over_threshold s 0
  else s.

(** [n] over-threshold events in a row, logged by the main loop. *)
Fixpoint log_events (n : nat) (s : psoc) (int_reg time : Z) : psoc :=
  match n with
  | O => s
  | S n' =>
      log_events n' (main_over_threshold (set_over_threshold s 1) int_reg time)
                 int_reg time
  end.

(* ================================================================== *)
(** ** Definitions used in the statements *)

(** *** Control byte *)

(** The control byte after one of the flag writers ran on control byte [c];
    [set] is the outcome of the test [flag == 1]. *)
Definition ctrl_after_save (mask c : Z) (set : bool) : Z :=
  let c1 := if set then u8 (Z.lor c mask) else u8 (Z.land c (Z.lnot mask)) in
  if negb (Z.land c1 CTRL_REG_PSOC_SET_RESET_FLAG =? 0)
  then u8 (Z.land (u8 c1) (Z.lnot CTRL_REG_PSOC_SET_RESET_FLAG))
  else c1.

(** The flag a retriever extracts from control byte [c]. *)
Definition flag_of (mask shift c : Z) : Z :=
  u8 (Z.land (Z.shiftr (u8 (Z.land c mask)) shift) 0x01).

(** *** Store operations *)

(** The buffer [EEPROM_resetMemory] writes to every page it erases. *)
Definition zero_page : list Z :=
  memset (uninit 64) 0x00 (Z.to_nat SPI_EEPROM_PAGE_SIZE).

(** The operations of the store that write to the EEPROM. *)
Inductive store_op : Type :=
| OpSaveStartStopState (state : Z)
| OpSaveConfigFlag (flag : Z)
| OpSaveSendFlag (flag : Z)
| OpSaveResetFlag (flag : Z)
| OpIncrementLogCounter
| OpStoreLogData (dataPtr : list Z)
| OpStoreLogMessage (message : log_t)
| OpAppendLog (log_id int_reg time : Z) (queue : list Z)
| OpResetMemory.

Definition run_op (op : store_op) (m : eeprom) : eeprom :=
  match op with
  | OpSaveStartStopState state => EEPROM_saveStartStopState m state
  | OpSaveConfigFlag flag => EEPROM_saveConfigFlag m flag
  | OpSaveSendFlag flag => EEPROM_saveSendFlag m flag
  | OpSaveResetFlag flag => EEPROM_saveResetFlag m flag
  | OpIncrementLogCounter => EEPROM_incrementLogCounter m
  | OpStoreLogData dataPtr => EEPROM_storeLogData m dataPtr
  | OpStoreLogMessage message => EEPROM_storeLogMessage m message
  | OpAppendLog log_id int_reg time queue =>
      appendLog m log_id int_reg time queue
  | OpResetMemory => EEPROM_resetMemory m
  end.

(** One over-threshold event handled by the main loop. *)
Definition log_event (s : psoc) (int_reg time : Z) : psoc :=
  main_over_threshold (set_over_threshold s 1) int_reg time.

(** The five messages one over-threshold event stores. *)
Definition log_pages (log_id int_reg time : Z) (queue : list Z) : list log_t :=
  map (fun i => LOG_createMessage log_id int_reg time
                  (IMU_getPayload queue (uninit LOG_MESSAGE_DATA_BYTE)
                                  (Z.of_nat i)))
      (seq 0 (Z.to_nat LOG_PAGES_PER_EVENT)).

(** [n] whole logs are stored and the counter can be read back: cell 0x16
    is zero, the counter reads [5 * n], and page [p] of the log region
    carries identifier [p / 5] in its header, for each of the [5 * n]
    pages. *)
Definition logs_stored (n : Z) (m : eeprom) : Prop :=
  u8 (m 0x16) = 0
  /\ EEPROM_retrieveLogPages m = 5 * n
  /\ forall p, 0 <= p < 5 * n ->
               EEPROM_readByte m (LOG_DATA_BASE_ADDR + 64 * p) = p / 5.

(** No page header of the scanned region, pages 1 to 511, holds [id]. *)
Definition no_matching_header (m : eeprom) (id : Z) : bool :=
  forallb (fun k => negb (EEPROM_readByte m (LOG_DATA_BASE_ADDR + 64 * Z.of_nat k)
                          =? id))
          (seq 0 511).

(** *** Log records and bursts *)

(** A log record as the firmware builds it: header fields within their
    C types and a payload of 60 bytes. *)
Definition is_byte (b : Z) : bool := (0 <=? b) && (b <? 256).

Definition log_wf (r : log_t) : bool :=
  is_byte (logID r) && is_byte (intReg r)
  && (0 <=? timestamp r) && (timestamp r <? 65536)
  && (length (data r) =? LOG_MESSAGE_DATA_BYTE)%nat
  && forallb is_byte (data r).

(** The reduced burst [IMU_StoreFIFO] computes from a raw FIFO read. *)
Definition reduce (buffer : list Z) : list Z :=
  down_sample (high_registers buffer).

(** *** Stores, boards and data to evaluate on *)

(** An EEPROM holding zero in every cell, and one as it leaves the
    factory, every cell 0xFF. *)
Definition blank : eeprom := fun _ => 0.
Definition factory_fresh : eeprom := fun _ => 0xFF.

(** Accelerometer registers all zero. *)
Definition lis3dh_zero : imu_regs := fun _ => 0.

(** A store whose page counter reads 512. *)
Definition counter_saturated : eeprom := upd blank 0x16 0x02.

(** A store whose page counter reads 510: pages 1 to 510 are taken and the
    next page address, 0x7FC0, is past the last one [EEPROM_storeLogData]
    accepts. *)
Definition store_full : eeprom := upd (upd blank 0x08 0xFE) 0x16 0x01.

(** A history queue with recognisable content: byte [i] holds [i mod 251]. *)
Definition sample_queue : list Z :=
  map (fun i => Z.of_nat i mod 251) (seq 0 LIS3DH_BYTES_IN_LOG_BUFFER).

(** A raw FIFO read with recognisable content. *)
Definition sample_burst (k : Z) : list Z :=
  map (fun i => (Z.of_nat i + k) mod 256) (seq 0 LIS3DH_BYTES_IN_FIFO).

Definition sample_log : log_t :=
  mk_log 3 0x6A 0x1234 (map Z.of_nat (seq 100 60)).

(** The board after [n] over-threshold events: an EEPROM as it leaves the
    factory is erased with [EEPROM_resetMemory], the board boots, the queue
    holds [sample_queue], and the main loop logs [n] events, each with
    interrupt register 0x6A at second 7. *)
Definition after_events (n : nat) : psoc :=
  log_events n
    (set_log_queue
       (main_setup (power_on (EEPROM_resetMemory factory_fresh) lis3dh_zero))
       sample_queue)
    0x6A 7.

(* ================================================================== *)
(** ** The rest of the firmware: timestamp, telemetry, knob, RGB LED,
       and the body of the main loop *)

(** Conversions to [uint32_t], [int8_t] and [int16_t]. *)
Definition u32 (x : Z) : Z := x mod 2 ^ 32.
Definition s8 (x : Z) : Z := (x + 128) mod 256 - 128.
Definition s16 (x : Z) : Z := (x + 32768) mod 65536 - 32768.

(* ------------------------------------------------------------------ *)
(** *** LogUtils.c: the timestamp *)

Definition LOG_TICK_PER_SECOND : Z := 1000.
Definition LOG_TIMER_OVERFLOW : Z := 0xFFFFFFFF.

(** [counter] is what [MAIN_TIMER_ReadCounter] delivers, a 32-bit value
    counting down from [LOG_TIMER_OVERFLOW] once per millisecond. *)
Definition LOG_getTimestamp (counter : Z) : Z :=
  let current_time := u32 (LOG_TIMER_OVERFLOW - counter) in
  u16 (current_time / LOG_TICK_PER_SECOND).

(* ------------------------------------------------------------------ *)
(** *** LIS3DH.c: reading the FIFO, telemetry frames *)

Definition LIS3DH_FIFO_SRC_REG_OVR_MASK : Z := 0x40.
Definition LIS3DH_INT1_SRC_IA_MASK : Z := 0x40.

(** [fifo] is what the chip holds, oldest level first; every one of the 32
    transfers delivers the next six bytes. *)
Definition IMU_ReadFIFO (fifo buffer : list Z) : list Z :=
  for_loop 32
    (fun i buffer =>
       memcpy buffer (i * 6) fifo (i * 6) LIS3DH_FIFO_BYTES_IN_LEVEL)
    buffer.

(** [for (j = 1; j < 4; j++)] of [IMU_DataSend], for level [i]. *)
Definition DataSend_fill (high_reg_data : list Z) (i : nat) (DataSend : list Z)
  : list Z :=
  fold_left
    (fun DataSend j => array_set DataSend j (nth (i * 3 + j - 1) high_reg_data 0))
    (seq 1 3) DataSend.

Definition IMU_DataSend (s : psoc) (buffer : list Z) : psoc :=
  let DataSend := uninit 5 in
  let DataSend := array_set DataSend 0 0xA0 in
  let DataSend := array_set DataSend 4 0xC0 in
  let high_reg_data := high_registers buffer in
  fst (for_loop 32
         (fun i '(s, DataSend) =>
            let DataSend := DataSend_fill high_reg_data i DataSend in
            (UART_PutArray s DataSend 5, DataSend))
         (s, DataSend)).

(* ------------------------------------------------------------------ *)
(** *** InterruptRoutines.c: the accelerometer interrupt *)

(** [fifo_src] and [int1_src] are what the two [IMU_ReadByte] calls
    deliver. *)
Definition CUSTOM_ISR_IMU (s : psoc) (fifo_src int1_src : Z) : psoc :=
  let s := if negb (Z.land fifo_src LIS3DH_FIFO_SRC_REG_OVR_MASK =? 0)
           then set_data_ready s 1
           else s in
  if negb (Z.land int1_src LIS3DH_INT1_SRC_IA_MASK =? 0)
  then set_over_threshold s 1
  else s.

(* ------------------------------------------------------------------ *)
(** *** Notifications.c: the knob *)

Definition POT_MID_RANGE : Z := 127.

(** [raw] is the [int16_t] that [ADC_DELSIG_Read16] delivers.  The macro
    [POT_DEAD_BAND] is [POT_MID_RANGE/2] without parentheses, so the two
    tests read [127 - 127/2] and [127 + 127/2]. *)
Definition POT_Read_Value (raw oldFlag : Z) : Z :=
  let raw := if raw >? 255 then 255 else if raw <? 0 then 0 else raw in
  let pot_val := u8 (Z.land raw 0xFF) in
  if pot_val <? POT_MID_RANGE - POT_MID_RANGE / 2
  then 0
  else if pot_val >? POT_MID_RANGE + POT_MID_RANGE / 2
       then 1
       else oldFlag.

(* ------------------------------------------------------------------ *)
(** *** RGB_Driver.h and RGB_Driver.c *)

Definition PWM_CYCLE_LENGTH : Z := 255.
Definition PWM_COMPARE_STOP : Z := 0.

(** The global [RGB_DataBuffer] and the two PWM blocks of the RGB LED:
    red on compare 1 and green on compare 2 of [PWM_RG], blue on
    [PWM_B]. *)
Record rgb_led : Type := mk_rgb {
  RGB_DataBuffer : list Z;
  pwm_rg_enabled : bool;
  pwm_b_enabled : bool;
  pwm_rg_compare1 : Z;
  pwm_rg_compare2 : Z;
  pwm_b_compare : Z
}.

Definition PWM_RG_WriteCompare1 (l : rgb_led) (v : Z) : rgb_led :=
  mk_rgb (RGB_DataBuffer l) (pwm_rg_enabled l) (pwm_b_enabled l)
         (u8 v) (pwm_rg_compare2 l) (pwm_b_compare l).
Definition PWM_RG_WriteCompare2 (l : rgb_led) (v : Z) : rgb_led :=
  mk_rgb (RGB_DataBuffer l) (pwm_rg_enabled l) (pwm_b_enabled l)
         (pwm_rg_compare1 l) (u8 v) (pwm_b_compare l).
Definition PWM_B_WriteCompare (l : rgb_led) (v : Z) : rgb_led :=
  mk_rgb (RGB_DataBuffer l) (pwm_rg_enabled l) (pwm_b_enabled l)
         (pwm_rg_compare1 l) (pwm_rg_compare2 l) (u8 v).
Definition set_RGB_DataBuffer (l : rgb_led) (b : list Z) : rgb_led :=
  mk_rgb b (pwm_rg_enabled l) (pwm_b_enabled l)
         (pwm_rg_compare1 l) (pwm_rg_compare2 l) (pwm_b_compare l).

Definition RGB_Stop (l : rgb_led) : rgb_led :=
  let l := if negb (pwm_rg_compare1 l =? PWM_COMPARE_STOP)
           then PWM_RG_WriteCompare1 l PWM_COMPARE_STOP else l in
  let l := if negb (pwm_rg_compare2 l =? PWM_COMPARE_STOP)
           then PWM_RG_WriteCompare2 l PWM_COMPARE_STOP else l in
  if negb (pwm_b_compare l =? PWM_COMPARE_STOP)
  then PWM_B_WriteCompare l PWM_COMPARE_STOP else l.

Definition RGB_Init (l : rgb_led) : rgb_led :=
  let l := if negb (pwm_rg_enabled l)
           then mk_rgb (RGB_DataBuffer l) true (pwm_b_enabled l)
                       (pwm_rg_compare1 l) (pwm_rg_compare2 l) (pwm_b_compare l)
           else l in
  let l := if negb (pwm_b_enabled l)
           then mk_rgb (RGB_DataBuffer l) (pwm_rg_enabled l) true
                       (pwm_rg_compare1 l) (pwm_rg_compare2 l) (pwm_b_compare l)
           else l in
  RGB_Stop l.

Definition PWM_Driver (l : rgb_led) (dataPtr : list Z) : rgb_led :=
  let l := PWM_RG_WriteCompare1 l (nth 0 dataPtr 0) in
  let l := PWM_RG_WriteCompare2 l (nth 2 dataPtr 0) in
  PWM_B_WriteCompare l (nth 1 dataPtr 0).

Definition RGB_sendFlagNotify (l : rgb_led) (flag : Z) : rgb_led :=
  let buffer := [0; u8 (PWM_CYCLE_LENGTH * flag); 0] in
  PWM_Driver l buffer.

(** [value] is an [int8_t]; [>>] on it is the arithmetic shift, and the
    sum and the exclusive or are computed on [int]. *)
Definition Absolute_Value (value : Z) : Z :=
  let mask := s8 (Z.shiftr value 7) in
  u8 (Z.lxor (value + mask) mask).

Definition RGB_dataProcess (dataPtr : list Z) : list Z :=
  for_loop 3
    (fun i dataPtr =>
       let dataPtr := array_set dataPtr i (Absolute_Value (s8 (nth i dataPtr 0))) in
       let dataPtr := if nth i dataPtr 0 >? 127
                      then array_set dataPtr i 127
                      else dataPtr in
       let dataPtr := array_set dataPtr i (u8 (nth i dataPtr 0 * 2)) in
       array_set dataPtr i (u8 (nth i dataPtr 0)))
    dataPtr.

(** The division is the one of C, rounding towards zero.  [windowSize] is
    32 at the only call; a window of size 0 would divide by zero. *)
Definition Moving_Average (dataPtr filtPtr : list Z) (windowSize : Z) : list Z :=
  let dataSum := [0; 0; 0] in
  let dataSum :=
    for_loop (Z.to_nat windowSize)
      (fun i dataSum =>
         for_loop 3
           (fun j dataSum =>
              let tmp := s8 (nth (1 + i * 6 + j * 2) dataPtr 0) in
              array_set dataSum j (s16 (nth j dataSum 0 + tmp)))
           dataSum)
      dataSum in
  for_loop 3
    (fun i filtPtr =>
       array_set filtPtr i (u8 (Z.quot (nth i dataSum 0) windowSize)))
    filtPtr.

Definition RGB_Driver (l : rgb_led) (dataPtr : list Z) : rgb_led :=
  let l := set_RGB_DataBuffer l (Moving_Average dataPtr (RGB_DataBuffer l) 32) in
  let l := set_RGB_DataBuffer l (RGB_dataProcess (RGB_DataBuffer l)) in
  PWM_Driver l (RGB_DataBuffer l).

(* ------------------------------------------------------------------ *)
(** *** main.c: the body of the endless loop *)

(** The board together with the two globals and the LED that the claims
    above did not need. *)
Record machine : Type := mk_machine {
  board : psoc;
  IMU_DataBuffer : list Z;
  led : rgb_led
}.

(** What the hardware delivers during one pass of the loop: the ADC
    reading, the content of the accelerometer FIFO, its interrupt source
    register and the counter of the main timer. *)
Record inputs : Type := mk_inputs {
  adc_raw : Z;
  imu_fifo : list Z;
  imu_int1_src : Z;
  timer_counter : Z
}.

(** [switch (button_state)]. *)
Definition main_mode_handler (x : machine) (raw : Z) : machine :=
  let s := board x in
  if button_state s =? STOP_MODE
  then mk_machine s (IMU_DataBuffer x) (RGB_Stop (led x))
  else if button_state s =? START_MODE
  then mk_machine s (IMU_DataBuffer x) (RGB_Driver (led x) (IMU_DataBuffer x))
  else if button_state s =? CONFIG_MODE
  then
    let s := set_send_flag s (POT_Read_Value raw (send_flag s)) in
    mk_machine s (IMU_DataBuffer x) (RGB_sendFlagNotify (led x) (send_flag s))
  else x.

(** [if (IMU_data_ready_flag == 1)]; [libc] is the [memcpy] the firmware
    is linked with, which [IMU_StoreFIFO] calls on overlapping windows. *)
Definition main_data_ready (libc : memcpy_lib) (x : machine) (fifo : list Z)
  : machine :=
  let s := board x in
  if IMU_data_ready_flag s =? 1
  then
    let buffer := IMU_ReadFIFO fifo (IMU_DataBuffer x) in
    let s := set_log_queue s (IMU_StoreFIFO libc (IMU_log_queue s) buffer) in
    let s := if EEPROM_retrieveSendFlag (cells s) =? 1
             then IMU_DataSend s buffer
             else s in
    let s := set_lis3dh s (IMU_ResetFIFO (lis3dh s)) in
    let s := set_data_ready s 0 in
    mk_machine s buffer (led x)
  else x.

(** One pass of [for(;;)]. *)
Definition main_loop_body (libc : memcpy_lib) (x : machine) (i : inputs)
  : machine :=
  let x := main_mode_handler x (adc_raw i) in
  let x := main_data_ready libc x (imu_fifo i) in
  mk_machine
    (main_over_threshold (board x) (u8 (imu_int1_src i))
                         (LOG_getTimestamp (timer_counter i)))
    (IMU_DataBuffer x) (led x).

(** The two buttons, as the events that reach the firmware. *)
Inductive button_event : Type :=
| DoubleClick
| LongPress.

Definition press (s : psoc) (e : button_event) : psoc :=
  match e with
  | DoubleClick => CUSTOM_ISR_START s
  | LongPress => CUSTOM_ISR_CONFIG s
  end.

(** Sampling runs with the FIFO and both interrupt sources on: the five
    registers hold what [IMU_Start] writes. *)
Definition IMU_acquisition_enabled (r : imu_regs) : bool :=
  (r LIS3DH_CTRL_REG1 =? LIS3DH_CTRL_REG1_START_XYZ)
  && (r LIS3DH_CTRL_REG3 =? LIS3DH_CTRL_REG3_I1_IA1_OVERRUN)
  && (r LIS3DH_CTRL_REG5 =? LIS3DH_CTRL_REG5_FIFO_ENABLE)
  && (r LIS3DH_FIFO_CTRL_REG =? LIS3DH_FIFO_CTRL_REG_FIFO_MODE)
  && (r LIS3DH_INT1_CFG =? LIS3DH_INT1_CFG_XYZ_HIGH_EVENTS).

(** The accelerometer takes no sample and raises no interrupt: the axes
    are off in [CTRL_REG1], no source is routed to INT1 in [CTRL_REG3], the
    FIFO is off in [CTRL_REG5] and no event is configured in [INT1_CFG],
    the values [IMU_Stop] writes ("stop data sampling and interrupt
    events").  [FIFO_CTRL_REG] is left out: it only selects the mode of a
    FIFO that [CTRL_REG5] has switched on, and the main loop rewrites it
    with [IMU_ResetFIFO] in every mode. *)
Definition IMU_sampling_off (r : imu_regs) : bool :=
  (r LIS3DH_CTRL_REG1 =? LIS3DH_CTRL_REG1_STOP_XYZ)
  && (r LIS3DH_CTRL_REG3 =? LIS3DH_CTRL_REG3_NULL)
  && (r LIS3DH_CTRL_REG5 =? LIS3DH_CTRL_REG5_FIFO_DISABLE)
  && (r LIS3DH_INT1_CFG =? LIS3DH_ITN1_CFG_DISABLE_EVENTS).

(* ------------------------------------------------------------------ *)
(** *** The firmware after power-on *)







(* ------------------------------------------------------------------ *)
(** *** Events with their own data *)

(** An over-threshold event as the main loop meets it: the interrupt
    register and the timestamp it reads, and the history queue at that
    moment. *)
Record event : Type := mk_event {
  event_int_reg : Z;
  event_time : Z;
  event_queue : list Z
}.

(** The queue is the 288-byte array of the firmware. *)
Definition event_wf (e : event) : bool :=
  (length (event_queue e) =? LIS3DH_BYTES_IN_LOG_BUFFER)%nat
  && forallb is_byte (event_queue e).

(** The main loop logs event [e]. *)
Definition log_event_of (s : psoc) (e : event) : psoc :=
  log_event (set_log_queue s (event_queue e)) (event_int_reg e) (event_time e).

(** Page [i] of the log the main loop builds for event [e] under
    identifier [id]. *)
Definition event_page (id : Z) (e : event) (i : Z) : log_t :=
  LOG_createMessage id (event_int_reg e) (event_time e)
    (IMU_getPayload (event_queue e) (uninit LOG_MESSAGE_DATA_BYTE) i).

Definition no_event : event := mk_event 0 0 [].

(** The store holds the logs of [evs] in order: [logs_stored], and the
    cells of page [i] of log [j] carry the bytes of the message the main
    loop built for it. *)
Definition logs_hold (evs : list event) (m : eeprom) : Prop :=
  logs_stored (Z.of_nat (length evs)) m
  /\ forall (j i : nat) (x : Z),
       (j < length evs)%nat -> (i < 5)%nat ->
       LOG_DATA_BASE_ADDR + 64 * (5 * Z.of_nat j + Z.of_nat i) <= x
       < LOG_DATA_BASE_ADDR + 64 * (5 * Z.of_nat j + Z.of_nat i) + 64 ->
       m x = u8 (nth (Z.to_nat
                        (x - (LOG_DATA_BASE_ADDR
                              + 64 * (5 * Z.of_nat j + Z.of_nat i))))
                     (LOG_unpackMessage (uninit 64)
                        (event_page (Z.of_nat j) (nth j evs no_event)
                                    (Z.of_nat i)))
                     0).

(** What the mode controller keeps true: in [STOP_MODE] stop is persisted,
    the accelerometer is off and the notification LED is off; in
    [START_MODE] start is persisted, the accelerometer runs and the LED is
    fully on; in [CONFIG_MODE] the accelerometer is off, the LED is at half
    duty and the configuration flag is persisted. *)
Definition mode_consistent (s : psoc) : bool :=
  if button_state s =? STOP_MODE
  then (EEPROM_retrieveStartStopState (cells s) =? 0)
       && IMU_acquisition_disabled (lis3dh s)
       && negb (pwm_notify_enabled s)
  else if button_state s =? START_MODE
  then (EEPROM_retrieveStartStopState (cells s) =? 1)
       && IMU_acquisition_enabled (lis3dh s)
       && pwm_notify_enabled s
       && (pwm_notify_compare s =? 255)
  else if button_state s =? CONFIG_MODE
  then IMU_acquisition_disabled (lis3dh s)
       && pwm_notify_enabled s
       && (pwm_notify_compare s =? 127)
       && (EEPROM_retrieveConfigFlag (cells s) =? 1)
  else false.

(** The calls that reach the accelerometer once [IMU_Init] has run. *)
Inductive imu_op : Type :=
| ImuStart
| ImuStop
| ImuResetFIFO.

Definition run_imu_op (r : imu_regs) (op : imu_op) : imu_regs :=
  match op with
  | ImuStart => IMU_Start r
  | ImuStop => IMU_Stop r
  | ImuResetFIFO => IMU_ResetFIFO r
  end.

(** Sample [i] of axis [j] in a raw FIFO read, as the signed byte
    [Moving_Average] adds up, and the sum of the first [n] of them. *)
Definition axis_sample (dataPtr : list Z) (i j : nat) : Z :=
  s8 (nth (1 + i * 6 + j * 2) dataPtr 0).

Fixpoint axis_sum (dataPtr : list Z) (j n : nat) : Z :=
  match n with
  | O => 0
  | S n' => axis_sum dataPtr j n' + axis_sample dataPtr n' j
  end.

(** The duty the LED gets for a signed acceleration byte. *)
Definition led_duty (v : Z) : Z := 2 * Z.min (Z.abs v) 127.

(* ================================================================== *)
(** * Properties *)

(** ** Bytes and addresses *)

Lemma u8_range (x : Z) : 0 <= u8 x < 256.
Proof. unfold u8. change (2 ^ 8) with 256. apply Z.mod_pos_bound. lia. Qed.

Lemma u16_range (x : Z) : 0 <= u16 x < 65536.
Proof. unfold u16. change (2 ^ 16) with 65536. apply Z.mod_pos_bound. lia. Qed.

Lemma u8_small (x : Z) : 0 <= x < 256 -> u8 x = x.
Proof. intros H. unfold u8. apply Z.mod_small. exact H. Qed.

Lemma u8_idem (x : Z) : u8 (u8 x) = u8 x.
Proof. apply u8_small, u8_range. Qed.

Lemma u16_small (x : Z) : 0 <= x < 65536 -> u16 x = x.
Proof. intros H. unfold u16. apply Z.mod_small. exact H. Qed.

(** A property of bytes that a boolean test accepts on all 256 values
    holds of every byte. *)
Lemma forall_byte (P : Z -> bool) :
  forallb P (map Z.of_nat (seq 0 256)) = true ->
  forall c, 0 <= c < 256 -> P c = true.
Proof.
  intros H c Hc. rewrite forallb_forall in H. apply H.
  apply in_map_iff. exists (Z.to_nat c). split; [lia|].
  apply in_seq. lia.
Qed.

Lemma bus_addr_u16 (a : Z) : bus_addr a = u16 a.
Proof.
  unfold bus_addr, u16. rewrite <- Z.land_ones by lia.
  change 0xFF00 with (Z.shiftl (Z.ones 8) 8). change 0x00FF with (Z.ones 8).
  apply Z.bits_inj'. intros i Hi.
  rewrite Z.lor_spec, !Z.land_spec, Z.shiftl_spec by lia.
  rewrite !Z.testbit_ones by lia.
  destruct (Z.ltb_spec i 8) as [Hlt|Hge].
  - rewrite Z.testbit_neg_r by lia.
    replace (0 <=? i) with true by (symmetry; apply Z.leb_le; lia).
    replace (i <? 16) with true by (symmetry; apply Z.ltb_lt; lia).
    simpl. now rewrite andb_true_r.
  - rewrite Z.shiftr_spec, Z.land_spec, Z.shiftl_spec by lia.
    replace (i - 8 + 8) with i by lia.
    rewrite Z.testbit_ones by lia.
    replace (0 <=? i) with true by (symmetry; apply Z.leb_le; lia).
    replace (0 <=? i - 8) with true by (symmetry; apply Z.leb_le; lia).
    replace (i - 8 <? 8) with (i <? 16).
    2:{ destruct (Z.ltb_spec i 16), (Z.ltb_spec (i - 8) 8); auto; lia. }
    simpl. now rewrite andb_false_r, orb_false_r.
Qed.

Lemma bus_addr_small (a : Z) : 0 <= a < 65536 -> bus_addr a = a.
Proof. intros H. rewrite bus_addr_u16. now apply u16_small. Qed.

Lemma forall_byte_eq (f g : Z -> Z) :
  forallb (fun c => f c =? g c) (map Z.of_nat (seq 0 256)) = true ->
  forall c, 0 <= c < 256 -> f c = g c.
Proof.
  intros H c Hc. apply Z.eqb_eq.
  exact (forall_byte (fun c => f c =? g c) H c Hc).
Qed.

(** ** The control byte *)

Lemma status_cell : bus_addr CTRL_REG_PSOC_STATUS = 0.
Proof. reflexivity. Qed.

Lemma save_flag_bit_ctrl (mask : Z) (m : eeprom) (flag : Z) :
  EEPROM_readByte (save_flag_bit mask m flag) CTRL_REG_PSOC_STATUS
  = ctrl_after_save mask (EEPROM_readByte m CTRL_REG_PSOC_STATUS) (flag =? 1).
Proof.
  unfold save_flag_bit, ctrl_after_save, EEPROM_saveResetFlag,
    EEPROM_waitForWriteComplete, EEPROM_writeByte, EEPROM_readByte.
  rewrite status_cell.
  set (c := u8 (m 0)).
  set (c1 := if flag =? 1 then u8 (Z.lor c mask) else u8 (Z.land c (Z.lnot mask))).
  destruct (negb (Z.land c1 CTRL_REG_PSOC_SET_RESET_FLAG =? 0)).
  - unfold upd. simpl. now rewrite !u8_idem.
  - unfold upd. simpl. subst c1. destruct (flag =? 1); now rewrite !u8_idem.
Qed.

Lemma save_flag_bit_frame (mask : Z) (m : eeprom) (flag a : Z) :
  a <> 0 -> save_flag_bit mask m flag a = m a.
Proof.
  intros Ha.
  unfold save_flag_bit, EEPROM_saveResetFlag, EEPROM_waitForWriteComplete,
    EEPROM_writeByte.
  rewrite status_cell.
  destruct (negb _); unfold upd;
    replace (a =? 0) with false by (symmetry; apply Z.eqb_neq; exact Ha);
    reflexivity.
Qed.

Lemma saveResetFlag_frame (m : eeprom) (flag a : Z) :
  a <> 0 -> EEPROM_saveResetFlag m flag a = m a.
Proof.
  intros Ha.
  unfold EEPROM_saveResetFlag, EEPROM_waitForWriteComplete, EEPROM_writeByte.
  rewrite status_cell. unfold upd.
  replace (a =? 0) with false by (symmetry; apply Z.eqb_neq; exact Ha).
  reflexivity.
Qed.

Lemma retrieve_flag_bit_spec (mask shift : Z) (m : eeprom) :
  retrieve_flag_bit mask shift m
  = flag_of mask shift (EEPROM_readByte m CTRL_REG_PSOC_STATUS).
Proof. reflexivity. Qed.

(** Goals that compare flags read from a control byte before and after a
    flag writer: reduce to the byte, then try all 256 of them. *)
Ltac flag_table m flag :=
  rewrite ?retrieve_flag_bit_spec; rewrite ?save_flag_bit_ctrl;
  let c := fresh "c" in
  let Hc := fresh "Hc" in
  pose proof (u8_range (m (bus_addr CTRL_REG_PSOC_STATUS))) as Hc;
  fold (EEPROM_readByte m CTRL_REG_PSOC_STATUS) in Hc;
  set (c := EEPROM_readByte m CTRL_REG_PSOC_STATUS) in *;
  clearbody c;
  destruct (flag =? 1);
  revert c Hc; apply forall_byte_eq; vm_compute; reflexivity.

Lemma retrieveStartStop_saveStartStop (m : eeprom) (s : Z) :
  EEPROM_retrieveStartStopState (EEPROM_saveStartStopState m s)
  = if s =? 1 then 1 else 0.
Proof.
  unfold EEPROM_retrieveStartStopState, EEPROM_saveStartStopState.
  flag_table m s.
Qed.

Lemma retrieveConfig_saveConfig (m : eeprom) (f : Z) :
  EEPROM_retrieveConfigFlag (EEPROM_saveConfigFlag m f)
  = if f =? 1 then 1 else 0.
Proof.
  unfold EEPROM_retrieveConfigFlag, EEPROM_saveConfigFlag.
  flag_table m f.
Qed.

Lemma retrieveStartStop_saveConfig (m : eeprom) (f : Z) :
  EEPROM_retrieveStartStopState (EEPROM_saveConfigFlag m f)
  = EEPROM_retrieveStartStopState m.
Proof.
  unfold EEPROM_retrieveStartStopState, EEPROM_saveConfigFlag.
  flag_table m f.
Qed.

Lemma retrieveConfig_saveSend (m : eeprom) (f : Z) :
  EEPROM_retrieveConfigFlag (EEPROM_saveSendFlag m f)
  = EEPROM_retrieveConfigFlag m.
Proof.
  unfold EEPROM_retrieveConfigFlag, EEPROM_saveSendFlag.
  flag_table m f.
Qed.

Lemma retrieveStartStop_saveSend (m : eeprom) (f : Z) :
  EEPROM_retrieveStartStopState (EEPROM_saveSendFlag m f)
  = EEPROM_retrieveStartStopState m.
Proof.
  unfold EEPROM_retrieveStartStopState, EEPROM_saveSendFlag.
  flag_table m f.
Qed.

Lemma retrieveStartStop_bit (m : eeprom) :
  EEPROM_retrieveStartStopState m = 0 \/ EEPROM_retrieveStartStopState m = 1.
Proof.
  unfold EEPROM_retrieveStartStopState. rewrite retrieve_flag_bit_spec.
  pose proof (u8_range (m (bus_addr CTRL_REG_PSOC_STATUS))) as Hc.
  fold (EEPROM_readByte m CTRL_REG_PSOC_STATUS) in Hc.
  set (c := EEPROM_readByte m CTRL_REG_PSOC_STATUS) in *. clearbody c.
  pose proof (forall_byte
    (fun c => (flag_of CTRL_REG_PSOC_SET_START
                 CTRL_REG_PSOC_START_STOP_SHIFT c =? 0)
              || (flag_of CTRL_REG_PSOC_SET_START
                    CTRL_REG_PSOC_START_STOP_SHIFT c =? 1))
    eq_refl c Hc) as H.
  simpl in H. apply orb_true_iff in H. destruct H as [H|H]; apply Z.eqb_eq in H; auto.
Qed.

(** ** Mode controller *)

(** C1 (amended). The Start/Stop flag survives in the control byte: what
    [EEPROM_saveStartStopState] wrote is what
    [EEPROM_retrieveStartStopState] reads, and the value read is never
    [CONFIG_MODE].  A cold boot does not resume it: [main] enters
    [STOP_MODE] and writes stop over the persisted flag, whatever the
    EEPROM held. *)
Theorem C1_start_stop_flag_persists_boot_forces_stop :
  (forall m s,
      EEPROM_retrieveStartStopState (EEPROM_saveStartStopState m s)
      = if s =? 1 then START_MODE else STOP_MODE)
  /\ (forall m, EEPROM_retrieveStartStopState m <> CONFIG_MODE)
  /\ (forall m r,
         button_state (main_setup (power_on m r)) = STOP_MODE
         /\ EEPROM_retrieveStartStopState (cells (main_setup (power_on m r)))
            = STOP_MODE).
Proof.
  split; [|split].
  - intros m s. apply retrieveStartStop_saveStartStop.
  - intros m. destruct (retrieveStartStop_bit m) as [H|H]; rewrite H; discriminate.
  - intros m r. split; [reflexivity|].
    cbn [main_setup power_on cells set_lis3dh set_button_state set_cells
         set_send_flag set_data_ready set_over_threshold].
    apply retrieveStartStop_saveStartStop.
Qed.

(** C1 as stated fails: a board that was started (START persisted) comes
    back from a power cycle in [STOP_MODE], with stop persisted. *)
Lemma C1_power_cycle_loses_start :
  let running := CUSTOM_ISR_START (main_setup (power_on blank lis3dh_zero)) in
  button_state running = START_MODE
  /\ EEPROM_retrieveStartStopState (cells running) = START_MODE
  /\ button_state (power_cycle running) <> START_MODE
  /\ EEPROM_retrieveStartStopState (cells (power_cycle running)) <> START_MODE.
Proof. vm_compute. repeat split; discriminate. Qed.

Lemma IMU_Stop_disables (r : imu_regs) :
  IMU_acquisition_disabled (IMU_Stop r) = true.
Proof. reflexivity. Qed.

(** ** Page writes *)

Lemma page_program_frame (bytes : list Z) :
  forall (m : eeprom) (base off x : Z),
    x < base \/ base + SPI_EEPROM_PAGE_SIZE <= x ->
    page_program m base off bytes x = m x.
Proof.
  induction bytes as [|b bs IH]; intros m base off x Hx; simpl.
  - reflexivity.
  - rewrite IH by exact Hx. unfold upd.
    assert (0 <= off mod SPI_EEPROM_PAGE_SIZE < SPI_EEPROM_PAGE_SIZE)
      by (apply Z.mod_pos_bound; reflexivity).
    destruct (Z.eqb_spec x (base + off mod SPI_EEPROM_PAGE_SIZE)); [lia | reflexivity].
Qed.

Lemma writePage_frame (m : eeprom) (addr : Z) (dat : list Z) (n : nat) (x : Z) :
  0 <= addr < 65536 ->
  x < addr - addr mod 64 \/ addr - addr mod 64 + 64 <= x ->
  EEPROM_writePage m addr dat n x = m x.
Proof.
  intros Ha Hx. unfold EEPROM_writePage. rewrite bus_addr_small by exact Ha.
  apply page_program_frame. exact Hx.
Qed.

(** Programming [n] zero bytes: a cell reads zero afterwards, or it was
    not among the cells the latch stepped over and keeps its content. *)
Lemma page_program_zeros (n : nat) :
  forall (m : eeprom) (base off x : Z),
    page_program m base off (repeat 0 n) x = 0
    \/ (page_program m base off (repeat 0 n) x = m x
        /\ forall i, 0 <= i < Z.of_nat n ->
                     base + (off + i) mod SPI_EEPROM_PAGE_SIZE <> x).
Proof.
  induction n as [|n IH]; intros m base off x.
  - right. split; [reflexivity | intros i Hi; lia].
  - cbn [repeat page_program].
    destruct (IH (upd m (base + off mod SPI_EEPROM_PAGE_SIZE) (u8 0))
                 base (off + 1) x) as [H0 | [Hm Hmiss]].
    + left. exact H0.
    + rewrite Hm. unfold upd.
      destruct (Z.eqb_spec x (base + off mod SPI_EEPROM_PAGE_SIZE)) as [E|NE].
      * left. reflexivity.
      * right. split; [reflexivity|].
        intros i Hi. destruct (Z.eq_dec i 0) as [->|Hnz].
        -- rewrite Z.add_0_r. congruence.
        -- replace (off + i) with (off + 1 + (i - 1)) by lia.
           apply Hmiss. lia.
Qed.

Lemma writePage_zero_page (m : eeprom) (addr x : Z) :
  0 <= addr < 65536 -> addr mod 64 = 0 ->
  EEPROM_writePage m addr zero_page (Z.to_nat SPI_EEPROM_PAGE_SIZE) x
  = if (addr <=? x) && (x <? addr + 64) then 0 else m x.
Proof.
  intros Ha Hal. unfold EEPROM_writePage.
  rewrite bus_addr_small by exact Ha.
  change SPI_EEPROM_PAGE_SIZE with 64. rewrite Hal, Z.sub_0_r.
  change (map (fun i => nth i zero_page 0) (seq 0 (Z.to_nat 64)))
    with (repeat 0 64).
  destruct (Z.leb_spec addr x) as [Hle|Hlt]; cbn [andb].
  - destruct (Z.ltb_spec x (addr + 64)) as [Hin|Hout].
    + destruct (page_program_zeros 64 m addr 0 x) as [H0 | [_ Hmiss]];
        [exact H0|].
      exfalso. apply (Hmiss (x - addr)); [lia|].
      change SPI_EEPROM_PAGE_SIZE with 64. rewrite Z.add_0_l.
      rewrite Z.mod_small by lia. lia.
    + apply page_program_frame. right. change SPI_EEPROM_PAGE_SIZE with 64. lia.
  - apply page_program_frame. left. lia.
Qed.

Lemma page_program_read (bytes : list Z) :
  forall (m : eeprom) (base off x : Z),
    0 <= off -> off + Z.of_nat (length bytes) <= SPI_EEPROM_PAGE_SIZE ->
    page_program m base off bytes x
    = if (base + off <=? x) && (x <? base + off + Z.of_nat (length bytes))
      then u8 (nth (Z.to_nat (x - base - off)) bytes 0)
      else m x.
Proof.
  change SPI_EEPROM_PAGE_SIZE with 64.
  induction bytes as [|b bs IH]; intros m base off x Hoff Hlen.
  - cbn [page_program length].
    destruct (Z.leb_spec (base + off) x), (Z.ltb_spec x (base + off + Z.of_nat 0));
      cbn [andb]; try reflexivity; lia.
  - cbn [page_program]. cbn [length] in Hlen |- *.
    rewrite IH by lia.
    change SPI_EEPROM_PAGE_SIZE with 64. rewrite (Z.mod_small off 64) by lia.
    unfold upd.
    destruct (Z.leb_spec (base + (off + 1)) x) as [H1|H1];
      destruct (Z.ltb_spec x (base + (off + 1) + Z.of_nat (length bs))) as [H2|H2];
      destruct (Z.leb_spec (base + off) x) as [H3|H3];
      destruct (Z.ltb_spec x (base + off + Z.of_nat (S (length bs)))) as [H4|H4];
      destruct (Z.eqb_spec x (base + off)) as [H5|H5];
      cbn [andb]; try reflexivity; try lia.
    + replace (Z.to_nat (x - base - off)) with (S (Z.to_nat (x - base - (off + 1))))
        by lia.
      reflexivity.
    + subst x. replace (base + off - base - off) with 0 by lia. reflexivity.
Qed.

Lemma writePage_read (m : eeprom) (addr : Z) (dat : list Z) (x : Z) :
  0 <= addr < 65536 -> addr mod 64 = 0 ->
  EEPROM_writePage m addr dat (Z.to_nat SPI_EEPROM_PAGE_SIZE) x
  = if (addr <=? x) && (x <? addr + 64)
    then u8 (nth (Z.to_nat (x - addr)) dat 0)
    else m x.
Proof.
  intros Ha Hal. unfold EEPROM_writePage.
  rewrite bus_addr_small by exact Ha.
  change SPI_EEPROM_PAGE_SIZE with 64. rewrite Hal, Z.sub_0_r.
  rewrite page_program_read
    by (rewrite ?length_map, ?length_seq; change SPI_EEPROM_PAGE_SIZE with 64; lia).
  rewrite length_map, length_seq, Z.add_0_r, Z.sub_0_r.
  change (Z.of_nat (Z.to_nat 64)) with 64.
  destruct (Z.leb_spec addr x) as [H1|H1];
    destruct (Z.ltb_spec x (addr + 64)) as [H2|H2]; cbn [andb]; try reflexivity.
  f_equal.
  rewrite (nth_indep _ 0 (nth 0 dat 0))
    by (rewrite length_map, length_seq; lia).
  rewrite (map_nth (fun i => nth i dat 0)). rewrite seq_nth by lia.
  reflexivity.
Qed.

(** ** Full erase *)

Lemma resetMemory_loop_cells (n : nat) :
  forall (m : eeprom) (page_addr x : Z),
    0 <= page_addr -> page_addr mod 64 = 0 ->
    page_addr + 64 * Z.of_nat n <= 65536 ->
    resetMemory_loop n m zero_page page_addr x
    = if (page_addr <=? x) && (x <? page_addr + 64 * Z.of_nat n)
      then 0 else m x.
Proof.
  induction n as [|n IH]; intros m pa x Hpa Hal Hend.
  - cbn [resetMemory_loop].
    destruct (Z.leb_spec pa x), (Z.ltb_spec x (pa + 64 * Z.of_nat 0));
      cbn [andb]; try reflexivity; lia.
  - cbn [resetMemory_loop]. unfold EEPROM_waitForWriteComplete.
    destruct n as [|n'].
    + cbn [resetMemory_loop]. rewrite writePage_zero_page by lia.
      replace (pa + 64 * Z.of_nat 1) with (pa + 64) by lia. reflexivity.
    + change SPI_EEPROM_PAGE_SIZE with 64 at 2.
      rewrite (u16_small (pa + 64)) by lia.
      rewrite IH.
      * rewrite writePage_zero_page by lia.
        destruct (Z.leb_spec (pa + 64) x), (Z.ltb_spec x (pa + 64 + 64 * Z.of_nat (S n'))),
          (Z.leb_spec pa x), (Z.ltb_spec x (pa + 64)),
          (Z.ltb_spec x (pa + 64 * Z.of_nat (S (S n'))));
          cbn [andb]; try reflexivity; lia.
      * lia.
      * rewrite <- Z.add_mod_idemp_l, Hal by lia. reflexivity.
      * lia.
Qed.

(** Cell by cell, what [EEPROM_resetMemory] leaves: the reset marker alone
    in the control byte, zero up to the end of page 510, and the old
    content from 0x7FC0 on. *)
Lemma resetMemory_cells (m : eeprom) (x : Z) :
  EEPROM_resetMemory m x
  = if x =? 0 then 8
    else if (0 <? x) && (x <? 0x7FC0) then 0 else m x.
Proof.
  unfold EEPROM_resetMemory, EEPROM_saveResetFlag, EEPROM_waitForWriteComplete,
    EEPROM_writeByte, EEPROM_readByte.
  rewrite status_cell. fold zero_page.
  change (Z.to_nat (SPI_EEPROM_PAGE_COUNT - 1)) with 511%nat.
  unfold upd. rewrite !resetMemory_loop_cells by (try reflexivity; lia).
  destruct (Z.eqb_spec x 0) as [->|Hx]; [reflexivity|].
  change (0 + 64 * Z.of_nat 511) with 0x7FC0.
  destruct (Z.leb_spec 0 x), (Z.ltb_spec 0 x), (Z.ltb_spec x 0x7FC0);
    cbn [andb]; try reflexivity; lia.
Qed.

(** ** The page counter *)

Lemma lor_shift_byte (h l : Z) :
  0 <= h < 256 -> 0 <= l < 256 -> Z.lor (Z.shiftl h 8) l = 256 * h + l.
Proof.
  intros Hh Hl.
  rewrite Z.shiftl_mul_pow2 by lia. change (2 ^ 8) with 256.
  assert (Hdisj : Z.land (h * 256) l = 0).
  { apply Z.bits_inj'. intros i Hi. rewrite Z.land_spec, Z.bits_0.
    destruct (Z.ltb_spec i 8).
    - change 256 with (2 ^ 8). rewrite Z.mul_pow2_bits_low by lia. reflexivity.
    - destruct (Z.eq_dec l 0) as [->|Hnz].
      + rewrite Z.bits_0. apply andb_false_r.
      + rewrite (Z.bits_above_log2 l i); [apply andb_false_r | lia |].
        assert (Z.log2 l < 8) by (apply Z.log2_lt_pow2; lia). lia. }
  rewrite <- Z.lxor_lor by exact Hdisj.
  rewrite <- Z.add_nocarry_lxor by exact Hdisj.
  lia.
Qed.

Lemma lor_high_low (h l : Z) :
  0 <= h < 256 -> 0 <= l < 256 ->
  u16 (Z.lor (u16 (Z.shiftl h 8)) l) = 256 * h + l.
Proof.
  intros Hh Hl.
  rewrite (u16_small (Z.shiftl h 8))
    by (rewrite Z.shiftl_mul_pow2 by lia; change (2 ^ 8) with 256; lia).
  rewrite lor_shift_byte by assumption. apply u16_small. lia.
Qed.

Lemma retrieveLogPages_cells (m : eeprom) :
  EEPROM_retrieveLogPages m = 256 * u8 (m 0x16) + u8 (m 0x08).
Proof.
  unfold EEPROM_retrieveLogPages, EEPROM_readByte.
  change (bus_addr CTRL_REG_LOG_PAGES_HIGH) with 0x16.
  change (bus_addr CTRL_REG_LOG_PAGES_LOW) with 0x08.
  apply lor_high_low; apply u8_range.
Qed.

Lemma retrieveLogPages_ext (m m' : eeprom) :
  m' 0x16 = m 0x16 -> m' 0x08 = m 0x08 ->
  EEPROM_retrieveLogPages m' = EEPROM_retrieveLogPages m.
Proof. intros H1 H2. rewrite !retrieveLogPages_cells, H1, H2. reflexivity. Qed.

(** The two bytes [EEPROM_incrementLogCounter] sends go to cells 0x08 and
    0x09. *)
Lemma incrementLogCounter_cells (m : eeprom) :
  EEPROM_retrieveLogPages m < SPI_EEPROM_PAGE_COUNT ->
  EEPROM_incrementLogCounter m
  = upd (upd m 0x08 ((EEPROM_retrieveLogPages m + 1) mod 256))
        0x09 ((EEPROM_retrieveLogPages m + 1) / 256).
Proof.
  intros Hlt. unfold EEPROM_incrementLogCounter.
  replace (EEPROM_retrieveLogPages m <? SPI_EEPROM_PAGE_COUNT) with true
    by (symmetry; apply Z.ltb_lt; exact Hlt).
  set (pc := EEPROM_retrieveLogPages m) in *.
  assert (Hpc : 0 <= pc < 512).
  { split; [|exact Hlt]. subst pc. rewrite retrieveLogPages_cells.
    pose proof (u8_range (m 0x16)). pose proof (u8_range (m 0x08)). lia. }
  rewrite (u16_small (pc + 1)) by lia.
  unfold EEPROM_waitForWriteComplete, EEPROM_writePage.
  change (bus_addr CTRL_REG_LOG_PAGES_LOW) with 8.
  cbn [uninit repeat array_set seq map nth page_program].
  change (8 - 8 mod SPI_EEPROM_PAGE_SIZE + 8 mod SPI_EEPROM_PAGE_SIZE mod SPI_EEPROM_PAGE_SIZE) with 8.
  change (8 - 8 mod SPI_EEPROM_PAGE_SIZE + (8 mod SPI_EEPROM_PAGE_SIZE + 1) mod SPI_EEPROM_PAGE_SIZE) with 9.
  change 0x00FF with (Z.ones 8). rewrite !Z.land_ones by lia.
  rewrite Z.shiftr_div_pow2 by lia. change (2 ^ 8) with 256.
  assert (0 <= (pc + 1) mod 256 < 256) by (apply Z.mod_pos_bound; lia).
  assert (0 <= (pc + 1) / 256 < 256)
    by (split; [apply Z.div_pos; lia | apply Z.div_lt_upper_bound; lia]).
  rewrite (Z.mod_small ((pc + 1) / 256) 256) by assumption.
  rewrite !u8_idem, !u8_small by assumption.
  reflexivity.
Qed.

Lemma incrementLogCounter_saturated (m : eeprom) :
  SPI_EEPROM_PAGE_COUNT <= EEPROM_retrieveLogPages m ->
  EEPROM_incrementLogCounter m = m.
Proof.
  intros Hge. unfold EEPROM_incrementLogCounter.
  replace (EEPROM_retrieveLogPages m <? SPI_EEPROM_PAGE_COUNT) with false
    by (symmetry; apply Z.ltb_ge; exact Hge).
  reflexivity.
Qed.

(** The counter as the store reads it after an increment: the high byte
    still comes from cell 0x16, which the increment does not write. *)
Lemma retrieveLogPages_increment (m : eeprom) :
  EEPROM_retrieveLogPages m < SPI_EEPROM_PAGE_COUNT ->
  EEPROM_retrieveLogPages (EEPROM_incrementLogCounter m)
  = 256 * u8 (m 0x16) + (EEPROM_retrieveLogPages m + 1) mod 256.
Proof.
  intros Hlt. rewrite incrementLogCounter_cells by exact Hlt.
  rewrite retrieveLogPages_cells. unfold upd. cbn [Z.eqb Pos.eqb].
  rewrite (u8_small ((EEPROM_retrieveLogPages m + 1) mod 256))
    by (apply Z.mod_pos_bound; lia).
  reflexivity.
Qed.

Lemma incrementLogCounter_bound (m : eeprom) :
  EEPROM_retrieveLogPages m <= SPI_EEPROM_PAGE_COUNT ->
  EEPROM_retrieveLogPages (EEPROM_incrementLogCounter m) <= SPI_EEPROM_PAGE_COUNT.
Proof.
  intros Hle. change SPI_EEPROM_PAGE_COUNT with 512 in *.
  destruct (Z.lt_ge_cases (EEPROM_retrieveLogPages m) 512) as [Hlt|Hge].
  - rewrite retrieveLogPages_increment by exact Hlt.
    rewrite retrieveLogPages_cells in Hlt.
    pose proof (u8_range (m 0x16)). pose proof (u8_range (m 0x08)).
    assert (0 <= (EEPROM_retrieveLogPages m + 1) mod 256 < 256)
      by (apply Z.mod_pos_bound; lia).
    lia.
  - rewrite incrementLogCounter_saturated by exact Hge. exact Hle.
Qed.

Lemma storeLogData_counter (m : eeprom) (dataPtr : list Z) :
  EEPROM_retrieveLogPages m <= SPI_EEPROM_PAGE_COUNT ->
  EEPROM_retrieveLogPages (EEPROM_storeLogData m dataPtr)
  = EEPROM_retrieveLogPages m.
Proof.
  intros Hle. unfold EEPROM_storeLogData.
  set (pc := EEPROM_retrieveLogPages m) in *.
  assert (Hpc : 0 <= pc <= 512).
  { split; [|exact Hle]. subst pc. rewrite retrieveLogPages_cells.
    pose proof (u8_range (m 0x16)). pose proof (u8_range (m 0x08)). lia. }
  change LOG_DATA_BASE_ADDR with 64. change SPI_EEPROM_PAGE_SIZE with 64.
  rewrite (u16_small (64 + pc * 64)) by lia.
  destruct (64 + pc * 64 <=? SPI_EEPROM_SIZE_BYTE - 64); [|reflexivity].
  unfold EEPROM_waitForWriteComplete.
  assert (Hal : (64 + pc * 64) mod 64 = 0).
  { replace (64 + pc * 64) with ((pc + 1) * 64) by lia. apply Z.mod_mul. lia. }
  apply retrieveLogPages_ext; apply writePage_frame; try lia;
    left; rewrite Hal; lia.
Qed.

Lemma storeLogMessage_bound (m : eeprom) (message : log_t) :
  EEPROM_retrieveLogPages m <= SPI_EEPROM_PAGE_COUNT ->
  EEPROM_retrieveLogPages (EEPROM_storeLogMessage m message)
  <= SPI_EEPROM_PAGE_COUNT.
Proof.
  intros Hle. unfold EEPROM_storeLogMessage.
  apply incrementLogCounter_bound. rewrite storeLogData_counter; exact Hle.
Qed.

Lemma for_loop_invariant {S : Type} (P : S -> Prop) (n : nat)
      (body : nat -> S -> S) (s : S) :
  (forall i x, P x -> P (body i x)) -> P s -> P (for_loop n body s).
Proof.
  intros Hbody. unfold for_loop. generalize (seq 0 n) as l. intros l. revert s.
  induction l as [|i l IH]; intros s Hs; cbn [fold_left]; auto.
Qed.

Lemma appendLog_bound (m : eeprom) (log_id int_reg time : Z) (queue : list Z) :
  EEPROM_retrieveLogPages m <= SPI_EEPROM_PAGE_COUNT ->
  EEPROM_retrieveLogPages (appendLog m log_id int_reg time queue)
  <= SPI_EEPROM_PAGE_COUNT.
Proof.
  intros Hle. unfold appendLog.
  apply (for_loop_invariant
           (fun m => EEPROM_retrieveLogPages m <= SPI_EEPROM_PAGE_COUNT));
    [|exact Hle].
  intros i x Hx. apply storeLogMessage_bound. exact Hx.
Qed.

Lemma resetMemory_counter (m : eeprom) :
  EEPROM_retrieveLogPages (EEPROM_resetMemory m) = 0.
Proof.
  rewrite retrieveLogPages_cells, !resetMemory_cells. reflexivity.
Qed.

Lemma save_flag_bit_counter (mask : Z) (m : eeprom) (flag : Z) :
  EEPROM_retrieveLogPages (save_flag_bit mask m flag) = EEPROM_retrieveLogPages m.
Proof. apply retrieveLogPages_ext; apply save_flag_bit_frame; discriminate. Qed.

Lemma saveResetFlag_counter (m : eeprom) (flag : Z) :
  EEPROM_retrieveLogPages (EEPROM_saveResetFlag m flag) = EEPROM_retrieveLogPages m.
Proof. apply retrieveLogPages_ext; apply saveResetFlag_frame; discriminate. Qed.

(** C9. The page counter never exceeds 512: every writing operation of the
    store keeps [EEPROM_retrieveLogPages <= SPI_EEPROM_PAGE_COUNT];
    [EEPROM_incrementLogCounter] writes the counter plus one (cells 0x08,
    0x09) only while the counter is strictly below 512 and leaves the store
    as it is otherwise. *)
Theorem C9_page_counter_bounded :
  (forall op m,
      EEPROM_retrieveLogPages m <= SPI_EEPROM_PAGE_COUNT ->
      EEPROM_retrieveLogPages (run_op op m) <= SPI_EEPROM_PAGE_COUNT)
  /\ (forall m,
         EEPROM_retrieveLogPages m < SPI_EEPROM_PAGE_COUNT ->
         EEPROM_incrementLogCounter m
         = upd (upd m 0x08 ((EEPROM_retrieveLogPages m + 1) mod 256))
               0x09 ((EEPROM_retrieveLogPages m + 1) / 256))
  /\ (forall m,
         SPI_EEPROM_PAGE_COUNT <= EEPROM_retrieveLogPages m ->
         EEPROM_incrementLogCounter m = m).
Proof.
  split; [|split].
  - intros op m Hle. destruct op; cbn [run_op].
    + unfold EEPROM_saveStartStopState. now rewrite save_flag_bit_counter.
    + unfold EEPROM_saveConfigFlag. now rewrite save_flag_bit_counter.
    + unfold EEPROM_saveSendFlag. now rewrite save_flag_bit_counter.
    + now rewrite saveResetFlag_counter.
    + now apply incrementLogCounter_bound.
    + now rewrite storeLogData_counter.
    + now apply storeLogMessage_bound.
    + now apply appendLog_bound.
    + rewrite resetMemory_counter. discriminate.
  - exact incrementLogCounter_cells.
  - exact incrementLogCounter_saturated.
Qed.

Lemma C9_page_counter_bounded_witness :
  (EEPROM_retrieveLogPages blank <= SPI_EEPROM_PAGE_COUNT
   /\ EEPROM_retrieveLogPages (run_op (OpAppendLog 0 0x6A 7 sample_queue) blank)
      <= SPI_EEPROM_PAGE_COUNT)
  /\ (EEPROM_retrieveLogPages blank < SPI_EEPROM_PAGE_COUNT
      /\ EEPROM_incrementLogCounter blank
         = upd (upd blank 0x08 ((EEPROM_retrieveLogPages blank + 1) mod 256))
               0x09 ((EEPROM_retrieveLogPages blank + 1) / 256))
  /\ (SPI_EEPROM_PAGE_COUNT <= EEPROM_retrieveLogPages counter_saturated
      /\ EEPROM_incrementLogCounter counter_saturated = counter_saturated).
Proof.
  assert (H1 : EEPROM_retrieveLogPages blank <= SPI_EEPROM_PAGE_COUNT)
    by (vm_compute; discriminate).
  assert (H2 : EEPROM_retrieveLogPages blank < SPI_EEPROM_PAGE_COUNT)
    by (vm_compute; reflexivity).
  assert (H3 : SPI_EEPROM_PAGE_COUNT <= EEPROM_retrieveLogPages counter_saturated)
    by (vm_compute; discriminate).
  destruct C9_page_counter_bounded as [A [B C]].
  split; [split | split; split].
  - exact H1.
  - exact (A (OpAppendLog 0 0x6A 7 sample_queue) blank H1).
  - exact H2.
  - exact (B blank H2).
  - exact H3.
  - exact (C counter_saturated H3).
Defined.

(** ** Full erase: what it reaches *)

(** C4 (what the code does, for every starting store).  After
    [EEPROM_resetMemory] the log count is 0, the reset marker reads 1 and
    pages 1 to 510 read zero, as claimed; page 511, the last of the 512,
    is not written: each of its 64 cells reads what it read before. *)
Theorem C4_eraseAll_leaves_page_511 (m : eeprom) :
  EEPROM_retrieveLogCount (EEPROM_resetMemory m) = 0
  /\ EEPROM_retrieveResetFlag (EEPROM_resetMemory m) = 1
  /\ (forall a, LOG_DATA_BASE_ADDR <= a < 0x7FC0 ->
                EEPROM_readByte (EEPROM_resetMemory m) a = 0)
  /\ (forall a, 0x7FC0 <= a <= SPI_EEPROM_SIZE_BYTE ->
                EEPROM_readByte (EEPROM_resetMemory m) a = EEPROM_readByte m a).
Proof.
  change LOG_DATA_BASE_ADDR with 64. change SPI_EEPROM_SIZE_BYTE with 0x7FFF.
  split; [|split; [|split]].
  - unfold EEPROM_retrieveLogCount. rewrite resetMemory_counter. reflexivity.
  - unfold EEPROM_retrieveResetFlag, retrieve_flag_bit, EEPROM_readByte.
    rewrite status_cell, resetMemory_cells. reflexivity.
  - intros a Ha. unfold EEPROM_readByte. rewrite bus_addr_small by lia.
    rewrite resetMemory_cells.
    destruct (Z.eqb_spec a 0); [lia|].
    destruct (Z.ltb_spec 0 a), (Z.ltb_spec a 0x7FC0); cbn [andb];
      try reflexivity; lia.
  - intros a Ha. unfold EEPROM_readByte. rewrite bus_addr_small by lia.
    rewrite resetMemory_cells.
    destruct (Z.eqb_spec a 0); [lia|].
    destruct (Z.ltb_spec 0 a), (Z.ltb_spec a 0x7FC0); cbn [andb];
      try reflexivity; lia.
Qed.

Lemma C4_eraseAll_leaves_page_511_witness :
  (LOG_DATA_BASE_ADDR <= 0x7F80 < 0x7FC0
   /\ EEPROM_readByte (EEPROM_resetMemory factory_fresh) 0x7F80 = 0)
  /\ (0x7FC0 <= 0x7FC0 <= SPI_EEPROM_SIZE_BYTE
      /\ EEPROM_readByte (EEPROM_resetMemory factory_fresh) 0x7FC0 = 0xFF).
Proof.
  assert (H1 : LOG_DATA_BASE_ADDR <= 0x7F80 < 0x7FC0)
    by (split; [discriminate | reflexivity]).
  assert (H2 : 0x7FC0 <= 0x7FC0 <= SPI_EEPROM_SIZE_BYTE)
    by (split; discriminate).
  destruct (C4_eraseAll_leaves_page_511 factory_fresh) as (_ & _ & Hz & Hlast).
  split; split; try assumption.
  - exact (Hz 0x7F80 H1).
  - exact (Hlast 0x7FC0 H2).
Defined.

(** The erase evaluated on an EEPROM as it leaves the factory: page 510 is
    erased, page 511 still reads 0xFF, and a lookup of identifier 0xFF
    finds it. *)
Example eraseAll_factory_fresh :
  let m := EEPROM_resetMemory factory_fresh in
  EEPROM_readPage m 0x7F80 64 = repeat 0 64
  /\ EEPROM_readPage m 0x7FC0 64 = repeat 0xFF 64
  /\ EEPROM_findLogID m 0xFF = 0x7FC0.
Proof. vm_compute. repeat split; reflexivity. Qed.

(** ** Lookup by identifier *)

(** The scan returns: from any header address below the end of the memory,
    one header read per remaining page is fuel enough. *)
Lemma findLogID_loop_total (fuel : nat) :
  forall (m : eeprom) (id addrPtr : Z),
    0 <= addrPtr < SPI_EEPROM_SIZE_BYTE ->
    SPI_EEPROM_SIZE_BYTE - addrPtr <= 64 * Z.of_nat fuel ->
    exists r, findLogID_loop fuel m id addrPtr = Some r.
Proof.
  change SPI_EEPROM_SIZE_BYTE with 0x7FFF.
  induction fuel as [|fuel IH]; intros m id a Ha Hfuel; [lia|].
  cbn [findLogID_loop].
  destruct (negb (EEPROM_readByte m a =? id)); [|eexists; reflexivity].
  change SPI_EEPROM_PAGE_SIZE with 64. rewrite u16_small by lia.
  change SPI_EEPROM_SIZE_BYTE with 0x7FFF.
  destruct (Z.geb_spec (a + 64) 0x7FFF) as [Hend|Hin]; [eexists; reflexivity|].
  apply IH; lia.
Qed.

Lemma findLogID_returns (m : eeprom) (id : Z) :
  findLogID_loop 512 m id LOG_DATA_BASE_ADDR = Some (EEPROM_findLogID m id).
Proof.
  unfold EEPROM_findLogID.
  destruct (findLogID_loop_total 512 m id LOG_DATA_BASE_ADDR) as [r Hr].
  - split; [discriminate | reflexivity].
  - discriminate.
  - rewrite Hr. reflexivity.
Qed.

Lemma findLogID_first_page (m : eeprom) (id : Z) :
  EEPROM_readByte m LOG_DATA_BASE_ADDR = id ->
  EEPROM_findLogID m id = LOG_DATA_BASE_ADDR.
Proof.
  intros H. unfold EEPROM_findLogID.
  change 512%nat with (S 511). cbn [findLogID_loop].
  rewrite H, Z.eqb_refl. reflexivity.
Qed.

(** No header from [addrPtr] on matches: the scan ends on the sentinel. *)
Lemma findLogID_loop_not_found (fuel : nat) :
  forall (m : eeprom) (id addrPtr : Z),
    0 <= addrPtr < SPI_EEPROM_SIZE_BYTE ->
    SPI_EEPROM_SIZE_BYTE - addrPtr <= 64 * Z.of_nat fuel ->
    (forall k, 0 <= k -> addrPtr + 64 * k < SPI_EEPROM_SIZE_BYTE ->
               EEPROM_readByte m (addrPtr + 64 * k) <> id) ->
    findLogID_loop fuel m id addrPtr = Some 0xFFFF.
Proof.
  change SPI_EEPROM_SIZE_BYTE with 0x7FFF.
  induction fuel as [|fuel IH]; intros m id a Ha Hfuel Hno; [lia|].
  cbn [findLogID_loop].
  destruct (Z.eqb_spec (EEPROM_readByte m a) id) as [E|NE].
  - exfalso. apply (Hno 0); [lia | lia |]. rewrite Z.mul_0_r, Z.add_0_r. exact E.
  - cbn [negb]. change SPI_EEPROM_PAGE_SIZE with 64. rewrite u16_small by lia.
    change SPI_EEPROM_SIZE_BYTE with 0x7FFF.
    destruct (Z.geb_spec (a + 64) 0x7FFF) as [Hend|Hin]; [reflexivity|].
    apply IH; try lia.
    intros k Hk Hlt. replace (a + 64 + 64 * k) with (a + 64 * (k + 1)) by lia.
    apply Hno; lia.
Qed.

(** Identifier not found: when no page header of the scanned region
    (pages 1 to 511) holds [id], [EEPROM_findLogID] returns 0xFFFF. *)
Lemma findLogID_not_found (m : eeprom) (id : Z) :
  (forall k, 0 <= k < 511 ->
             EEPROM_readByte m (LOG_DATA_BASE_ADDR + 64 * k) <> id) ->
  EEPROM_findLogID m id = 0xFFFF.
Proof.
  intros Hno. unfold EEPROM_findLogID.
  rewrite findLogID_loop_not_found; try reflexivity.
  - split; [discriminate | reflexivity].
  - discriminate.
  - intros k Hk Hlt. apply Hno.
    change LOG_DATA_BASE_ADDR with 64 in Hlt.
    change SPI_EEPROM_SIZE_BYTE with 0x7FFF in Hlt. lia.
Qed.

(** ** Lookup: the earliest matching header wins *)

Lemma findLogID_loop_found (j : nat) :
  forall (fuel : nat) (m : eeprom) (id addrPtr : Z),
    (j < fuel)%nat ->
    0 <= addrPtr -> addrPtr + 64 * Z.of_nat j < SPI_EEPROM_SIZE_BYTE ->
    EEPROM_readByte m (addrPtr + 64 * Z.of_nat j) = id ->
    (forall i, 0 <= i < Z.of_nat j ->
               EEPROM_readByte m (addrPtr + 64 * i) <> id) ->
    findLogID_loop fuel m id addrPtr = Some (addrPtr + 64 * Z.of_nat j).
Proof.
  change SPI_EEPROM_SIZE_BYTE with 0x7FFF.
  induction j as [|j IH]; intros fuel m id a Hfuel Ha Hend Hhit Hmiss;
    (destruct fuel as [|fuel]; [lia|]); cbn [findLogID_loop].
  - replace (a + 64 * Z.of_nat 0) with a in * by lia.
    rewrite Hhit, Z.eqb_refl. reflexivity.
  - destruct (Z.eqb_spec (EEPROM_readByte m a) id) as [E|NE].
    + exfalso. apply (Hmiss 0); [lia|]. rewrite Z.mul_0_r, Z.add_0_r. exact E.
    + cbn [negb]. change SPI_EEPROM_PAGE_SIZE with 64.
      rewrite u16_small by lia. change SPI_EEPROM_SIZE_BYTE with 0x7FFF.
      destruct (Z.geb_spec (a + 64) 0x7FFF) as [Hge|Hlt]; [lia|].
      replace (a + 64 * Z.of_nat (S j)) with (a + 64 + 64 * Z.of_nat j) in * by lia.
      apply IH; try lia; try assumption.
      intros i Hi. replace (a + 64 + 64 * i) with (a + 64 * (i + 1)) by lia.
      apply Hmiss. lia.
Qed.

(** Page [p] (counted from the first log page) carries [id] in its header
    and no earlier page does: the lookup returns the address of page [p]. *)
Lemma findLogID_found (m : eeprom) (id p : Z) :
  0 <= p < 511 ->
  EEPROM_readByte m (LOG_DATA_BASE_ADDR + 64 * p) = id ->
  (forall i, 0 <= i < p ->
             EEPROM_readByte m (LOG_DATA_BASE_ADDR + 64 * i) <> id) ->
  EEPROM_findLogID m id = LOG_DATA_BASE_ADDR + 64 * p.
Proof.
  intros Hp Hhit Hmiss. unfold EEPROM_findLogID.
  rewrite (findLogID_loop_found (Z.to_nat p)).
  - rewrite Z2Nat.id by lia. reflexivity.
  - lia.
  - discriminate.
  - rewrite Z2Nat.id by lia. change LOG_DATA_BASE_ADDR with 64.
    change SPI_EEPROM_SIZE_BYTE with 0x7FFF. lia.
  - rewrite Z2Nat.id by lia. exact Hhit.
  - intros i Hi. apply Hmiss. lia.
Qed.

(** C10. Identifier 0 cannot be told from erased pages: in a store whose
    log-data region holds only zero bytes, and in any store right after a
    full erase, [EEPROM_findLogID 0] returns the address of the first
    log-data page, not the 0xFFFF sentinel, though no log 0 was appended. *)
Theorem C10_id_zero_found_in_erased_store :
  (forall m,
      (forall a, LOG_DATA_BASE_ADDR <= a <= SPI_EEPROM_SIZE_BYTE ->
                 EEPROM_readByte m a = 0) ->
      EEPROM_findLogID m 0 = LOG_DATA_BASE_ADDR)
  /\ (forall m, EEPROM_findLogID (EEPROM_resetMemory m) 0 = LOG_DATA_BASE_ADDR)
  /\ LOG_DATA_BASE_ADDR <> 0xFFFF.
Proof.
  split; [|split].
  - intros m Hzero. apply findLogID_first_page. apply Hzero.
    split; [reflexivity | discriminate].
  - intros m. apply findLogID_first_page.
    unfold EEPROM_readByte. change (bus_addr LOG_DATA_BASE_ADDR) with 64.
    rewrite resetMemory_cells. reflexivity.
  - discriminate.
Qed.

Lemma C10_id_zero_found_in_erased_store_witness :
  (forall a, LOG_DATA_BASE_ADDR <= a <= SPI_EEPROM_SIZE_BYTE ->
             EEPROM_readByte blank a = 0)
  /\ EEPROM_findLogID blank 0 = LOG_DATA_BASE_ADDR.
Proof.
  assert (H : forall a, LOG_DATA_BASE_ADDR <= a <= SPI_EEPROM_SIZE_BYTE ->
                        EEPROM_readByte blank a = 0)
    by (intros a _; reflexivity).
  split; [exact H | exact (proj1 C10_id_zero_found_in_erased_store blank H)].
Defined.

(** ** Remote read of a log *)

Lemma LOG_sendData_length (s : psoc) (message : log_t) :
  length (uart_tx (LOG_sendData s message))
  = (length (uart_tx s) + LOG_MESSAGE_TOT_BYTE)%nat.
Proof.
  unfold LOG_sendData, UART_PutArray. cbn [uart_tx set_uart].
  rewrite length_app, length_map, length_seq. reflexivity.
Qed.

(** Whatever the store holds and whatever identifier is asked for, found or
    not, the handler sends five pages of 64 bytes. *)
Lemma send_log_pages_length (s : psoc) (log_id : Z) :
  length (uart_tx (send_log_pages s log_id))
  = (length (uart_tx s) + 320)%nat.
Proof.
  unfold send_log_pages, for_loop.
  change (seq 0 (Z.to_nat LOG_PAGES_PER_EVENT)) with [0; 1; 2; 3; 4]%nat.
  cbn [fold_left]. rewrite !LOG_sendData_length.
  unfold LOG_MESSAGE_TOT_BYTE. lia.
Qed.

Lemma no_matching_header_spec (m : eeprom) (id : Z) :
  no_matching_header m id = true ->
  forall k, 0 <= k < 511 ->
            EEPROM_readByte m (LOG_DATA_BASE_ADDR + 64 * k) <> id.
Proof.
  unfold no_matching_header. rewrite forallb_forall. intros H k Hk.
  specialize (H (Z.to_nat k)). rewrite Z2Nat.id in H by lia.
  apply Z.eqb_neq, negb_true_iff, H, in_seq. lia.
Qed.

(** C5 (what the code does, for every board state).  A READ_LOG command
    for an identifier that no page header holds: [EEPROM_findLogID] returns
    the 0xFFFF sentinel, and the handler still transmits 5 pages of 64
    bytes; the store is not written. *)
Theorem C5_read_log_not_found_transmits (s : psoc) (id : Z) (rx : list Z) :
  uart_rx s = UART_RX_SEND_LOG_ID :: id :: rx ->
  no_matching_header (cells s) id = true ->
  EEPROM_findLogID (cells s) id = 0xFFFF
  /\ length (uart_tx (CUSTOM_ISR_RX s)) = (length (uart_tx s) + 320)%nat
  /\ cells (CUSTOM_ISR_RX s) = cells s.
Proof.
  intros Hrx Hno.
  split; [apply findLogID_not_found, no_matching_header_spec; exact Hno|].
  unfold CUSTOM_ISR_RX, UART_GetChar. rewrite Hrx.
  cbn [set_uart uart_rx uart_tx].
  change (UART_RX_SEND_LOG_ID =? UART_RX_RESET_MEMORY) with false.
  change (UART_RX_SEND_LOG_ID =? UART_RX_NUMBER_OF_LOGS) with false.
  change (UART_RX_SEND_LOG_ID =? UART_RX_READ_CTRL_REG) with false.
  change (UART_RX_SEND_LOG_ID =? UART_RX_SEND_LOG_ID) with true.
  cbv iota.
  split.
  - rewrite send_log_pages_length. reflexivity.
  - unfold send_log_pages.
    apply (for_loop_invariant (fun s' => cells s' = cells s)); [|reflexivity].
    intros i x Hx. exact Hx.
Qed.

Lemma C5_read_log_not_found_transmits_witness :
  let s := set_uart (after_events 3) [UART_RX_SEND_LOG_ID; 99] [] in
  (uart_rx s = UART_RX_SEND_LOG_ID :: 99 :: []
   /\ no_matching_header (cells s) 99 = true)
  /\ EEPROM_findLogID (cells s) 99 = 0xFFFF
  /\ length (uart_tx (CUSTOM_ISR_RX s)) = 320%nat.
Proof.
  intros s.
  assert (H1 : uart_rx s = UART_RX_SEND_LOG_ID :: 99 :: []) by reflexivity.
  assert (H2 : no_matching_header (cells s) 99 = true)
    by (vm_compute; reflexivity).
  destruct (C5_read_log_not_found_transmits s 99 [] H1 H2) as (Hf & Hlen & _).
  split; [split; assumption | split; [exact Hf | exact Hlen]].
Defined.

(** The same request evaluated: the 320 bytes sent start with the 64 read
    at bus address 0xFFFF. *)
Example read_log_99_of_3 :
  let s := set_uart (after_events 3) [UART_RX_SEND_LOG_ID; 99] [] in
  EEPROM_retrieveLogCount (cells s) = 3
  /\ EEPROM_findLogID (cells s) 99 = 0xFFFF
  /\ length (uart_tx (CUSTOM_ISR_RX s)) = 320%nat
  /\ firstn 64 (uart_tx (CUSTOM_ISR_RX s))
     = EEPROM_readPage (cells s) 0xFFFF 64.
Proof. vm_compute. repeat split; reflexivity. Qed.

(** ** Appending logs *)

(** With zero in cell 0x16 the counter reads at most 255 and the address
    test of [EEPROM_storeLogData] always passes. *)
Lemma storeLogData_space_test (m : eeprom) :
  u8 (m 0x16) = 0 ->
  u16 (LOG_DATA_BASE_ADDR + EEPROM_retrieveLogPages m * SPI_EEPROM_PAGE_SIZE)
  <= SPI_EEPROM_SIZE_BYTE - SPI_EEPROM_PAGE_SIZE.
Proof.
  intros H. rewrite retrieveLogPages_cells, H.
  pose proof (u8_range (m 0x08)).
  change LOG_DATA_BASE_ADDR with 64. change SPI_EEPROM_PAGE_SIZE with 64.
  change SPI_EEPROM_SIZE_BYTE with 0x7FFF.
  rewrite u16_small; lia.
Qed.

(** *** While the counter's low byte does not carry *)

Lemma counter_low_byte (m : eeprom) :
  u8 (m 0x16) = 0 -> 0 <= EEPROM_retrieveLogPages m <= 255.
Proof.
  intros H. rewrite retrieveLogPages_cells, H.
  pose proof (u8_range (m 0x08)). lia.
Qed.

(** One page append with cell 0x16 at zero and the counter below 255: the
    page at [LOG_DATA_BASE_ADDR + 64 * counter] receives the unpacked
    message, the counter reads one more, and apart from that page and the
    counter cells 0x08 and 0x09 the store is unchanged. *)
Lemma storeLogMessage_effect (m : eeprom) (message : log_t) :
  u8 (m 0x16) = 0 ->
  EEPROM_retrieveLogPages m < 255 ->
  let pc := EEPROM_retrieveLogPages m in
  let a := LOG_DATA_BASE_ADDR + 64 * pc in
  let m' := EEPROM_storeLogMessage m message in
  EEPROM_retrieveLogPages m' = pc + 1
  /\ (forall x, a <= x < a + 64 ->
                m' x = u8 (nth (Z.to_nat (x - a))
                               (LOG_unpackMessage (uninit 64) message) 0))
  /\ (forall x, x < a \/ a + 64 <= x -> x <> 0x08 -> x <> 0x09 -> m' x = m x).
Proof.
  intros Hhigh Hlt pc a m'.
  pose proof (counter_low_byte m Hhigh) as Hpc. fold pc in Hpc, Hlt.
  assert (Hdata : forall x,
             EEPROM_storeLogData m (LOG_unpackMessage (uninit 64) message) x
             = if (a <=? x) && (x <? a + 64)
               then u8 (nth (Z.to_nat (x - a))
                            (LOG_unpackMessage (uninit 64) message) 0)
               else m x).
  { intros x. unfold EEPROM_storeLogData. fold pc.
    change LOG_DATA_BASE_ADDR with 64 in *. change SPI_EEPROM_PAGE_SIZE with 64.
    rewrite (u16_small (64 + pc * 64)) by lia.
    replace (64 + pc * 64 <=? SPI_EEPROM_SIZE_BYTE - 64) with true
      by (symmetry; apply Z.leb_le; change SPI_EEPROM_SIZE_BYTE with 0x7FFF; lia).
    unfold EEPROM_waitForWriteComplete.
    change 64%nat with (Z.to_nat SPI_EEPROM_PAGE_SIZE) at 1.
    replace (64 + pc * 64) with a by (subst a; lia).
    apply writePage_read.
    - subst a. lia.
    - subst a. replace (64 + 64 * pc) with ((1 + pc) * 64) by lia.
      apply Z.mod_mul. lia. }
  assert (Hcnt : EEPROM_retrieveLogPages
                   (EEPROM_storeLogData m (LOG_unpackMessage (uninit 64) message))
                 = pc).
  { apply storeLogData_counter. change SPI_EEPROM_PAGE_COUNT with 512. lia. }
  assert (Em' : m' = upd (upd (EEPROM_storeLogData m
                                 (LOG_unpackMessage (uninit 64) message))
                              0x08 ((pc + 1) mod 256))
                         0x09 ((pc + 1) / 256)).
  { subst m'. unfold EEPROM_storeLogMessage. cbv zeta.
    rewrite incrementLogCounter_cells
      by (rewrite Hcnt; change SPI_EEPROM_PAGE_COUNT with 512; lia).
    rewrite Hcnt. reflexivity. }
  assert (Ha : 64 <= a) by (subst a; change LOG_DATA_BASE_ADDR with 64; lia).
  split; [|split].
  - rewrite Em', retrieveLogPages_cells. unfold upd. cbn [Z.eqb Pos.eqb].
    rewrite Hdata.
    replace ((a <=? 22) && (22 <? a + 64)) with false
      by (symmetry; apply andb_false_iff; left; apply Z.leb_gt; lia).
    rewrite Hhigh. rewrite Z.mod_small by lia.
    rewrite u8_small by lia. lia.
  - intros x Hx. rewrite Em'. unfold upd.
    destruct (Z.eqb_spec x 9); [lia|]. destruct (Z.eqb_spec x 8); [lia|].
    rewrite Hdata.
    replace ((a <=? x) && (x <? a + 64)) with true; [reflexivity|].
    symmetry. apply andb_true_iff. split; [apply Z.leb_le | apply Z.ltb_lt]; lia.
  - intros x Hx H8 H9. rewrite Em'. unfold upd.
    destruct (Z.eqb_spec x 9); [lia|]. destruct (Z.eqb_spec x 8); [lia|].
    rewrite Hdata.
    replace ((a <=? x) && (x <? a + 64)) with false; [reflexivity|].
    symmetry. apply andb_false_iff.
    destruct Hx; [left; apply Z.leb_gt | right; apply Z.ltb_ge]; lia.
Qed.

Lemma appendLog_messages (m : eeprom) (log_id int_reg time : Z) (queue : list Z) :
  appendLog m log_id int_reg time queue
  = fold_left EEPROM_storeLogMessage (log_pages log_id int_reg time queue) m.
Proof.
  unfold appendLog, log_pages, for_loop.
  generalize (seq 0 (Z.to_nat LOG_PAGES_PER_EVENT)) as l. intros l. revert m.
  induction l as [|i l IH]; intros m; cbn [fold_left map]; [reflexivity|].
  apply IH.
Qed.

Lemma store_messages_effect (msgs : list log_t) :
  forall m : eeprom,
    u8 (m 0x16) = 0 ->
    EEPROM_retrieveLogPages m + Z.of_nat (length msgs) <= 255 ->
    let pc := EEPROM_retrieveLogPages m in
    let m' := fold_left EEPROM_storeLogMessage msgs m in
    EEPROM_retrieveLogPages m' = pc + Z.of_nat (length msgs)
    /\ u8 (m' 0x16) = 0
    /\ (forall k x,
           (k < length msgs)%nat ->
           LOG_DATA_BASE_ADDR + 64 * (pc + Z.of_nat k) <= x
           < LOG_DATA_BASE_ADDR + 64 * (pc + Z.of_nat k) + 64 ->
           m' x = u8 (nth (Z.to_nat (x - (LOG_DATA_BASE_ADDR
                                          + 64 * (pc + Z.of_nat k))))
                          (LOG_unpackMessage (uninit 64) (nth k msgs log_uninit))
                          0))
    /\ (forall x,
           x < LOG_DATA_BASE_ADDR + 64 * pc
           \/ LOG_DATA_BASE_ADDR + 64 * (pc + Z.of_nat (length msgs)) <= x ->
           x <> 0x08 -> x <> 0x09 -> m' x = m x).
Proof.
  change LOG_DATA_BASE_ADDR with 64.
  induction msgs as [|msg rest IH]; intros m Hhigh Hroom pc m'.
  - subst m'. cbn [fold_left length]. repeat split.
    + lia.
    + exact Hhigh.
    + intros k x Hk. inversion Hk.
  - cbn [length] in Hroom.
    pose proof (counter_low_byte m Hhigh) as Hpc. fold pc in Hpc, Hroom.
    destruct (storeLogMessage_effect m msg Hhigh ltac:(fold pc; lia))
      as (Hc1 & Hp1 & Hf1).
    fold pc in Hc1, Hp1, Hf1. change LOG_DATA_BASE_ADDR with 64 in Hp1, Hf1.
    set (m1 := EEPROM_storeLogMessage m msg) in *.
    assert (Hhigh1 : u8 (m1 0x16) = 0).
    { rewrite Hf1; [exact Hhigh | left; lia | discriminate | discriminate]. }
    destruct (IH m1 Hhigh1 ltac:(rewrite Hc1; lia)) as (Hc & Hh & Hp & Hf).
    rewrite Hc1 in Hc, Hp, Hf.
    subst m'. cbn [fold_left]. fold m1.
    split; [|split; [|split]].
    + rewrite Hc. cbn [length]. lia.
    + exact Hh.
    + intros k x Hk Hx. destruct k as [|k].
      * cbn [nth]. replace (pc + Z.of_nat 0) with pc in * by lia.
        rewrite Hf by lia. apply Hp1. lia.
      * cbn [nth]. cbn [length] in Hk.
        replace (pc + Z.of_nat (S k)) with (pc + 1 + Z.of_nat k) in * by lia.
        apply Hp; lia.
    + intros x Hx H8 H9. cbn [length] in Hx.
      rewrite Hf by lia. apply Hf1; lia.
Qed.

(** *** The first 51 logs *)

Lemma unpackMessage_header (message : log_t) :
  nth 0 (LOG_unpackMessage (uninit 64) message) 0 = logID message.
Proof. reflexivity. Qed.

Lemma log_pages_nth (log_id int_reg time : Z) (queue : list Z) (k : nat) :
  (k < 5)%nat ->
  logID (nth k (log_pages log_id int_reg time queue) log_uninit) = u8 log_id.
Proof.
  intros Hk. do 5 (destruct k as [|k]; [reflexivity|]). lia.
Qed.

Lemma appendLog_next_log (n : Z) (m : eeprom) (int_reg time : Z)
      (queue : list Z) :
  0 <= n <= 50 ->
  logs_stored n m ->
  logs_stored (n + 1)
              (appendLog m (EEPROM_retrieveLogCount m) int_reg time queue).
Proof.
  intros Hn (Hhigh & Hcnt & Hhdr).
  assert (Hid : EEPROM_retrieveLogCount m = n).
  { unfold EEPROM_retrieveLogCount. rewrite Hcnt.
    change LOG_PAGES_PER_EVENT with 5.
    rewrite Z.mul_comm, Z.div_mul by lia. apply u8_small. lia. }
  rewrite Hid, appendLog_messages.
  destruct (store_messages_effect (log_pages n int_reg time queue) m Hhigh)
    as (Hc & Hh & Hp & Hf).
  { rewrite Hcnt. change (length (log_pages n int_reg time queue)) with 5%nat. lia. }
  rewrite Hcnt in Hc, Hp, Hf.
  change (length (log_pages n int_reg time queue)) with 5%nat in Hc, Hp, Hf.
  change LOG_DATA_BASE_ADDR with 64 in *.
  set (m' := fold_left EEPROM_storeLogMessage (log_pages n int_reg time queue) m) in *.
  split; [exact Hh | split; [rewrite Hc; lia|]].
  intros p Hp5. change LOG_DATA_BASE_ADDR with 64.
  unfold EEPROM_readByte. rewrite bus_addr_small by lia.
  destruct (Z.lt_ge_cases p (5 * n)) as [Hold|Hnew].
  - rewrite Hf by lia.
    specialize (Hhdr p ltac:(lia)). unfold EEPROM_readByte in Hhdr.
    rewrite bus_addr_small in Hhdr by lia. exact Hhdr.
  - rewrite (Hp (Z.to_nat (p - 5 * n))) by lia.
    replace (64 + 64 * p - (64 + 64 * (5 * n + Z.of_nat (Z.to_nat (p - 5 * n)))))
      with 0 by lia.
    change (Z.to_nat 0) with 0%nat.
    rewrite unpackMessage_header, log_pages_nth by lia.
    rewrite !u8_idem, (u8_small n) by lia.
    apply Z.div_unique with (r := p - 5 * n); lia.
Qed.

Lemma log_events_cells (n : nat) :
  forall (k : Z) (s : psoc) (int_reg time : Z),
    0 <= k -> k + Z.of_nat n <= 51 ->
    logs_stored k (cells s) ->
    logs_stored (k + Z.of_nat n) (cells (log_events n s int_reg time)).
Proof.
  induction n as [|n IH]; intros k s int_reg time Hk Hn Hs.
  - cbn [log_events]. replace (k + Z.of_nat 0) with k by lia. exact Hs.
  - cbn [log_events].
    replace (k + Z.of_nat (S n)) with (k + 1 + Z.of_nat n) by lia.
    apply IH; try lia.
    unfold main_over_threshold.
    cbn [set_over_threshold IMU_over_threshold_flag Z.eqb Pos.eqb cells
         set_cells set_lis3dh IMU_log_queue lis3dh].
    apply appendLog_next_log; [lia | exact Hs].
Qed.

(** On a store that holds no log and has zero in cell 0x16, the first 51
    logged events keep count and lookup consistent: after [n <= 51] events
    the log count is [n] and identifier [id < n] is found at the first
    page of its log. *)
Theorem first_51_logs_consistent (n : nat) (s : psoc) (int_reg time : Z) :
  (n <= 51)%nat ->
  logs_stored 0 (cells s) ->
  let m := cells (log_events n s int_reg time) in
  EEPROM_retrieveLogCount m = Z.of_nat n
  /\ forall id, 0 <= id < Z.of_nat n ->
                EEPROM_findLogID m id = LOG_DATA_BASE_ADDR + 320 * id
                /\ EEPROM_findLogID m id <> 0xFFFF.
Proof.
  intros Hn Hs m.
  destruct (log_events_cells n 0 s int_reg time ltac:(lia) ltac:(lia) Hs)
    as (Hhigh & Hcnt & Hhdr).
  fold m in Hhigh, Hcnt, Hhdr. rewrite Z.add_0_l in Hcnt, Hhdr.
  split.
  - unfold EEPROM_retrieveLogCount. rewrite Hcnt.
    change LOG_PAGES_PER_EVENT with 5.
    rewrite Z.mul_comm, Z.div_mul by lia. apply u8_small. lia.
  - intros id Hid.
    assert (E : EEPROM_findLogID m id = LOG_DATA_BASE_ADDR + 64 * (5 * id)).
    { apply findLogID_found.
      - lia.
      - rewrite Hhdr by lia. rewrite Z.mul_comm. apply Z.div_mul. lia.
      - intros i Hi. rewrite Hhdr by lia.
        assert (i / 5 < id) by (apply Z.div_lt_upper_bound; lia). lia. }
    split.
    + rewrite E. lia.
    + rewrite E. change LOG_DATA_BASE_ADDR with 64. lia.
Qed.

(** *** The 256th page *)

(** The page that brings the counter to 256: it is written, the counter
    bytes become 0x00 (cell 0x08) and 0x01 (cell 0x09), and the counter,
    read with its high byte from cell 0x16, is back at 0. *)
Lemma storeLogMessage_wraps (m : eeprom) (message : log_t) :
  u8 (m 0x16) = 0 ->
  EEPROM_retrieveLogPages m = 255 ->
  EEPROM_retrieveLogPages (EEPROM_storeLogMessage m message) = 0
  /\ u8 (EEPROM_storeLogMessage m message 0x16) = 0
  /\ EEPROM_storeLogMessage m message 0x08 = 0
  /\ EEPROM_storeLogMessage m message 0x09 = 1.
Proof.
  intros Hhigh Hcnt.
  assert (Hc : EEPROM_retrieveLogPages
                 (EEPROM_storeLogData m (LOG_unpackMessage (uninit 64) message))
               = 255).
  { rewrite storeLogData_counter; [exact Hcnt|]. rewrite Hcnt. discriminate. }
  assert (Hh : EEPROM_storeLogData m (LOG_unpackMessage (uninit 64) message) 0x16
               = m 0x16).
  { unfold EEPROM_storeLogData. rewrite Hcnt.
    change (u16 (LOG_DATA_BASE_ADDR + 255 * SPI_EEPROM_PAGE_SIZE)) with 0x4000.
    change (0x4000 <=? SPI_EEPROM_SIZE_BYTE - SPI_EEPROM_PAGE_SIZE) with true.
    cbv iota. unfold EEPROM_waitForWriteComplete.
    apply writePage_frame; [lia | left; reflexivity]. }
  unfold EEPROM_storeLogMessage. cbv zeta.
  revert Hc Hh.
  generalize (EEPROM_storeLogData m (LOG_unpackMessage (uninit 64) message)).
  intros d Hc Hh.
  rewrite incrementLogCounter_cells by (rewrite Hc; reflexivity).
  rewrite Hc, retrieveLogPages_cells. unfold upd. cbn [Z.eqb Pos.eqb].
  rewrite Hh, Hhigh. repeat split; reflexivity.
Qed.

(** A run of page appends that starts with the counter at 255: after the
    first page the counter reads 0, and the remaining pages count up from
    there. *)
Lemma store_messages_wrap (msg0 : log_t) (rest : list log_t) (m : eeprom) :
  u8 (m 0x16) = 0 ->
  EEPROM_retrieveLogPages m = 255 ->
  Z.of_nat (length rest) <= 255 ->
  EEPROM_retrieveLogPages (fold_left EEPROM_storeLogMessage (msg0 :: rest) m)
  = Z.of_nat (length rest).
Proof.
  intros Hhigh Hcnt Hlen. cbn [fold_left].
  destruct (storeLogMessage_wraps m msg0 Hhigh Hcnt) as (Hc0 & Hh0 & _).
  revert Hc0 Hh0. generalize (EEPROM_storeLogMessage m msg0). intros m0 Hc0 Hh0.
  destruct (store_messages_effect rest m0 Hh0) as (Hc & _).
  - rewrite Hc0. exact Hlen.
  - rewrite Hc, Hc0. reflexivity.
Qed.

(** The 52nd log on a store that held none. *)
Lemma appendLog_52nd (m : eeprom) (log_id int_reg time : Z) (queue : list Z) :
  logs_stored 51 m ->
  EEPROM_retrieveLogPages (appendLog m log_id int_reg time queue) = 4.
Proof.
  intros (Hhigh & Hcnt & _).
  rewrite appendLog_messages. unfold log_pages.
  change (seq 0 (Z.to_nat LOG_PAGES_PER_EVENT)) with (0 :: seq 1 4)%nat.
  rewrite map_cons, store_messages_wrap.
  - rewrite length_map, length_seq. reflexivity.
  - exact Hhigh.
  - exact Hcnt.
  - rewrite length_map, length_seq. discriminate.
Qed.

(** A skipped page write is still counted: when the page address is past
    the last one accepted and the counter is below 512, the store changes
    in the counter cells and nowhere else. *)
Lemma storeLogMessage_skipped (m : eeprom) (message : log_t) :
  SPI_EEPROM_SIZE_BYTE - SPI_EEPROM_PAGE_SIZE
  < u16 (LOG_DATA_BASE_ADDR + EEPROM_retrieveLogPages m * SPI_EEPROM_PAGE_SIZE) ->
  EEPROM_retrieveLogPages m < SPI_EEPROM_PAGE_COUNT ->
  EEPROM_storeLogMessage m message
  = upd (upd m 0x08 ((EEPROM_retrieveLogPages m + 1) mod 256))
        0x09 ((EEPROM_retrieveLogPages m + 1) / 256).
Proof.
  intros Hfull Hlt.
  assert (E : EEPROM_storeLogData m (LOG_unpackMessage (uninit 64) message) = m).
  { unfold EEPROM_storeLogData.
    replace (_ <=? _) with false by (symmetry; apply Z.leb_gt; exact Hfull).
    reflexivity. }
  unfold EEPROM_storeLogMessage. cbv zeta. rewrite E.
  apply incrementLogCounter_cells. exact Hlt.
Qed.

(** *** The log count on a store erased by the firmware *)

Lemma run_op_high_cell (op : store_op) (m : eeprom) :
  u8 (m 0x16) = 0 -> u8 (run_op op m 0x16) = 0.
Proof.
  intros Hhigh.
  assert (Hinc : forall m0, u8 (m0 0x16) = 0 ->
                            u8 (EEPROM_incrementLogCounter m0 0x16) = 0).
  { intros m0 H0.
    destruct (Z.lt_ge_cases (EEPROM_retrieveLogPages m0) SPI_EEPROM_PAGE_COUNT)
      as [Hlt|Hge].
    - rewrite incrementLogCounter_cells by exact Hlt. exact H0.
    - rewrite incrementLogCounter_saturated by exact Hge. exact H0. }
  assert (Hdat : forall m0 d, u8 (m0 0x16) = 0 ->
                              EEPROM_storeLogData m0 d 0x16 = m0 0x16).
  { intros m0 d H0. pose proof (counter_low_byte m0 H0) as Hpc.
    unfold EEPROM_storeLogData.
    change LOG_DATA_BASE_ADDR with 64. change SPI_EEPROM_PAGE_SIZE with 64.
    rewrite (u16_small (64 + EEPROM_retrieveLogPages m0 * 64)) by lia.
    destruct (_ <=? _); [|reflexivity].
    unfold EEPROM_waitForWriteComplete.
    apply writePage_frame; [lia|]. left.
    replace (64 + EEPROM_retrieveLogPages m0 * 64)
      with ((1 + EEPROM_retrieveLogPages m0) * 64) by lia.
    rewrite Z.mod_mul by lia. lia. }
  assert (Hmsg : forall m0 msg, u8 (m0 0x16) = 0 ->
                                u8 (EEPROM_storeLogMessage m0 msg 0x16) = 0).
  { intros m0 msg H0. unfold EEPROM_storeLogMessage. cbv zeta.
    apply Hinc. rewrite Hdat; exact H0. }
  destruct op; cbn [run_op].
  - unfold EEPROM_saveStartStopState.
    rewrite save_flag_bit_frame by discriminate. exact Hhigh.
  - unfold EEPROM_saveConfigFlag.
    rewrite save_flag_bit_frame by discriminate. exact Hhigh.
  - unfold EEPROM_saveSendFlag.
    rewrite save_flag_bit_frame by discriminate. exact Hhigh.
  - rewrite saveResetFlag_frame by discriminate. exact Hhigh.
  - apply Hinc. exact Hhigh.
  - rewrite Hdat; exact Hhigh.
  - apply Hmsg. exact Hhigh.
  - unfold appendLog.
    apply (for_loop_invariant (fun m0 => u8 (m0 0x16) = 0)); [|exact Hhigh].
    intros i x Hx. apply Hmsg. exact Hx.
  - rewrite resetMemory_cells. reflexivity.
Qed.

(** Whatever the firmware does to a store with zero in cell 0x16 (any store
    it has erased), the log count it reports never exceeds 51. *)
Theorem log_count_at_most_51 (ops : list store_op) (m : eeprom) :
  u8 (m 0x16) = 0 ->
  EEPROM_retrieveLogCount (fold_left (fun m op => run_op op m) ops m) <= 51.
Proof.
  intros Hhigh.
  assert (H : u8 (fold_left (fun m op => run_op op m) ops m 0x16) = 0).
  { revert m Hhigh. induction ops as [|op ops IH]; intros m Hhigh.
    - exact Hhigh.
    - cbn [fold_left]. apply IH. apply run_op_high_cell. exact Hhigh. }
  pose proof (counter_low_byte _ H) as Hpc.
  unfold EEPROM_retrieveLogCount. change LOG_PAGES_PER_EVENT with 5.
  assert (0 <= EEPROM_retrieveLogPages
                 (fold_left (fun m op => run_op op m) ops m) / 5 <= 51).
  { split; [apply Z.div_pos; lia | apply Z.div_le_upper_bound; lia]. }
  rewrite u8_small; lia.
Qed.

Lemma log_events_last (n : nat) :
  forall (s : psoc) (int_reg time : Z),
    log_events (S n) s int_reg time
    = log_event (log_events n s int_reg time) int_reg time.
Proof.
  induction n as [|n IH]; intros s int_reg time.
  - reflexivity.
  - change (log_events (S (S n)) s int_reg time)
      with (log_events (S n) (log_event s int_reg time) int_reg time).
    rewrite IH. reflexivity.
Qed.

Lemma log_event_cells (s : psoc) (int_reg time : Z) :
  cells (log_event s int_reg time)
  = appendLog (cells s) (EEPROM_retrieveLogCount (cells s)) int_reg time
              (IMU_log_queue s).
Proof. reflexivity. Qed.

(** A board booted on an erased EEPROM, whatever the EEPROM held before the
    erase, starts with no log stored and zero in cell 0x16. *)
Lemma boot_after_erase (m : eeprom) (r : imu_regs) :
  let s := main_setup (power_on (EEPROM_resetMemory m) r) in
  u8 (cells s 0x16) = 0 /\ EEPROM_retrieveLogPages (cells s) = 0.
Proof.
  cbn [main_setup power_on cells set_lis3dh set_button_state set_cells
       set_send_flag set_data_ready set_over_threshold].
  unfold EEPROM_saveStartStopState. split.
  - rewrite save_flag_bit_frame by discriminate.
    rewrite resetMemory_cells. reflexivity.
  - rewrite save_flag_bit_counter. apply resetMemory_counter.
Qed.

(** C2 (what the code does, for every board whose store holds no log and
    has zero in cell 0x16, as after a full erase).  Up to 51 logged events
    the claim holds: the log count is the number of events and every
    identifier used is found.  The 52nd event, logged with space left and
    no identifier reused, brings the page counter to 4 and the log count
    to 0, not 52. *)
Theorem C2_log_count_wraps_at_256_pages (s : psoc) (int_reg time : Z) :
  u8 (cells s 0x16) = 0 ->
  EEPROM_retrieveLogPages (cells s) = 0 ->
  (forall n, (n <= 51)%nat ->
     EEPROM_retrieveLogCount (cells (log_events n s int_reg time)) = Z.of_nat n
     /\ forall id, 0 <= id < Z.of_nat n ->
          EEPROM_findLogID (cells (log_events n s int_reg time)) id <> 0xFFFF)
  /\ EEPROM_retrieveLogPages (cells (log_events 52 s int_reg time)) = 4
  /\ EEPROM_retrieveLogCount (cells (log_events 52 s int_reg time)) = 0.
Proof.
  intros Hhigh Hcnt.
  assert (Hs : logs_stored 0 (cells s)).
  { split; [exact Hhigh | split; [exact Hcnt | intros p Hp; lia]]. }
  assert (H52 : EEPROM_retrieveLogPages (cells (log_events 52 s int_reg time)) = 4).
  { rewrite log_events_last, log_event_cells.
    apply appendLog_52nd.
    exact (log_events_cells 51 0 s int_reg time ltac:(lia) ltac:(lia) Hs). }
  split; [|split].
  - intros n Hn.
    destruct (first_51_logs_consistent n s int_reg time Hn Hs) as [Hc Hf].
    split; [exact Hc | intros id Hid; apply Hf; exact Hid].
  - exact H52.
  - unfold EEPROM_retrieveLogCount. rewrite H52. reflexivity.
Qed.

Lemma C2_log_count_wraps_at_256_pages_witness :
  (u8 (cells (after_events 0) 0x16) = 0
   /\ EEPROM_retrieveLogPages (cells (after_events 0)) = 0)
  /\ EEPROM_retrieveLogCount (cells (after_events 51)) = 51
  /\ EEPROM_retrieveLogPages (cells (after_events 52)) = 4
  /\ EEPROM_retrieveLogCount (cells (after_events 52)) = 0.
Proof.
  assert (H1 : u8 (cells (after_events 0) 0x16) = 0)
    by (vm_compute; reflexivity).
  assert (H2 : EEPROM_retrieveLogPages (cells (after_events 0)) = 0)
    by (vm_compute; reflexivity).
  destruct (C2_log_count_wraps_at_256_pages (after_events 0) 0x6A 7 H1 H2)
    as (Hok & Hpages & Hcount).
  split; [split; assumption | split; [|split]].
  - exact (proj1 (Hok 51%nat (Nat.le_refl 51))).
  - exact Hpages.
  - exact Hcount.
Defined.

(** The same run evaluated on the erased EEPROM of [after_events]. *)
Example log_count_after_52_events :
  let m51 := cells (after_events 51) in
  let m52 := cells (after_events 52) in
  EEPROM_retrieveLogPages m51 = 255
  /\ EEPROM_retrieveLogCount m51 = 51
  /\ m52 0x08 = 4 /\ m52 0x09 = 0 /\ m52 0x16 = 0
  /\ EEPROM_retrieveLogPages m52 = 4
  /\ EEPROM_retrieveLogCount m52 = 0.
Proof. vm_compute. repeat split; reflexivity. Qed.

(** C3 (the code at the failing inputs).
    (a) [store_full]: the counter reads 510 and the next page address is
    rejected.  The append skips two pages, yet the counter is incremented
    each time; it then reads 256, the address test passes again and pages
    3 to 5 of the log are written over pages 257 to 259.  The counter ends
    at 259.
    (b) After 51 logs the counter reads 255 and space remains.  The append
    writes page 256 and then pages 1 to 4, over the first log; the counter
    ends at 4. *)
Theorem C3_append_not_atomic :
  (let m := appendLog store_full 102 0x6A 7 sample_queue in
   EEPROM_retrieveLogPages store_full = 510
   /\ SPI_EEPROM_SIZE_BYTE - SPI_EEPROM_PAGE_SIZE
      < u16 (LOG_DATA_BASE_ADDR + 510 * SPI_EEPROM_PAGE_SIZE)
   /\ EEPROM_retrieveLogPages m = 259
   /\ map (EEPROM_readByte store_full) [0x4040; 0x4080; 0x40C0] = [0; 0; 0]
   /\ map (EEPROM_readByte m) [0x4040; 0x4080; 0x40C0] = [102; 102; 102])
  /\ (let m0 := cells (after_events 51) in
      let m := appendLog m0 51 0x6A 7 sample_queue in
      EEPROM_retrieveLogPages m0 = 255
      /\ u16 (LOG_DATA_BASE_ADDR + 255 * SPI_EEPROM_PAGE_SIZE)
         <= SPI_EEPROM_SIZE_BYTE - SPI_EEPROM_PAGE_SIZE
      /\ EEPROM_retrieveLogPages m = 4
      /\ map (EEPROM_readByte m0) [0x40; 0x80; 0xC0; 0x100; 0x4000]
         = [0; 0; 0; 0; 0]
      /\ map (EEPROM_readByte m) [0x40; 0x80; 0xC0; 0x100; 0x4000]
         = [51; 51; 51; 51; 51]).
Proof. vm_compute. repeat split; try reflexivity; discriminate. Qed.

(** ** Log codec *)

Lemma is_byte_range (b : Z) : is_byte b = true -> 0 <= b < 256.
Proof. unfold is_byte. intros H. apply andb_true_iff in H. lia. Qed.

Lemma log_wf_fields (r : log_t) :
  log_wf r = true ->
  0 <= logID r < 256 /\ 0 <= intReg r < 256 /\ 0 <= timestamp r < 65536
  /\ length (data r) = LOG_MESSAGE_DATA_BYTE.
Proof.
  unfold log_wf, is_byte.
  rewrite !andb_true_iff, !Z.leb_le, !Z.ltb_lt, Nat.eqb_eq.
  intros H. repeat split; apply H.
Qed.

(** The header bytes of the timestamp put together again. *)
Lemma timestamp_bytes (t : Z) :
  0 <= t < 65536 ->
  u16 (Z.lor (Z.shiftl (u8 (Z.land (Z.shiftr t 8) 0xFF)) 8)
             (u8 (Z.land t 0xFF))) = t.
Proof.
  intros Ht. change 0xFF with (Z.ones 8). rewrite !Z.land_ones by lia.
  rewrite Z.shiftr_div_pow2 by lia. change (2 ^ 8) with 256.
  assert (0 <= t / 256 < 256)
    by (split; [apply Z.div_pos; lia | apply Z.div_lt_upper_bound; lia]).
  assert (0 <= t mod 256 < 256) by (apply Z.mod_pos_bound; lia).
  rewrite (Z.mod_small (t / 256)) by assumption.
  rewrite !u8_small by assumption.
  rewrite lor_shift_byte by assumption.
  rewrite u16_small by lia.
  symmetry. apply Z.div_mod. lia.
Qed.

Lemma unpackMessage_layout (buffer : list Z) (r : log_t) :
  length buffer = LOG_MESSAGE_TOT_BYTE ->
  length (data r) = LOG_MESSAGE_DATA_BYTE ->
  LOG_unpackMessage buffer r
  = [logID r; intReg r;
     u8 (Z.land (timestamp r) 0xFF);
     u8 (Z.land (Z.shiftr (timestamp r) 8) 0xFF)] ++ data r.
Proof.
  intros Hbuf Hdat. unfold LOG_unpackMessage, memcpy.
  destruct buffer as [|b0 [|b1 [|b2 [|b3 rest]]]]; try discriminate.
  cbn [array_set firstn skipn Nat.add app].
  cbn [length] in Hbuf. unfold LOG_MESSAGE_TOT_BYTE in Hbuf.
  rewrite firstn_all2 by (rewrite Hdat; apply Nat.le_refl).
  change (4 + LOG_MESSAGE_DATA_BYTE)%nat with (S (S (S (S 60)))).
  cbn [skipn]. rewrite skipn_all2 by (unfold LOG_MESSAGE_DATA_BYTE; lia).
  rewrite app_nil_r. reflexivity.
Qed.

(** C6. Codec round trip.  [LOG_unpackMessage] lays a record out as
    identifier, interrupt register, timestamp low byte, timestamp high
    byte, then the 60 payload bytes as they are; [LOG_packMessage] reads the
    timestamp back as a little-endian 16-bit value, and packing the
    unpacked bytes of a well-formed record gives the record back. *)
Theorem C6_codec_round_trip (r msg : log_t) (buffer : list Z) :
  log_wf r = true ->
  length buffer = LOG_MESSAGE_TOT_BYTE ->
  length (data msg) = LOG_MESSAGE_DATA_BYTE ->
  LOG_unpackMessage buffer r
  = [logID r; intReg r; timestamp r mod 256; timestamp r / 256] ++ data r
  /\ length (LOG_unpackMessage buffer r) = LOG_MESSAGE_TOT_BYTE
  /\ timestamp (LOG_packMessage msg (LOG_unpackMessage buffer r))
     = nth 2 (LOG_unpackMessage buffer r) 0
       + 256 * nth 3 (LOG_unpackMessage buffer r) 0
  /\ LOG_packMessage msg (LOG_unpackMessage buffer r) = r.
Proof.
  intros Hwf Hbuf Hmsg.
  destruct (log_wf_fields r Hwf) as (Hid & Hireg & Hts & Hdat).
  rewrite (unpackMessage_layout buffer r Hbuf Hdat).
  assert (Hlo : u8 (Z.land (timestamp r) 0xFF) = timestamp r mod 256).
  { change 0xFF with (Z.ones 8). rewrite Z.land_ones by lia.
    apply u8_small. apply Z.mod_pos_bound. lia. }
  assert (Hhi : u8 (Z.land (Z.shiftr (timestamp r) 8) 0xFF) = timestamp r / 256).
  { change 0xFF with (Z.ones 8). rewrite Z.land_ones by lia.
    rewrite Z.shiftr_div_pow2 by lia. change (2 ^ 8) with 256.
    assert (0 <= timestamp r / 256 < 256)
      by (split; [apply Z.div_pos; lia | apply Z.div_lt_upper_bound; lia]).
    rewrite Z.mod_small by assumption. now apply u8_small. }
  assert (Hpack : LOG_packMessage msg
                    ([logID r; intReg r; u8 (Z.land (timestamp r) 0xFF);
                      u8 (Z.land (Z.shiftr (timestamp r) 8) 0xFF)] ++ data r)
                  = r).
  { unfold LOG_packMessage, memcpy.
    cbn [app nth logID intReg timestamp data firstn skipn Nat.add].
    rewrite timestamp_bytes by exact Hts.
    rewrite firstn_all2 by (rewrite Hdat; apply Nat.le_refl).
    rewrite skipn_all2 by (rewrite Hmsg; apply Nat.le_refl).
    rewrite app_nil_r. destruct r; reflexivity. }
  split; [|split; [|split]].
  - rewrite Hlo, Hhi. reflexivity.
  - cbn [app length]. rewrite Hdat. reflexivity.
  - rewrite Hpack. cbn [app nth]. rewrite Hlo, Hhi.
    rewrite Z.add_comm. apply Z.div_mod. lia.
  - exact Hpack.
Qed.

Lemma C6_codec_round_trip_witness :
  (log_wf sample_log = true
   /\ length (uninit 64) = LOG_MESSAGE_TOT_BYTE
   /\ length (data log_uninit) = LOG_MESSAGE_DATA_BYTE)
  /\ LOG_packMessage log_uninit (LOG_unpackMessage (uninit 64) sample_log)
     = sample_log.
Proof.
  assert (H1 : log_wf sample_log = true) by reflexivity.
  assert (H2 : length (uninit 64) = LOG_MESSAGE_TOT_BYTE) by reflexivity.
  assert (H3 : length (data log_uninit) = LOG_MESSAGE_DATA_BYTE) by reflexivity.
  split; [repeat split; assumption|].
  exact (proj2 (proj2 (proj2
           (C6_codec_round_trip sample_log log_uninit (uninit 64) H1 H2 H3)))).
Defined.

(** ** History queue *)

(** [reduce] keeps, of each even FIFO level, the high register of the three
    axes: raw bytes 12i+1, 12i+3 and 12i+5 for i = 0 .. 15. *)
Lemma reduce_levels (buffer : list Z) :
  reduce buffer
  = flat_map (fun i => [nth (12 * i + 1) buffer 0;
                        nth (12 * i + 3) buffer 0;
                        nth (12 * i + 5) buffer 0]) (seq 0 16).
Proof. reflexivity. Qed.

Lemma reduce_length (buffer : list Z) :
  length (reduce buffer) = LIS3DH_BYTES_IN_FIFO_DOWNSAMPLED.
Proof. rewrite reduce_levels. reflexivity. Qed.

(** Whatever the library does with the overlapping copy, the new reduced
    burst ends up in front. *)
Lemma StoreFIFO_front (libc : memcpy_lib) (queue buffer : list Z) :
  IMU_StoreFIFO libc queue buffer
  = reduce buffer ++ skipn 48 (libc queue 48%nat 0%nat 240%nat).
Proof.
  unfold IMU_StoreFIFO. cbv zeta. fold (reduce buffer).
  change LIS3DH_BYTES_IN_FIFO_DOWNSAMPLED with 48%nat.
  change (LIS3DH_BYTES_IN_LOG_BUFFER - 48)%nat with 240%nat.
  unfold memcpy. change (0 + 48)%nat with 48%nat.
  rewrite skipn_O, firstn_O. cbn [app].
  rewrite (firstn_all2 (reduce buffer))
    by (rewrite reduce_length; apply Nat.le_refl).
  reflexivity.
Qed.

(** *** A library that copies from a snapshot *)

(** One call of [IMU_StoreFIFO]: the new reduced burst in front, the
    previous content moved down by 48 bytes, its last 48 bytes dropped. *)
Lemma StoreFIFO_head (libc : memcpy_lib) (queue buffer : list Z) :
  firstn LIS3DH_BYTES_IN_FIFO_DOWNSAMPLED (IMU_StoreFIFO libc queue buffer)
  = reduce buffer.
Proof.
  rewrite StoreFIFO_front, <- (reduce_length buffer).
  rewrite firstn_app, Nat.sub_diag, firstn_O, app_nil_r.
  apply firstn_all.
Qed.

Lemma StoreFIFO_shift (queue buffer : list Z) :
  length queue = LIS3DH_BYTES_IN_LOG_BUFFER ->
  IMU_StoreFIFO memcpy_snapshot queue buffer
  = reduce buffer ++ firstn 240 queue.
Proof.
  intros Hq. rewrite StoreFIFO_front. f_equal.
  change LIS3DH_BYTES_IN_LOG_BUFFER with 288%nat in Hq.
  unfold memcpy_snapshot, memcpy. change (48 + 240)%nat with 288%nat.
  rewrite skipn_O, (skipn_all2 queue) by lia.
  rewrite app_nil_r, skipn_app.
  rewrite (skipn_all2 (firstn 48 queue)) by (rewrite length_firstn; lia).
  rewrite length_firstn, Hq. reflexivity.
Qed.

Lemma StoreFIFO_length (queue buffer : list Z) :
  length queue = LIS3DH_BYTES_IN_LOG_BUFFER ->
  length (IMU_StoreFIFO memcpy_snapshot queue buffer)
  = LIS3DH_BYTES_IN_LOG_BUFFER.
Proof.
  intros Hq. rewrite StoreFIFO_shift by exact Hq.
  rewrite length_app, reduce_length, length_firstn, Hq. reflexivity.
Qed.

(** The queue after any run of FIFO reads: the reduced bursts newest
    first, followed by the old content, cut at 288 bytes. *)
Lemma StoreFIFO_history (bursts : list (list Z)) :
  forall queue,
    length queue = LIS3DH_BYTES_IN_LOG_BUFFER ->
    fold_left (IMU_StoreFIFO memcpy_snapshot) bursts queue
    = firstn LIS3DH_BYTES_IN_LOG_BUFFER
             (concat (map reduce (rev bursts)) ++ queue).
Proof.
  change LIS3DH_BYTES_IN_LOG_BUFFER with 288%nat.
  induction bursts as [|b bs IH]; intros q Hq.
  - cbn [fold_left rev map concat app]. symmetry. apply firstn_all2. lia.
  - cbn [fold_left rev]. rewrite IH by (apply StoreFIFO_length; exact Hq).
    rewrite StoreFIFO_shift by exact Hq.
    rewrite map_app, concat_app. cbn [map concat]. rewrite app_nil_r.
    rewrite <- !app_assoc.
    set (X := concat (map reduce (rev bs))).
    rewrite !(firstn_app 288 X). f_equal.
    rewrite !(firstn_app _ (reduce b)). f_equal.
    rewrite reduce_length. change LIS3DH_BYTES_IN_FIFO_DOWNSAMPLED with 48%nat.
    rewrite firstn_firstn. f_equal. lia.
Qed.

(** *** A library that copies upwards in place *)

Lemma list_as_nth (l : list Z) (n : nat) :
  length l = n -> l = map (fun i => nth i l 0) (seq 0 n).
Proof.
  intros Hl. apply nth_ext with (d := 0) (d' := 0).
  - rewrite length_map, length_seq. exact Hl.
  - intros k Hk. rewrite Hl in Hk. symmetry.
    etransitivity;
      [apply (nth_indep _ 0 ((fun i => nth i l 0) 0%nat));
       rewrite length_map, length_seq; exact Hk|].
    rewrite (map_nth (fun i => nth i l 0)), seq_nth by exact Hk. reflexivity.
Qed.

(** Copying 240 bytes upwards onto a destination 48 bytes above the
    source reads, from the 49th byte on, what the copy itself has just
    written: the first 48 bytes come out six times. *)
Lemma memcpy_upwards_repeats (f : nat -> Z) :
  memcpy_upwards (map f (seq 0 288)) 48 0 240
  = concat (repeat (map f (seq 0 48)) 6).
Proof. vm_compute. reflexivity. Qed.

Lemma memcpy_upwards_queue (queue : list Z) :
  length queue = LIS3DH_BYTES_IN_LOG_BUFFER ->
  memcpy_upwards queue 48 0 240 = concat (repeat (firstn 48 queue) 6).
Proof.
  change LIS3DH_BYTES_IN_LOG_BUFFER with 288%nat. intros Hq.
  set (f := fun i => nth i queue 0).
  assert (E : queue = map f (seq 0 288)) by (apply list_as_nth; exact Hq).
  rewrite E. clear E. clearbody f.
  rewrite memcpy_upwards_repeats. reflexivity.
Qed.

(** One call of [IMU_StoreFIFO]: the new reduced burst in front, and
    behind it five copies of what the first 48 bytes were. *)
Lemma StoreFIFO_upwards (queue buffer : list Z) :
  length queue = LIS3DH_BYTES_IN_LOG_BUFFER ->
  IMU_StoreFIFO memcpy_upwards queue buffer
  = reduce buffer ++ concat (repeat (firstn 48 queue) 5).
Proof.
  intros Hq. rewrite StoreFIFO_front, memcpy_upwards_queue by exact Hq.
  f_equal. change LIS3DH_BYTES_IN_LOG_BUFFER with 288%nat in Hq.
  cbn [repeat concat]. rewrite skipn_app.
  rewrite (skipn_all2 (firstn 48 queue)) by (rewrite length_firstn; lia).
  rewrite length_firstn.
  replace (48 - Nat.min 48 (length queue))%nat with 0%nat by lia.
  reflexivity.
Qed.

Lemma StoreFIFO_upwards_length (queue buffer : list Z) :
  length queue = LIS3DH_BYTES_IN_LOG_BUFFER ->
  length (IMU_StoreFIFO memcpy_upwards queue buffer)
  = LIS3DH_BYTES_IN_LOG_BUFFER.
Proof.
  intros Hq. rewrite StoreFIFO_upwards by exact Hq.
  change LIS3DH_BYTES_IN_LOG_BUFFER with 288%nat in *.
  cbn [repeat concat]. rewrite !length_app, reduce_length, !length_firstn.
  change LIS3DH_BYTES_IN_FIFO_DOWNSAMPLED with 48%nat. cbn [length]. lia.
Qed.

Lemma StoreFIFO_upwards_run_length (bursts : list (list Z)) :
  forall queue,
    length queue = LIS3DH_BYTES_IN_LOG_BUFFER ->
    length (fold_left (IMU_StoreFIFO memcpy_upwards) bursts queue)
    = LIS3DH_BYTES_IN_LOG_BUFFER.
Proof.
  induction bursts as [|b bs IH]; intros q Hq; [exact Hq|].
  cbn [fold_left]. apply IH. apply StoreFIFO_upwards_length. exact Hq.
Qed.

(** Two reads or more: the queue holds the newest reduced burst and five
    copies of the one before it, and nothing older. *)
Lemma StoreFIFO_upwards_history (bursts : list (list Z)) (b1 b2 queue : list Z) :
  length queue = LIS3DH_BYTES_IN_LOG_BUFFER ->
  fold_left (IMU_StoreFIFO memcpy_upwards) (bursts ++ [b1; b2]) queue
  = reduce b2 ++ concat (repeat (reduce b1) 5).
Proof.
  intros Hq. rewrite fold_left_app. cbn [fold_left].
  pose proof (StoreFIFO_upwards_run_length bursts queue Hq) as Hl.
  set (Q := fold_left (IMU_StoreFIFO memcpy_upwards) bursts queue) in *.
  rewrite (StoreFIFO_upwards (IMU_StoreFIFO memcpy_upwards Q b1) b2)
    by (apply StoreFIFO_upwards_length; exact Hl).
  rewrite (StoreFIFO_upwards Q b1) by exact Hl.
  rewrite firstn_app, reduce_length.
  change LIS3DH_BYTES_IN_FIFO_DOWNSAMPLED with 48%nat.
  change (48 - 48)%nat with 0%nat. rewrite firstn_O, app_nil_r.
  rewrite firstn_all2 by (rewrite reduce_length; apply Nat.le_refl).
  reflexivity.
Qed.

Lemma app_eq_same_length {A : Type} (a a' b b' : list A) :
  length a = length a' -> a ++ b = a' ++ b' -> a = a' /\ b = b'.
Proof.
  revert a'. induction a as [|x a IH]; intros [|x' a'] Hl H;
    try discriminate.
  - split; [reflexivity | exact H].
  - cbn [app] in H. injection H as Hx Ht. cbn [length] in Hl.
    destruct (IH a' ltac:(lia) Ht) as [-> ->]. subst. split; reflexivity.
Qed.

Lemma six_reads_snapshot (queue R1 R2 R3 R4 R5 R6 : list Z) :
  length queue = LIS3DH_BYTES_IN_LOG_BUFFER ->
  fold_left (IMU_StoreFIFO memcpy_snapshot) [R1; R2; R3; R4; R5; R6] queue
  = reduce R6 ++ reduce R5 ++ reduce R4 ++ reduce R3 ++ reduce R2 ++ reduce R1.
Proof.
  intros Hq. rewrite StoreFIFO_history by exact Hq.
  cbn [rev app map concat]. rewrite app_nil_r, <- !app_assoc.
  rewrite !app_assoc. rewrite firstn_app.
  rewrite firstn_all2 by (rewrite !length_app, !reduce_length; apply Nat.le_refl).
  replace (_ - _)%nat with 0%nat
    by (rewrite !length_app, !reduce_length; reflexivity).
  cbn [firstn]. apply app_nil_r.
Qed.

Lemma six_reads_upwards (queue R1 R2 R3 R4 R5 R6 : list Z) :
  length queue = LIS3DH_BYTES_IN_LOG_BUFFER ->
  fold_left (IMU_StoreFIFO memcpy_upwards) [R1; R2; R3; R4; R5; R6] queue
  = reduce R6 ++ reduce R5 ++ reduce R5 ++ reduce R5 ++ reduce R5 ++ reduce R5.
Proof.
  intros Hq.
  rewrite <- (app_nil_r (reduce R5)) at 5.
  exact (StoreFIFO_upwards_history [R1; R2; R3; R4] R5 R6 queue Hq).
Qed.

Lemma five_bursts_equal (A B4 B3 B2 B1 C : list Z) :
  length B4 = length C -> length B3 = length C ->
  length B2 = length C -> length B1 = length C ->
  (A ++ C ++ C ++ C ++ C ++ C = A ++ C ++ B4 ++ B3 ++ B2 ++ B1
   <-> B4 = C /\ B3 = C /\ B2 = C /\ B1 = C).
Proof.
  intros L4 L3 L2 L1. split.
  - intros E.
    apply app_inv_head in E. apply app_inv_head in E.
    apply app_eq_same_length in E as [E4 E]; [|symmetry; exact L4].
    apply app_eq_same_length in E as [E3 E]; [|symmetry; exact L3].
    apply app_eq_same_length in E as [E2 E1]; [|symmetry; exact L2].
    repeat split; symmetry; assumption.
  - intros (-> & -> & -> & ->). reflexivity.
Qed.

Lemma getPayload_first_last (q messagge : list Z) :
  length q = LIS3DH_BYTES_IN_LOG_BUFFER ->
  length messagge = LOG_MESSAGE_DATA_BYTE ->
  IMU_getPayload q messagge 0 = skipn (length q - 60) q
  /\ IMU_getPayload q messagge 4 = firstn 48 q ++ repeat 0 12.
Proof.
  change LIS3DH_BYTES_IN_LOG_BUFFER with 288%nat.
  unfold LOG_MESSAGE_DATA_BYTE. intros Hlen Hm. split.
  - rewrite Hlen. unfold IMU_getPayload, memcpy.
    change (u8 (0 + 1) =? 5) with false. cbv iota.
    change (Z.to_nat (288 - u8 (0 + 1) * 60)) with 228%nat.
    change (288 - 60)%nat with 228%nat.
    change (0 + 60)%nat with 60%nat. rewrite firstn_O. cbn [app].
    rewrite firstn_all2 by (rewrite length_skipn; lia).
    rewrite (skipn_all2 messagge) by lia. apply app_nil_r.
  - unfold IMU_getPayload, memcpy, memset.
    change (u8 (4 + 1) =? 5) with true. cbv iota.
    change (0 + 48)%nat with 48%nat. rewrite !skipn_O, firstn_O. cbn [app].
    rewrite (skipn_all2 messagge) by lia. rewrite app_nil_r.
    change (u8 0) with 0. reflexivity.
Qed.

(** C7. [IMU_StoreFIFO] shifts the queue with [memcpy] from the queue onto
    itself, 48 bytes further up, which C leaves undefined.  Six FIFO reads
    R1 .. R6 stored into a 288-byte queue of any content, [Bi] the reduced
    burst of [Ri]: when the library copies from a snapshot the queue is
    [B6, B5, B4, B3, B2, B1], as the function's header promises; when it
    copies upwards in place the queue is [B6, B5, B5, B5, B5, B5], still
    288 bytes, and equals the promised one only if B1 to B4 all equal B5.
    The page slices are taken from whatever the queue holds: page index 0 is
    its last 60 bytes, page index 4 its first 48 bytes followed by 12 zero
    bytes. *)
Theorem C7_history_shift_overlapping_memcpy
        (queue R1 R2 R3 R4 R5 R6 messagge : list Z) :
  length queue = LIS3DH_BYTES_IN_LOG_BUFFER ->
  length messagge = LOG_MESSAGE_DATA_BYTE ->
  let promised := reduce R6 ++ reduce R5 ++ reduce R4 ++ reduce R3
                  ++ reduce R2 ++ reduce R1 in
  let snap := fold_left (IMU_StoreFIFO memcpy_snapshot)
                        [R1; R2; R3; R4; R5; R6] queue in
  let up := fold_left (IMU_StoreFIFO memcpy_upwards)
                      [R1; R2; R3; R4; R5; R6] queue in
  snap = promised
  /\ up = reduce R6 ++ reduce R5 ++ reduce R5 ++ reduce R5
          ++ reduce R5 ++ reduce R5
  /\ length up = LIS3DH_BYTES_IN_LOG_BUFFER
  /\ (up = promised
      <-> reduce R4 = reduce R5 /\ reduce R3 = reduce R5
          /\ reduce R2 = reduce R5 /\ reduce R1 = reduce R5)
  /\ IMU_getPayload up messagge 0 = skipn (length up - 60) up
  /\ IMU_getPayload up messagge 4 = firstn 48 up ++ repeat 0 12.
Proof.
  intros Hq Hm promised snap up.
  pose proof (six_reads_snapshot queue R1 R2 R3 R4 R5 R6 Hq) as Es.
  pose proof (six_reads_upwards queue R1 R2 R3 R4 R5 R6 Hq) as Eu.
  fold snap in Es. fold promised in Es. fold up in Eu.
  assert (Hlen : length up = LIS3DH_BYTES_IN_LOG_BUFFER).
  { rewrite Eu, !length_app, !reduce_length. reflexivity. }
  clearbody snap up.
  split; [exact Es | split; [exact Eu | split; [exact Hlen | split]]].
  - rewrite Eu. subst promised.
    apply five_bursts_equal; rewrite !reduce_length; reflexivity.
  - apply getPayload_first_last; assumption.
Qed.

Lemma C7_history_shift_overlapping_memcpy_witness :
  let up := fold_left (IMU_StoreFIFO memcpy_upwards)
              [sample_burst 1; sample_burst 2; sample_burst 3;
               sample_burst 4; sample_burst 5; sample_burst 6]
              sample_queue in
  (length sample_queue = LIS3DH_BYTES_IN_LOG_BUFFER
   /\ length (uninit 60) = LOG_MESSAGE_DATA_BYTE)
  /\ up = reduce (sample_burst 6) ++ reduce (sample_burst 5)
          ++ reduce (sample_burst 5) ++ reduce (sample_burst 5)
          ++ reduce (sample_burst 5) ++ reduce (sample_burst 5)
  /\ up <> reduce (sample_burst 6) ++ reduce (sample_burst 5)
           ++ reduce (sample_burst 4) ++ reduce (sample_burst 3)
           ++ reduce (sample_burst 2) ++ reduce (sample_burst 1)
  /\ fold_left (IMU_StoreFIFO memcpy_snapshot)
       [sample_burst 1; sample_burst 2; sample_burst 3;
        sample_burst 4; sample_burst 5; sample_burst 6]
       sample_queue
     = reduce (sample_burst 6) ++ reduce (sample_burst 5)
       ++ reduce (sample_burst 4) ++ reduce (sample_burst 3)
       ++ reduce (sample_burst 2) ++ reduce (sample_burst 1).
Proof.
  intros up.
  assert (H1 : length sample_queue = LIS3DH_BYTES_IN_LOG_BUFFER) by reflexivity.
  assert (H2 : length (uninit 60) = LOG_MESSAGE_DATA_BYTE) by reflexivity.
  destruct (C7_history_shift_overlapping_memcpy
              sample_queue (sample_burst 1) (sample_burst 2) (sample_burst 3)
              (sample_burst 4) (sample_burst 5) (sample_burst 6) (uninit 60)
              H1 H2) as (Hs & Hu & _ & Hiff & _).
  split; [split; assumption|].
  split; [exact Hu | split; [|exact Hs]].
  intros E. apply Hiff in E. destruct E as [E4 _].
  vm_compute in E4. discriminate E4.
Defined.

(** The queue on a library that copies upwards, evaluated: after six reads
    bytes 48 to 95 and bytes 240 to 287 are both the reduction of the fifth
    read, where the header of [IMU_StoreFIFO] has the first one last. *)
Example history_queue_upwards_evaluated :
  let up := fold_left (IMU_StoreFIFO memcpy_upwards)
              [sample_burst 1; sample_burst 2; sample_burst 3;
               sample_burst 4; sample_burst 5; sample_burst 6]
              sample_queue in
  firstn 48 up = reduce (sample_burst 6)
  /\ firstn 48 (skipn 48 up) = reduce (sample_burst 5)
  /\ skipn 240 up = reduce (sample_burst 5)
  /\ skipn 240 up <> reduce (sample_burst 1).
Proof.
  vm_compute. split; [reflexivity | split; [reflexivity | split; [reflexivity|]]].
  discriminate.
Qed.

(* ================================================================== *)
(** * Further properties of the firmware *)

(** ** Lookup by identifier: every outcome *)

(** Among the first [n] page headers either none holds [id] or there is an
    earliest one that does. *)
Lemma earliest_header (m : eeprom) (id : Z) (n : nat) :
  (forall k, 0 <= k < Z.of_nat n ->
             EEPROM_readByte m (LOG_DATA_BASE_ADDR + 64 * k) <> id)
  \/ exists p, 0 <= p < Z.of_nat n
               /\ EEPROM_readByte m (LOG_DATA_BASE_ADDR + 64 * p) = id
               /\ forall i, 0 <= i < p ->
                    EEPROM_readByte m (LOG_DATA_BASE_ADDR + 64 * i) <> id.
Proof.
  induction n as [|n IH].
  - left. intros k Hk. lia.
  - destruct IH as [Hnone | (p & Hp & Hid & Hmin)].
    + destruct (Z.eq_dec (EEPROM_readByte m (LOG_DATA_BASE_ADDR + 64 * Z.of_nat n)) id)
        as [Heq | Hne].
      * right. exists (Z.of_nat n). split; [lia|]. split; [exact Heq|].
        intros i Hi. apply Hnone. lia.
      * left. intros k Hk.
        destruct (Z.eq_dec k (Z.of_nat n)) as [-> | Hk'];
          [exact Hne | apply Hnone; lia].
    + right. exists p. split; [lia|]. split; assumption.
Qed.

(** X1. [EEPROM_findLogID] has two outcomes only: 0xFFFF, exactly when no
    header of pages 1 to 511 holds the identifier, or the address of the
    earliest page whose header holds it, which is page aligned, inside the
    chip and different from 0xFFFF. *)
Theorem findLogID_outcomes (m : eeprom) (id : Z) :
  (EEPROM_findLogID m id = 0xFFFF
   /\ forall k, 0 <= k < 511 ->
                EEPROM_readByte m (LOG_DATA_BASE_ADDR + 64 * k) <> id)
  \/ (exists p, 0 <= p < 511
                /\ EEPROM_findLogID m id = LOG_DATA_BASE_ADDR + 64 * p
                /\ EEPROM_findLogID m id <= SPI_EEPROM_SIZE_BYTE - 63
                /\ EEPROM_readByte m (EEPROM_findLogID m id) = id
                /\ forall i, 0 <= i < p ->
                     EEPROM_readByte m (LOG_DATA_BASE_ADDR + 64 * i) <> id).
Proof.
  destruct (earliest_header m id 511) as [Hnone | (p & Hp & Hid & Hmin)].
  - left. split; [apply findLogID_not_found; exact Hnone | exact Hnone].
  - right. exists p.
    assert (Hf : EEPROM_findLogID m id = LOG_DATA_BASE_ADDR + 64 * p)
      by (apply findLogID_found; [lia | exact Hid | exact Hmin]).
    rewrite Hf. split; [lia|]. split; [reflexivity|].
    split; [unfold LOG_DATA_BASE_ADDR, SPI_EEPROM_SIZE_BYTE; lia|].
    split; assumption.
Qed.

(** ** Page writes: roll-over and read back *)

Lemma page_program_miss (bytes : list Z) :
  forall (m : eeprom) (base off x : Z),
    (forall i, 0 <= i < Z.of_nat (length bytes) ->
               base + (off + i) mod SPI_EEPROM_PAGE_SIZE <> x) ->
    page_program m base off bytes x = m x.
Proof.
  induction bytes as [|b bs IH]; intros m base off x H; [reflexivity|].
  cbn [page_program]. rewrite IH.
  - unfold upd. destruct (x =? base + off mod SPI_EEPROM_PAGE_SIZE) eqn:E;
      [|reflexivity].
    apply Z.eqb_eq in E. exfalso. apply (H 0).
    + cbn [length]. lia.
    + rewrite Z.add_0_r. symmetry. exact E.
  - intros i Hi. replace (off + 1 + i) with (off + (i + 1)) by lia.
    apply H. cbn [length]. lia.
Qed.

Lemma page_program_wrap (bytes : list Z) :
  forall (m : eeprom) (base off i : Z),
    Z.of_nat (length bytes) <= SPI_EEPROM_PAGE_SIZE ->
    0 <= i < Z.of_nat (length bytes) ->
    page_program m base off bytes (base + (off + i) mod SPI_EEPROM_PAGE_SIZE)
    = u8 (nth (Z.to_nat i) bytes 0).
Proof.
  unfold SPI_EEPROM_PAGE_SIZE.
  induction bytes as [|b bs IH]; intros m base off i Hlen Hi;
    cbn [length] in *; [lia|].
  cbn [page_program]. fold SPI_EEPROM_PAGE_SIZE. unfold SPI_EEPROM_PAGE_SIZE.
  destruct (Z.eq_dec i 0) as [-> | Hi0].
  - rewrite Z.add_0_r. change (Z.to_nat 0) with 0%nat. cbn [nth].
    rewrite page_program_miss.
    + unfold upd. rewrite Z.eqb_refl. reflexivity.
    + unfold SPI_EEPROM_PAGE_SIZE. intros j Hj Heq.
      assert (E : (off + 1 + j) mod 64 = off mod 64) by lia.
      assert (D : (off + 1 + j - off) mod 64 = 0).
      { rewrite Zminus_mod, E, Z.sub_diag. reflexivity. }
      replace (off + 1 + j - off) with (1 + j) in D by lia.
      rewrite Z.mod_small in D by lia. lia.
  - replace (off + i) with (off + 1 + (i - 1)) by lia.
    fold SPI_EEPROM_PAGE_SIZE.
    rewrite IH by (unfold SPI_EEPROM_PAGE_SIZE; lia).
    replace (Z.to_nat i) with (S (Z.to_nat (i - 1))) by lia.
    reflexivity.
Qed.

Lemma writePage_written (m : eeprom) (addr : Z) (dat : list Z) (n i : nat) :
  0 <= addr < 65536 ->
  (n <= 64)%nat ->
  (i < n)%nat ->
  EEPROM_writePage m addr dat n
    (addr - addr mod 64 + (addr mod 64 + Z.of_nat i) mod 64)
  = u8 (nth i dat 0).
Proof.
  intros Ha Hn Hi. unfold EEPROM_writePage.
  rewrite (bus_addr_small addr Ha).
  change SPI_EEPROM_PAGE_SIZE with 64.
  pose proof (page_program_wrap
                (map (fun i => nth i dat 0) (seq 0 n)) m
                (addr - addr mod 64) (addr mod 64) (Z.of_nat i)) as H.
  rewrite length_map, length_seq in H.
  change SPI_EEPROM_PAGE_SIZE with 64 in H.
  rewrite H by lia.
  rewrite Nat2Z.id.
  rewrite (nth_indep _ 0 (nth 0%nat dat 0))
    by (rewrite length_map, length_seq; exact Hi).
  rewrite (map_nth (fun i => nth i dat 0)), seq_nth by exact Hi.
  reflexivity.
Qed.

(** X2. [EEPROM_writePage] on the 25LC256, whose cells are the addresses
    0 to [SPI_EEPROM_SIZE_BYTE]: the function sends the address and up to
    64 bytes in one instruction, and with the page latch its side-effect
    note describes, byte [i] goes to the cell at offset
    [(addr mod 64 + i) mod 64] of the page that contains [addr]: a write
    that reaches the end of the page continues at its beginning.  No cell
    of another page changes, and a cell of the page the write does not step
    on keeps its content. *)
Theorem writePage_rolls_over_within_page
        (m : eeprom) (addr : Z) (dat : list Z) (n : nat) :
  0 <= addr <= SPI_EEPROM_SIZE_BYTE ->
  (n <= 64)%nat ->
  let page := addr - addr mod 64 in
  (forall i, (i < n)%nat ->
     EEPROM_writePage m addr dat n (page + (addr mod 64 + Z.of_nat i) mod 64)
     = u8 (nth i dat 0))
  /\ (forall x, 0 <= x <= SPI_EEPROM_SIZE_BYTE ->
                x < page \/ page + 64 <= x ->
                EEPROM_writePage m addr dat n x = m x)
  /\ (forall x, 0 <= x <= SPI_EEPROM_SIZE_BYTE ->
                (forall i, (i < n)%nat ->
                           x <> page + (addr mod 64 + Z.of_nat i) mod 64) ->
                EEPROM_writePage m addr dat n x = m x).
Proof.
  intros Ha Hn page. unfold SPI_EEPROM_SIZE_BYTE in Ha.
  assert (Ha' : 0 <= addr < 65536) by lia.
  split; [|split].
  - intros i Hi. apply writePage_written; assumption.
  - intros x _ Hx. apply writePage_frame; [exact Ha' | exact Hx].
  - intros x _ Hx. unfold EEPROM_writePage.
    rewrite (bus_addr_small addr Ha').
    apply page_program_miss. rewrite length_map, length_seq.
    intros i Hi E. apply (Hx (Z.to_nat i)); [lia|].
    rewrite Z2Nat.id by lia. symmetry. exact E.
Qed.

Lemma writePage_rolls_over_within_page_witness :
  let m := EEPROM_writePage factory_fresh 0x7E [1; 2; 3; 4] 4 in
  (0 <= 0x7E <= SPI_EEPROM_SIZE_BYTE /\ (4 <= 64)%nat)
  /\ (m 0x7E = 1 /\ m 0x7F = 2 /\ m 0x40 = 3 /\ m 0x41 = 4)
  /\ m 0x80 = 0xFF
  /\ m 0x42 = 0xFF.
Proof.
  pose proof (writePage_rolls_over_within_page factory_fresh 0x7E [1; 2; 3; 4] 4
                ltac:(unfold SPI_EEPROM_SIZE_BYTE; lia) ltac:(lia))
    as [Hin [Hout Hmiss]].
  split; [split; [unfold SPI_EEPROM_SIZE_BYTE|]; lia|]. split.
  - split; [exact (Hin 0%nat ltac:(lia))|].
    split; [exact (Hin 1%nat ltac:(lia))|].
    split; [exact (Hin 2%nat ltac:(lia)) | exact (Hin 3%nat ltac:(lia))].
  - split.
    + exact (Hout 0x80 ltac:(unfold SPI_EEPROM_SIZE_BYTE; lia)
                  ltac:(right; vm_compute; discriminate)).
    + apply (Hmiss 0x42 ltac:(unfold SPI_EEPROM_SIZE_BYTE; lia)).
      intros i Hi.
      destruct i as [|[|[|[|i]]]]; [vm_compute; discriminate ..| lia].
Defined.

(** X3. Write then read: when the [n] bytes fit between [addr] and the end
    of its page, [EEPROM_readPage] at [addr] returns the bytes written,
    each reduced to eight bits. *)
Theorem readPage_after_writePage
        (m : eeprom) (addr : Z) (dat : list Z) (n : nat) :
  0 <= addr < 65536 ->
  addr mod 64 + Z.of_nat n <= 64 ->
  (n <= length dat)%nat ->
  EEPROM_readPage (EEPROM_writePage m addr dat n) addr n
  = map u8 (firstn n dat).
Proof.
  intros Ha Hfit Hlen.
  pose proof (Z.mod_pos_bound addr 64 ltac:(lia)) as Hoff.
  assert (Hin : forall i, (i < n)%nat ->
            EEPROM_writePage m addr dat n
              (addr - addr mod 64 + (addr mod 64 + Z.of_nat i) mod 64)
            = u8 (nth i dat 0))
    by (intros i Hi; apply writePage_written; [exact Ha | lia | exact Hi]).
  unfold EEPROM_readPage. rewrite (bus_addr_small addr Ha).
  apply nth_ext with (d := 0) (d' := u8 0).
  - rewrite !length_map, length_seq, length_firstn. lia.
  - intros i Hi. rewrite length_map, length_seq in Hi.
    rewrite (nth_indep _ 0
               ((fun i => u8 (EEPROM_writePage m addr dat n (addr + Z.of_nat i)))
                  0%nat))
      by (rewrite length_map, length_seq; exact Hi).
    rewrite (map_nth (fun i => u8 (EEPROM_writePage m addr dat n
                                                    (addr + Z.of_nat i)))),
      seq_nth by exact Hi.
    rewrite (map_nth u8). cbn [Nat.add].
    specialize (Hin i Hi).
    rewrite (Z.mod_small (addr mod 64 + Z.of_nat i)) in Hin by lia.
    replace (addr - addr mod 64 + (addr mod 64 + Z.of_nat i))
      with (addr + Z.of_nat i) in Hin by lia.
    rewrite Hin, u8_idem.
    rewrite nth_firstn.
    destruct (i <? n)%nat eqn:E; [reflexivity|].
    apply Nat.ltb_ge in E. lia.
Qed.

Lemma readPage_after_writePage_witness :
  (0 <= 0x0100 < 65536 /\ 0x0100 mod 64 + Z.of_nat 3 <= 64
   /\ (3 <= length [0x11; 0x22; 0x133])%nat)
  /\ EEPROM_readPage (EEPROM_writePage blank 0x0100 [0x11; 0x22; 0x133] 3)
                     0x0100 3
     = [0x11; 0x22; 0x33].
Proof.
  split; [split; [lia | split; [vm_compute; discriminate | cbn; lia]]|].
  exact (readPage_after_writePage blank 0x0100 [0x11; 0x22; 0x133] 3
           ltac:(lia) ltac:(vm_compute; discriminate) ltac:(cbn; lia)).
Defined.

(** ** Reading back what was logged *)

Lemma forallb_firstn {A : Type} (P : A -> bool) (n : nat) (l : list A) :
  forallb P l = true -> forallb P (firstn n l) = true.
Proof.
  revert l. induction n as [|n IH]; intros [|x l] H; try reflexivity.
  cbn [firstn forallb] in *. apply andb_true_iff in H as [Hx Hl].
  rewrite Hx. cbn [andb]. apply IH. exact Hl.
Qed.

Lemma forallb_skipn {A : Type} (P : A -> bool) (n : nat) (l : list A) :
  forallb P l = true -> forallb P (skipn n l) = true.
Proof.
  revert l. induction n as [|n IH]; intros [|x l] H; try reflexivity.
  - exact H.
  - cbn [skipn forallb] in *. apply andb_true_iff in H as [_ Hl].
    apply IH. exact Hl.
Qed.

Lemma forallb_nth (P : Z -> bool) (l : list Z) (k : nat) :
  forallb P l = true -> (k < length l)%nat -> P (nth k l 0) = true.
Proof.
  intros H Hk. rewrite forallb_forall in H. apply H. apply nth_In. exact Hk.
Qed.

(** The payload windows: 60 bytes each, bytes of the queue or zero. *)
Lemma getPayload_wf (queue : list Z) (i : nat) :
  length queue = LIS3DH_BYTES_IN_LOG_BUFFER ->
  forallb is_byte queue = true ->
  (i < 5)%nat ->
  let payload := IMU_getPayload queue (uninit LOG_MESSAGE_DATA_BYTE) (Z.of_nat i) in
  length payload = LOG_MESSAGE_DATA_BYTE /\ forallb is_byte payload = true.
Proof.
  change LIS3DH_BYTES_IN_LOG_BUFFER with 288%nat.
  change LOG_MESSAGE_DATA_BYTE with 60%nat.
  intros Hlen Hb Hi.
  assert (Hwin : forall k, (k + 60 <= 288)%nat ->
            length (firstn 60 (skipn k queue)) = 60%nat
            /\ forallb is_byte (firstn 60 (skipn k queue)) = true).
  { intros k Hk. split.
    - rewrite length_firstn, length_skipn. lia.
    - apply forallb_firstn, forallb_skipn. exact Hb. }
  do 4 (destruct i as [|i];
        [ unfold IMU_getPayload, memcpy; cbv zeta;
          match goal with
          | |- context [u8 (Z.of_nat ?n + 1) =? 5] =>
              change (u8 (Z.of_nat n + 1) =? 5) with false;
              let k := eval vm_compute in
                         (Z.to_nat (288 - u8 (Z.of_nat n + 1) * 60)) in
              change (Z.to_nat (288 - u8 (Z.of_nat n + 1) * 60)) with k
          end;
          cbv iota;
          change (skipn (0 + 60) (uninit 60)) with (@nil Z);
          rewrite firstn_O, app_nil_r; cbn [app];
          apply Hwin; lia
        | ]).
  destruct i as [|i]; [|lia].
  unfold IMU_getPayload, memcpy, memset. cbv zeta.
  change (u8 (Z.of_nat 4 + 1) =? 5) with true. cbv iota.
  change (skipn 60 (uninit 60)) with (@nil Z). rewrite app_nil_r.
  change (0 + 48)%nat with 48%nat. rewrite skipn_O, firstn_O. cbn [app].
  change (skipn 48 (repeat (u8 0) 60)) with (repeat 0 12).
  split.
  - rewrite length_app, length_firstn, repeat_length. lia.
  - rewrite forallb_app. apply andb_true_iff. split.
    + apply forallb_firstn. exact Hb.
    + reflexivity.
Qed.

Lemma createMessage_fields (id ireg time : Z) (payload : list Z) :
  length payload = LOG_MESSAGE_DATA_BYTE ->
  LOG_createMessage id ireg time payload
  = mk_log (u8 id) (u8 ireg) (u16 time) payload.
Proof.
  change LOG_MESSAGE_DATA_BYTE with 60%nat. intros Hlen.
  unfold LOG_createMessage, LOG_insertPayload, memcpy. cbv zeta.
  cbn [logID intReg timestamp data log_uninit].
  change LOG_MESSAGE_DATA_BYTE with 60%nat.
  change (skipn (0 + 60) (uninit 60)) with (@nil Z).
  rewrite skipn_O, firstn_O, app_nil_r. cbn [app].
  rewrite firstn_all2 by lia. reflexivity.
Qed.

Lemma createMessage_wf (id ireg time : Z) (payload : list Z) :
  length payload = LOG_MESSAGE_DATA_BYTE ->
  forallb is_byte payload = true ->
  log_wf (LOG_createMessage id ireg time payload) = true.
Proof.
  intros Hlen Hb. rewrite createMessage_fields by exact Hlen.
  unfold log_wf, is_byte. cbn [logID intReg timestamp data].
  pose proof (u8_range id). pose proof (u8_range ireg).
  pose proof (u16_range time).
  rewrite Hlen, Nat.eqb_refl.
  fold is_byte. rewrite Hb.
  repeat (apply andb_true_iff; split); try reflexivity;
    first [apply Z.leb_le; lia | apply Z.ltb_lt; lia].
Qed.

Lemma packMessage_unpackMessage (r : log_t) :
  log_wf r = true ->
  LOG_packMessage log_uninit (LOG_unpackMessage (uninit 64) r) = r.
Proof.
  intros Hwf. destruct (log_wf_fields r Hwf) as (Hid & Hireg & Hts & Hdat).
  rewrite (unpackMessage_layout (uninit 64) r eq_refl Hdat).
  unfold LOG_packMessage, memcpy.
  cbn [app nth logID intReg timestamp data firstn skipn Nat.add].
  rewrite timestamp_bytes by exact Hts.
  rewrite firstn_all2 by (rewrite Hdat; apply Nat.le_refl).
  change (skipn LOG_MESSAGE_DATA_BYTE (data log_uninit)) with (@nil Z).
  rewrite app_nil_r. destruct r; reflexivity.
Qed.

Lemma unpackMessage_bytes (r : log_t) :
  log_wf r = true ->
  length (LOG_unpackMessage (uninit 64) r) = 64%nat
  /\ forallb is_byte (LOG_unpackMessage (uninit 64) r) = true.
Proof.
  intros Hwf. destruct (log_wf_fields r Hwf) as (Hid & Hireg & Hts & Hdat).
  rewrite (unpackMessage_layout (uninit 64) r eq_refl Hdat).
  split.
  - cbn [app length]. rewrite Hdat. reflexivity.
  - unfold log_wf in Hwf. rewrite !andb_true_iff in Hwf.
    destruct Hwf as (((((H1 & H2) & _) & _) & _) & H6).
    cbn [app forallb]. rewrite H1, H2, H6. cbn [andb].
    pose proof (u8_range (Z.land (timestamp r) 0xFF)).
    pose proof (u8_range (Z.land (Z.shiftr (timestamp r) 8) 0xFF)).
    unfold is_byte.
    repeat (apply andb_true_iff; split); try reflexivity;
      first [apply Z.leb_le; lia | apply Z.ltb_lt; lia].
Qed.

(** A page whose 64 cells hold the bytes of [bytes] reads back as
    [bytes]. *)
Lemma readPage_cells (m : eeprom) (a : Z) (bytes : list Z) :
  0 <= a -> a + 64 <= 65536 ->
  length bytes = 64%nat ->
  forallb is_byte bytes = true ->
  (forall x, a <= x < a + 64 -> m x = u8 (nth (Z.to_nat (x - a)) bytes 0)) ->
  EEPROM_readPage m a 64 = bytes.
Proof.
  intros Ha Hend Hlen Hb Hm. unfold EEPROM_readPage.
  rewrite bus_addr_small by lia.
  apply nth_ext with (d := 0) (d' := 0).
  - rewrite length_map, length_seq. symmetry. exact Hlen.
  - intros k Hk. rewrite length_map, length_seq in Hk.
    rewrite (nth_indep _ 0 ((fun i => u8 (m (a + Z.of_nat i))) 0%nat))
      by (rewrite length_map, length_seq; exact Hk).
    rewrite (map_nth (fun i => u8 (m (a + Z.of_nat i)))), seq_nth by exact Hk.
    cbn [Nat.add]. rewrite Hm by lia.
    replace (Z.to_nat (a + Z.of_nat k - a)) with k by lia.
    rewrite u8_idem. apply u8_small. apply is_byte_range.
    apply forallb_nth; [exact Hb | lia].
Qed.

Lemma logCount_of_logs_stored (n : Z) (m : eeprom) :
  0 <= n <= 51 -> logs_stored n m -> EEPROM_retrieveLogCount m = n.
Proof.
  intros Hn (_ & Hcnt & _). unfold EEPROM_retrieveLogCount. rewrite Hcnt.
  change LOG_PAGES_PER_EVENT with 5.
  rewrite Z.mul_comm, Z.div_mul by lia. apply u8_small. lia.
Qed.

Lemma log_pages_event (id : Z) (e : event) (i : nat) :
  (i < 5)%nat ->
  nth i (log_pages id (event_int_reg e) (event_time e) (event_queue e)) log_uninit
  = event_page id e (Z.of_nat i).
Proof.
  intros Hi. do 5 (destruct i as [|i]; [reflexivity|]). lia.
Qed.

Lemma log_event_of_cells (s : psoc) (e : event) :
  cells (log_event_of s e)
  = appendLog (cells s) (EEPROM_retrieveLogCount (cells s))
              (event_int_reg e) (event_time e) (event_queue e).
Proof. unfold log_event_of. rewrite log_event_cells. reflexivity. Qed.

(** One more event on a store that holds the logs of [evs]. *)
Lemma logs_hold_next (evs : list event) (s : psoc) (e : event) :
  (length evs <= 50)%nat ->
  logs_hold evs (cells s) ->
  logs_hold (evs ++ [e]) (cells (log_event_of s e)).
Proof.
  intros Hn (Hst & Hold).
  set (n := Z.of_nat (length evs)) in *.
  assert (Hn' : 0 <= n <= 50) by lia.
  rewrite log_event_of_cells.
  pose proof (appendLog_next_log n (cells s) (event_int_reg e) (event_time e)
                (event_queue e) Hn' Hst) as Hnext.
  rewrite (logCount_of_logs_stored n (cells s) ltac:(lia) Hst) in *.
  destruct Hst as (Hhigh & Hcnt & _).
  rewrite appendLog_messages in *.
  set (msgs := log_pages n (event_int_reg e) (event_time e) (event_queue e)) in *.
  destruct (store_messages_effect msgs (cells s) Hhigh) as (_ & _ & Hp & Hf).
  { rewrite Hcnt. change (length msgs) with 5%nat. lia. }
  rewrite Hcnt in Hp, Hf. change (length msgs) with 5%nat in Hp, Hf.
  split.
  - rewrite length_app. cbn [length].
    replace (Z.of_nat (length evs + 1)) with (n + 1) by lia. exact Hnext.
  - intros j i x Hj Hi Hx. rewrite length_app in Hj. cbn [length] in Hj.
    change LOG_DATA_BASE_ADDR with 64 in *.
    destruct (Nat.lt_ge_cases j (length evs)) as [Hjo | Hjn].
    + rewrite Hf by lia.
      rewrite app_nth1 by exact Hjo.
      apply Hold; [exact Hjo | exact Hi | exact Hx].
    + assert (Ej : j = length evs) by lia. subst j.
      rewrite app_nth2, Nat.sub_diag by lia. cbn [nth].
      fold n. fold n in Hx.
      replace (5 * n + Z.of_nat i) with (5 * n + Z.of_nat i) in * by lia.
      rewrite (Hp i) by lia.
      unfold msgs. rewrite log_pages_event by exact Hi. reflexivity.
Qed.

(** Any run of at most 51 events on a store without logs. *)
Lemma logs_hold_run (later : list event) :
  forall (done : list event) (s : psoc),
    (length done + length later <= 51)%nat ->
    logs_hold done (cells s) ->
    logs_hold (done ++ later) (cells (fold_left log_event_of later s)).
Proof.
  induction later as [|e later IH]; intros done s Hlen Hs.
  - rewrite app_nil_r. exact Hs.
  - cbn [fold_left]. cbn [length] in Hlen.
    replace (done ++ e :: later) with ((done ++ [e]) ++ later)
      by (rewrite <- app_assoc; reflexivity).
    apply IH.
    + rewrite length_app. cbn [length]. lia.
    + apply logs_hold_next; [lia | exact Hs].
Qed.

Lemma logs_hold_empty (m : eeprom) : logs_stored 0 m -> logs_hold [] m.
Proof.
  intros H. split; [exact H|]. intros j i x Hj. cbn [length] in Hj. lia.
Qed.

Lemma event_page_wf (id : Z) (e : event) (i : nat) :
  event_wf e = true -> (i < 5)%nat ->
  log_wf (event_page id e (Z.of_nat i)) = true.
Proof.
  unfold event_wf. intros He Hi. apply andb_true_iff in He as [Hl Hb].
  apply Nat.eqb_eq in Hl.
  destruct (getPayload_wf (event_queue e) i Hl Hb Hi) as [Hpl Hpb].
  unfold event_page. apply createMessage_wf; assumption.
Qed.

(** Lookup and read on a store that holds the logs of [evs]. *)
Lemma logs_hold_retrieve (evs : list event) (m : eeprom) (j i : nat) :
  (length evs <= 51)%nat ->
  logs_hold evs m ->
  (j < length evs)%nat -> (i < 5)%nat ->
  event_wf (nth j evs no_event) = true ->
  EEPROM_findLogID m (Z.of_nat j) = LOG_DATA_BASE_ADDR + 320 * Z.of_nat j
  /\ EEPROM_retrieveLogData m (Z.of_nat j) (Z.of_nat i)
     = LOG_unpackMessage (uninit 64)
         (event_page (Z.of_nat j) (nth j evs no_event) (Z.of_nat i))
  /\ EEPROM_retrieveLogMessage m (Z.of_nat j) (Z.of_nat i)
     = event_page (Z.of_nat j) (nth j evs no_event) (Z.of_nat i).
Proof.
  intros Hlen ((Hhigh & Hcnt & Hhdr) & Hpages) Hj Hi Hwf.
  assert (E : EEPROM_findLogID m (Z.of_nat j)
              = LOG_DATA_BASE_ADDR + 64 * (5 * Z.of_nat j)).
  { apply findLogID_found.
    - lia.
    - rewrite Hhdr by lia. rewrite Z.mul_comm. apply Z.div_mul. lia.
    - intros k Hk. rewrite Hhdr by lia.
      assert (k / 5 < Z.of_nat j) by (apply Z.div_lt_upper_bound; lia). lia. }
  pose proof (event_page_wf (Z.of_nat j) (nth j evs no_event) i Hwf Hi) as Hpw.
  destruct (unpackMessage_bytes _ Hpw) as [Hul Hub].
  assert (D : EEPROM_retrieveLogData m (Z.of_nat j) (Z.of_nat i)
              = LOG_unpackMessage (uninit 64)
                  (event_page (Z.of_nat j) (nth j evs no_event) (Z.of_nat i))).
  { unfold EEPROM_retrieveLogData. rewrite E.
    change LOG_DATA_BASE_ADDR with 64 in *. change SPI_EEPROM_PAGE_SIZE with 64.
    change (Z.to_nat 64) with 64%nat.
    rewrite u16_small by lia.
    apply readPage_cells; [lia | lia | exact Hul | exact Hub |].
    intros x Hx.
    replace (64 + 64 * (5 * Z.of_nat j) + Z.of_nat i * 64)
      with (64 + 64 * (5 * Z.of_nat j + Z.of_nat i)) in * by lia.
    apply Hpages; [exact Hj | exact Hi | exact Hx]. }
  split; [rewrite E; lia | split; [exact D|]].
  unfold EEPROM_retrieveLogMessage. rewrite D.
  apply packMessage_unpackMessage. exact Hpw.
Qed.

Lemma logs_hold_after (evs : list event) (s : psoc) :
  u8 (cells s 0x16) = 0 ->
  EEPROM_retrieveLogPages (cells s) = 0 ->
  (length evs <= 51)%nat ->
  logs_hold evs (cells (fold_left log_event_of evs s)).
Proof.
  intros Hhigh Hcnt Hlen.
  apply (logs_hold_run evs [] s); [cbn [length]; lia|].
  apply logs_hold_empty. split; [exact Hhigh | split; [exact Hcnt|]].
  intros p Hp. lia.
Qed.

Lemma forallb_event_wf (evs : list event) (j : nat) :
  forallb event_wf evs = true -> (j < length evs)%nat ->
  event_wf (nth j evs no_event) = true.
Proof.
  intros H Hj. rewrite forallb_forall in H. apply H. apply nth_In. exact Hj.
Qed.

(** X4. What is logged can be read back.  On a store without logs and
    with zero in cell 0x16, after any run of at most 51 over-threshold
    events, each with its own interrupt register, timestamp and queue, the
    log count is the number of events, and [EEPROM_retrieveLogMessage]
    returns for every identifier [j] and page [i] the very message the main
    loop built for event [j]. *)
Theorem logged_events_read_back (evs : list event) (s : psoc) (j i : nat) :
  u8 (cells s 0x16) = 0 ->
  EEPROM_retrieveLogPages (cells s) = 0 ->
  (length evs <= 51)%nat ->
  forallb event_wf evs = true ->
  (j < length evs)%nat -> (i < 5)%nat ->
  let m := cells (fold_left log_event_of evs s) in
  EEPROM_retrieveLogCount m = Z.of_nat (length evs)
  /\ EEPROM_findLogID m (Z.of_nat j) = LOG_DATA_BASE_ADDR + 320 * Z.of_nat j
  /\ EEPROM_retrieveLogMessage m (Z.of_nat j) (Z.of_nat i)
     = event_page (Z.of_nat j) (nth j evs no_event) (Z.of_nat i)
  /\ EEPROM_retrieveLogMessage m (Z.of_nat j) (Z.of_nat i)
     = mk_log (Z.of_nat j)
              (u8 (event_int_reg (nth j evs no_event)))
              (u16 (event_time (nth j evs no_event)))
              (IMU_getPayload (event_queue (nth j evs no_event))
                              (uninit LOG_MESSAGE_DATA_BYTE) (Z.of_nat i)).
Proof.
  intros Hhigh Hcnt Hlen Hwf Hj Hi m.
  pose proof (logs_hold_after evs s Hhigh Hcnt Hlen) as Hh. fold m in Hh.
  pose proof (forallb_event_wf evs j Hwf Hj) as Hej.
  destruct (logs_hold_retrieve evs m j i Hlen Hh Hj Hi Hej) as (Hf & _ & Hr).
  split; [|split; [exact Hf | split; [exact Hr|]]].
  - apply logCount_of_logs_stored; [lia | apply Hh].
  - rewrite Hr. unfold event_page.
    unfold event_wf in Hej. apply andb_true_iff in Hej as [Hl Hb].
    apply Nat.eqb_eq in Hl.
    rewrite createMessage_fields
      by (apply (getPayload_wf _ i Hl Hb Hi)).
    rewrite (u8_small (Z.of_nat j)) by lia. reflexivity.
Qed.

Lemma logged_events_read_back_witness :
  let s := main_setup (power_on (EEPROM_resetMemory factory_fresh) lis3dh_zero) in
  let evs := [mk_event 0x6A 7 sample_queue; mk_event 0x155 70000 (rev sample_queue)] in
  (u8 (cells s 0x16) = 0
   /\ EEPROM_retrieveLogPages (cells s) = 0
   /\ (length evs <= 51)%nat
   /\ forallb event_wf evs = true
   /\ (1 < length evs)%nat /\ (2 < 5)%nat)
  /\ EEPROM_retrieveLogMessage (cells (fold_left log_event_of evs s)) 1 2
     = mk_log 1 0x55 4464 (firstn 60 (skipn 108 (rev sample_queue))).
Proof.
  intros s evs.
  assert (H1 : u8 (cells s 0x16) = 0) by (vm_compute; reflexivity).
  assert (H2 : EEPROM_retrieveLogPages (cells s) = 0) by (vm_compute; reflexivity).
  assert (H3 : (length evs <= 51)%nat) by (cbn; lia).
  assert (H4 : forallb event_wf evs = true) by (vm_compute; reflexivity).
  assert (H5 : (1 < length evs)%nat) by (cbn; lia).
  assert (H6 : (2 < 5)%nat) by lia.
  split; [repeat split; assumption|].
  exact (proj2 (proj2 (proj2
           (logged_events_read_back evs s 1 2 H1 H2 H3 H4 H5 H6)))).
Defined.

(* ------------------------------------------------------------------ *)
(** *** Remote read of a stored log *)

Lemma UART_PutArray_all (s : psoc) (a : list Z) :
  UART_PutArray s a (length a) = set_uart s (uart_rx s) (uart_tx s ++ a).
Proof.
  unfold UART_PutArray. f_equal. f_equal.
  apply nth_ext with (d := 0) (d' := 0).
  - rewrite length_map, length_seq. reflexivity.
  - intros k Hk. rewrite length_map, length_seq in Hk.
    rewrite (nth_indep _ 0 ((fun i => nth i a 0) 0%nat))
      by (rewrite length_map, length_seq; exact Hk).
    rewrite (map_nth (fun i => nth i a 0)), seq_nth by exact Hk.
    reflexivity.
Qed.

Lemma LOG_sendData_tx (s : psoc) (message : log_t) :
  length (LOG_unpackMessage (uninit 64) message) = 64%nat ->
  LOG_sendData s message
  = set_uart s (uart_rx s)
             (uart_tx s ++ LOG_unpackMessage (uninit 64) message).
Proof.
  unfold LOG_sendData. change (uninit LOG_MESSAGE_TOT_BYTE) with (uninit 64).
  change LOG_MESSAGE_TOT_BYTE with 64%nat.
  generalize (LOG_unpackMessage (uninit 64) message). intros b Hb.
  rewrite <- Hb. apply UART_PutArray_all.
Qed.

Lemma sendData_fold (page : eeprom -> nat -> log_t) (l : list nat) :
  forall s : psoc,
    (forall i, In i l ->
       length (LOG_unpackMessage (uninit 64) (page (cells s) i)) = 64%nat) ->
    fold_left (fun acc i => LOG_sendData acc (page (cells acc) i)) l s
    = set_uart s (uart_rx s)
        (uart_tx s
         ++ flat_map (fun i => LOG_unpackMessage (uninit 64) (page (cells s) i))
                     l).
Proof.
  induction l as [|k l IH]; intros s H.
  - cbn [fold_left flat_map]. rewrite app_nil_r. destruct s; reflexivity.
  - cbn [fold_left flat_map].
    rewrite LOG_sendData_tx by (apply H; left; reflexivity).
    rewrite IH.
    + cbn [cells set_uart uart_rx uart_tx]. rewrite <- app_assoc. reflexivity.
    + intros i Hi. cbn [cells set_uart]. apply H. right. exact Hi.
Qed.

Lemma send_log_pages_tx (s : psoc) (log_id : Z) :
  (forall i, (i < 5)%nat ->
     length (LOG_unpackMessage (uninit 64)
               (EEPROM_retrieveLogMessage (cells s) log_id (Z.of_nat i)))
     = 64%nat) ->
  send_log_pages s log_id
  = set_uart s (uart_rx s)
      (uart_tx s
       ++ flat_map (fun i => LOG_unpackMessage (uninit 64)
                               (EEPROM_retrieveLogMessage (cells s) log_id
                                                          (Z.of_nat i)))
                   (seq 0 5)).
Proof.
  intros Hlen.
  apply (sendData_fold
           (fun m i => EEPROM_retrieveLogMessage m log_id (Z.of_nat i))
           (seq 0 5) s).
  intros i Hi. apply Hlen. apply in_seq in Hi. lia.
Qed.

(** X5. The READ_LOG command on such a store: for a stored identifier [j]
    the handler consumes the two command bytes and transmits exactly the
    320 bytes of the five pages of log [j], in page order, each page the
    64-byte encoding of the message the main loop built; the store is not
    changed. *)
Theorem read_log_transmits_stored_log
        (evs : list event) (s : psoc) (j : nat) (rx tx : list Z) :
  u8 (cells s 0x16) = 0 ->
  EEPROM_retrieveLogPages (cells s) = 0 ->
  (length evs <= 51)%nat ->
  forallb event_wf evs = true ->
  (j < length evs)%nat ->
  let s1 := set_uart (fold_left log_event_of evs s)
                     (UART_RX_SEND_LOG_ID :: Z.of_nat j :: rx) tx in
  uart_tx (CUSTOM_ISR_RX s1)
  = tx ++ flat_map (fun i => LOG_unpackMessage (uninit 64)
                               (event_page (Z.of_nat j) (nth j evs no_event)
                                           (Z.of_nat i)))
                   (seq 0 5)
  /\ length (uart_tx (CUSTOM_ISR_RX s1)) = (length tx + 320)%nat
  /\ uart_rx (CUSTOM_ISR_RX s1) = rx
  /\ cells (CUSTOM_ISR_RX s1) = cells s1.
Proof.
  intros Hhigh Hcnt Hlen Hwf Hj s1.
  pose proof (logs_hold_after evs s Hhigh Hcnt Hlen) as Hh.
  pose proof (forallb_event_wf evs j Hwf Hj) as Hej.
  set (m := cells (fold_left log_event_of evs s)) in *.
  assert (Hr : forall i, (i < 5)%nat ->
            EEPROM_retrieveLogMessage m (Z.of_nat j) (Z.of_nat i)
            = event_page (Z.of_nat j) (nth j evs no_event) (Z.of_nat i)).
  { intros i Hi. apply (logs_hold_retrieve evs m j i Hlen Hh Hj Hi Hej). }
  assert (Hl : forall i, (i < 5)%nat ->
            length (LOG_unpackMessage (uninit 64)
                      (event_page (Z.of_nat j) (nth j evs no_event) (Z.of_nat i)))
            = 64%nat).
  { intros i Hi. apply unpackMessage_bytes, event_page_wf; assumption. }
  assert (E : CUSTOM_ISR_RX s1
              = send_log_pages (set_uart s1 rx tx) (Z.of_nat j)).
  { unfold CUSTOM_ISR_RX, UART_GetChar, s1.
    cbn [set_uart uart_rx uart_tx].
    change (UART_RX_SEND_LOG_ID =? UART_RX_RESET_MEMORY) with false.
    change (UART_RX_SEND_LOG_ID =? UART_RX_NUMBER_OF_LOGS) with false.
    change (UART_RX_SEND_LOG_ID =? UART_RX_READ_CTRL_REG) with false.
    change (UART_RX_SEND_LOG_ID =? UART_RX_SEND_LOG_ID) with true.
    cbv iota. reflexivity. }
  rewrite E, send_log_pages_tx.
  - cbn [set_uart uart_tx uart_rx cells]. fold m.
    cbn [seq flat_map].
    change (cells s1) with m.
    rewrite !(Hr 0%nat), !(Hr 1%nat), !(Hr 2%nat), !(Hr 3%nat), !(Hr 4%nat) by lia.
    split; [reflexivity|]. split; [|split; reflexivity].
    rewrite !length_app, (Hl 0%nat), (Hl 1%nat), (Hl 2%nat), (Hl 3%nat),
      (Hl 4%nat) by lia.
    cbn [length]. lia.
  - intros i Hi. cbn [set_uart cells]. change (cells s1) with m.
    rewrite Hr by exact Hi.
    apply Hl. exact Hi.
Qed.

Lemma read_log_transmits_stored_log_witness :
  let s := main_setup (power_on (EEPROM_resetMemory factory_fresh) lis3dh_zero) in
  let evs := [mk_event 0x6A 7 sample_queue; mk_event 0x55 9 (rev sample_queue)] in
  (u8 (cells s 0x16) = 0
   /\ EEPROM_retrieveLogPages (cells s) = 0
   /\ (length evs <= 51)%nat
   /\ forallb event_wf evs = true
   /\ (1 < length evs)%nat)
  /\ length (uart_tx (CUSTOM_ISR_RX
                        (set_uart (fold_left log_event_of evs s)
                                  (UART_RX_SEND_LOG_ID :: Z.of_nat 1 :: []) [])))
     = (length (@nil Z) + 320)%nat.
Proof.
  intros s evs.
  assert (H1 : u8 (cells s 0x16) = 0) by (vm_compute; reflexivity).
  assert (H2 : EEPROM_retrieveLogPages (cells s) = 0) by (vm_compute; reflexivity).
  assert (H3 : (length evs <= 51)%nat) by (cbn; lia).
  assert (H4 : forallb event_wf evs = true) by (vm_compute; reflexivity).
  assert (H5 : (1 < length evs)%nat) by (cbn; lia).
  split; [repeat split; assumption|].
  destruct (read_log_transmits_stored_log evs s 1 [] [] H1 H2 H3 H4 H5)
    as (_ & Hlen & _).
  exact Hlen.
Defined.

(** ** The four flags of the control byte *)

Lemma saveResetFlag_ctrl (m : eeprom) (flag : Z) :
  EEPROM_readByte (EEPROM_saveResetFlag m flag) CTRL_REG_PSOC_STATUS
  = if flag =? 1
    then u8 (Z.lor (EEPROM_readByte m CTRL_REG_PSOC_STATUS)
                   CTRL_REG_PSOC_SET_RESET_FLAG)
    else u8 (Z.land (EEPROM_readByte m CTRL_REG_PSOC_STATUS)
                    (Z.lnot CTRL_REG_PSOC_SET_RESET_FLAG)).
Proof.
  unfold EEPROM_saveResetFlag, EEPROM_waitForWriteComplete, EEPROM_writeByte,
    EEPROM_readByte.
  rewrite status_cell. unfold upd. rewrite Z.eqb_refl.
  destruct (flag =? 1); now rewrite !u8_idem.
Qed.

(** The same table look-up for [EEPROM_saveResetFlag]. *)
Ltac reset_table m flag :=
  rewrite ?retrieve_flag_bit_spec; rewrite ?saveResetFlag_ctrl;
  let c := fresh "c" in
  let Hc := fresh "Hc" in
  pose proof (u8_range (m (bus_addr CTRL_REG_PSOC_STATUS))) as Hc;
  fold (EEPROM_readByte m CTRL_REG_PSOC_STATUS) in Hc;
  set (c := EEPROM_readByte m CTRL_REG_PSOC_STATUS) in *;
  clearbody c;
  destruct (flag =? 1);
  revert c Hc; apply forall_byte_eq; vm_compute; reflexivity.

(** Every flag read after every flag writer. *)
Lemma flag_writers_table (m : eeprom) (f : Z) :
  (EEPROM_retrieveStartStopState (EEPROM_saveStartStopState m f)
   = (if f =? 1 then 1 else 0)
   /\ EEPROM_retrieveConfigFlag (EEPROM_saveStartStopState m f)
      = EEPROM_retrieveConfigFlag m
   /\ EEPROM_retrieveSendFlag (EEPROM_saveStartStopState m f)
      = EEPROM_retrieveSendFlag m
   /\ EEPROM_retrieveResetFlag (EEPROM_saveStartStopState m f) = 0)
  /\ (EEPROM_retrieveConfigFlag (EEPROM_saveConfigFlag m f)
      = (if f =? 1 then 1 else 0)
      /\ EEPROM_retrieveStartStopState (EEPROM_saveConfigFlag m f)
         = EEPROM_retrieveStartStopState m
      /\ EEPROM_retrieveSendFlag (EEPROM_saveConfigFlag m f)
         = EEPROM_retrieveSendFlag m
      /\ EEPROM_retrieveResetFlag (EEPROM_saveConfigFlag m f) = 0)
  /\ (EEPROM_retrieveSendFlag (EEPROM_saveSendFlag m f)
      = (if f =? 1 then 1 else 0)
      /\ EEPROM_retrieveStartStopState (EEPROM_saveSendFlag m f)
         = EEPROM_retrieveStartStopState m
      /\ EEPROM_retrieveConfigFlag (EEPROM_saveSendFlag m f)
         = EEPROM_retrieveConfigFlag m
      /\ EEPROM_retrieveResetFlag (EEPROM_saveSendFlag m f) = 0).
Proof.
  repeat apply conj;
    unfold EEPROM_retrieveStartStopState, EEPROM_retrieveConfigFlag,
      EEPROM_retrieveSendFlag, EEPROM_retrieveResetFlag,
      EEPROM_saveStartStopState, EEPROM_saveConfigFlag, EEPROM_saveSendFlag;
    flag_table m f.
Qed.

(** X6. The three mode flags are independent bits: each of
    [EEPROM_saveStartStopState], [EEPROM_saveConfigFlag] and
    [EEPROM_saveSendFlag] makes its own flag read 1 when called with 1 and 0
    when called with anything else, leaves the other two flags as they
    were, and leaves the reset marker at 0. *)
Theorem flag_writers_independent (m : eeprom) (f : Z) :
  (EEPROM_retrieveStartStopState (EEPROM_saveStartStopState m f)
   = (if f =? 1 then 1 else 0)
   /\ EEPROM_retrieveConfigFlag (EEPROM_saveStartStopState m f)
      = EEPROM_retrieveConfigFlag m
   /\ EEPROM_retrieveSendFlag (EEPROM_saveStartStopState m f)
      = EEPROM_retrieveSendFlag m
   /\ EEPROM_retrieveResetFlag (EEPROM_saveStartStopState m f) = 0)
  /\ (EEPROM_retrieveConfigFlag (EEPROM_saveConfigFlag m f)
      = (if f =? 1 then 1 else 0)
      /\ EEPROM_retrieveStartStopState (EEPROM_saveConfigFlag m f)
         = EEPROM_retrieveStartStopState m
      /\ EEPROM_retrieveSendFlag (EEPROM_saveConfigFlag m f)
         = EEPROM_retrieveSendFlag m
      /\ EEPROM_retrieveResetFlag (EEPROM_saveConfigFlag m f) = 0)
  /\ (EEPROM_retrieveSendFlag (EEPROM_saveSendFlag m f)
      = (if f =? 1 then 1 else 0)
      /\ EEPROM_retrieveStartStopState (EEPROM_saveSendFlag m f)
         = EEPROM_retrieveStartStopState m
      /\ EEPROM_retrieveConfigFlag (EEPROM_saveSendFlag m f)
         = EEPROM_retrieveConfigFlag m
      /\ EEPROM_retrieveResetFlag (EEPROM_saveSendFlag m f) = 0).
Proof. exact (flag_writers_table m f). Qed.

(** X7. The reset marker: [EEPROM_saveResetFlag] sets it for 1 and clears
    it otherwise without touching the three mode flags or any other cell,
    and a full erase leaves the control byte at 0x08: marker set, Start/Stop,
    configuration and send flags all cleared. *)
Theorem reset_marker_and_erase (m : eeprom) (f : Z) :
  (EEPROM_retrieveResetFlag (EEPROM_saveResetFlag m f)
   = (if f =? 1 then 1 else 0)
   /\ EEPROM_retrieveStartStopState (EEPROM_saveResetFlag m f)
      = EEPROM_retrieveStartStopState m
   /\ EEPROM_retrieveConfigFlag (EEPROM_saveResetFlag m f)
      = EEPROM_retrieveConfigFlag m
   /\ EEPROM_retrieveSendFlag (EEPROM_saveResetFlag m f)
      = EEPROM_retrieveSendFlag m)
  /\ (EEPROM_readByte (EEPROM_resetMemory m) CTRL_REG_PSOC_STATUS = 0x08
      /\ EEPROM_retrieveResetFlag (EEPROM_resetMemory m) = 1
      /\ EEPROM_retrieveStartStopState (EEPROM_resetMemory m) = 0
      /\ EEPROM_retrieveConfigFlag (EEPROM_resetMemory m) = 0
      /\ EEPROM_retrieveSendFlag (EEPROM_resetMemory m) = 0).
Proof.
  split.
  - repeat apply conj;
      unfold EEPROM_retrieveStartStopState, EEPROM_retrieveConfigFlag,
        EEPROM_retrieveSendFlag, EEPROM_retrieveResetFlag;
      reset_table m f.
  - assert (E : EEPROM_readByte (EEPROM_resetMemory m) CTRL_REG_PSOC_STATUS = 8).
    { unfold EEPROM_readByte. rewrite status_cell, resetMemory_cells.
      reflexivity. }
    split; [exact E|].
    unfold EEPROM_retrieveStartStopState, EEPROM_retrieveConfigFlag,
      EEPROM_retrieveSendFlag, EEPROM_retrieveResetFlag.
    rewrite !retrieve_flag_bit_spec, !E. repeat apply conj; reflexivity.
Qed.

(** X8. Booting touches the EEPROM in the control byte only: [main]
    forces the Start/Stop flag to stop and the reset marker to 0, while the
    send flag and the configuration flag persisted before the power cycle,
    the page counter and every other cell stay as they were; the send flag
    in RAM restarts at 0 whatever the persisted one is. *)
Theorem boot_keeps_send_and_config_flags (m : eeprom) (r : imu_regs) :
  let s := main_setup (power_on m r) in
  EEPROM_retrieveStartStopState (cells s) = 0
  /\ EEPROM_retrieveResetFlag (cells s) = 0
  /\ EEPROM_retrieveSendFlag (cells s) = EEPROM_retrieveSendFlag m
  /\ EEPROM_retrieveConfigFlag (cells s) = EEPROM_retrieveConfigFlag m
  /\ EEPROM_retrieveLogPages (cells s) = EEPROM_retrieveLogPages m
  /\ (forall a, a <> 0 -> cells s a = m a)
  /\ send_flag s = 0.
Proof.
  intros s.
  assert (E : cells s = EEPROM_saveStartStopState m 0) by reflexivity.
  rewrite E.
  destruct (flag_writers_table m 0) as ((H1 & H2 & H3 & H4) & _).
  repeat apply conj; try assumption.
  - apply save_flag_bit_counter.
  - intros a Ha. apply save_flag_bit_frame. exact Ha.
  - reflexivity.
Qed.

(** ** The mode controller, button by button *)

Lemma IMU_Start_enables (r : imu_regs) :
  IMU_acquisition_enabled (IMU_Start r) = true.
Proof. reflexivity. Qed.

Lemma ISR_START_from_stop (s : psoc) :
  button_state s = STOP_MODE ->
  CUSTOM_ISR_START s
  = mk_psoc START_MODE (send_flag s) (IMU_data_ready_flag s)
            (IMU_over_threshold_flag s) (IMU_log_queue s)
            (EEPROM_saveStartStopState (cells s) 1) (IMU_Start (lis3dh s))
            true 255 (uart_rx s) (uart_tx s).
Proof.
  destruct s as [b sf dr ot q m r en cmp rx tx]. cbn [button_state].
  intros ->. unfold CUSTOM_ISR_START, LED_Notify_Start.
  cbn [button_state set_lis3dh set_cells set_button_state set_pwm_notify
       send_flag IMU_data_ready_flag IMU_over_threshold_flag IMU_log_queue
       cells lis3dh pwm_notify_enabled pwm_notify_compare uart_rx uart_tx].
  change (STOP_MODE =? START_MODE) with false.
  change (STOP_MODE =? STOP_MODE) with true. cbv iota.
  destruct en; reflexivity.
Qed.

Lemma ISR_START_from_start (s : psoc) :
  button_state s = START_MODE ->
  CUSTOM_ISR_START s
  = mk_psoc STOP_MODE (send_flag s) (IMU_data_ready_flag s)
            (IMU_over_threshold_flag s) (IMU_log_queue s)
            (EEPROM_saveStartStopState (cells s) 0) (IMU_Stop (lis3dh s))
            false (pwm_notify_compare s) (uart_rx s) (uart_tx s).
Proof.
  destruct s as [b sf dr ot q m r en cmp rx tx]. cbn [button_state].
  intros ->. unfold CUSTOM_ISR_START, LED_Notify_Stop.
  cbn [button_state set_lis3dh set_cells set_button_state set_pwm_notify
       send_flag IMU_data_ready_flag IMU_over_threshold_flag IMU_log_queue
       cells lis3dh pwm_notify_enabled pwm_notify_compare uart_rx uart_tx].
  change (START_MODE =? START_MODE) with true. cbv iota.
  destruct en; reflexivity.
Qed.

Lemma ISR_START_in_config (s : psoc) :
  button_state s = CONFIG_MODE -> CUSTOM_ISR_START s = s.
Proof.
  intros H. unfold CUSTOM_ISR_START. rewrite H. reflexivity.
Qed.

Lemma ISR_CONFIG_enter (s : psoc) :
  button_state s <> CONFIG_MODE ->
  CUSTOM_ISR_CONFIG s
  = mk_psoc CONFIG_MODE (send_flag s) (IMU_data_ready_flag s)
            (IMU_over_threshold_flag s) (IMU_log_queue s)
            (EEPROM_saveConfigFlag (cells s) 1)
            (if button_state s =? START_MODE
             then IMU_Stop (lis3dh s) else lis3dh s)
            true 127 (uart_rx s) (uart_tx s).
Proof.
  destruct s as [b sf dr ot q m r en cmp rx tx]. cbn [button_state].
  intros Hb. unfold CUSTOM_ISR_CONFIG, LED_Notify_Config.
  cbn [button_state].
  replace (b =? CONFIG_MODE) with false
    by (symmetry; apply Z.eqb_neq; exact Hb).
  cbn [negb]. cbv iota.
  destruct (b =? START_MODE);
    cbn [button_state set_lis3dh set_cells set_button_state set_pwm_notify
         send_flag IMU_data_ready_flag IMU_over_threshold_flag IMU_log_queue
         cells lis3dh pwm_notify_enabled pwm_notify_compare uart_rx uart_tx];
    destruct en; reflexivity.
Qed.

Lemma ISR_CONFIG_leave (s : psoc) :
  button_state s = CONFIG_MODE ->
  let b := EEPROM_retrieveStartStopState (cells s) in
  CUSTOM_ISR_CONFIG s
  = mk_psoc b (send_flag s) (IMU_data_ready_flag s)
            (IMU_over_threshold_flag s) (IMU_log_queue s)
            (EEPROM_saveSendFlag (EEPROM_saveConfigFlag (cells s) 0)
                                 (send_flag s))
            (if b =? START_MODE then IMU_Start (lis3dh s) else lis3dh s)
            (if b =? START_MODE then true else false)
            (if b =? START_MODE then 255 else pwm_notify_compare s)
            (uart_rx s) (uart_tx s).
Proof.
  destruct s as [bs sf dr ot q m r en cmp rx tx]. cbn [button_state].
  intros ->. cbn [cells]. set (b := EEPROM_retrieveStartStopState m).
  unfold CUSTOM_ISR_CONFIG, LED_Notify_Stop, LED_Notify_Start.
  cbn [button_state].
  change (CONFIG_MODE =? CONFIG_MODE) with true. cbn [negb]. cbv iota.
  cbn [button_state set_lis3dh set_cells set_button_state set_pwm_notify
       send_flag IMU_data_ready_flag IMU_over_threshold_flag IMU_log_queue
       cells lis3dh pwm_notify_enabled pwm_notify_compare uart_rx uart_tx].
  fold b.
  destruct (retrieveStartStop_bit m) as [E | E]; fold b in E; rewrite E;
    change (0 =? STOP_MODE) with true;
    change (0 =? START_MODE) with false;
    change (1 =? STOP_MODE) with false;
    change (1 =? START_MODE) with true; cbv iota;
    cbn [button_state set_lis3dh set_cells set_button_state set_pwm_notify
         send_flag IMU_data_ready_flag IMU_over_threshold_flag IMU_log_queue
         cells lis3dh pwm_notify_enabled pwm_notify_compare uart_rx uart_tx];
    destruct en; reflexivity.
Qed.

Ltac psoc_fields :=
  cbn [button_state send_flag IMU_data_ready_flag IMU_over_threshold_flag
       IMU_log_queue cells lis3dh pwm_notify_enabled pwm_notify_compare
       uart_rx uart_tx].

Lemma press_keeps_mode_consistent (s : psoc) (e : button_event) :
  mode_consistent s = true -> mode_consistent (press s e) = true.
Proof.
  unfold mode_consistent at 1.
  destruct (button_state s =? STOP_MODE) eqn:Estop;
    [|destruct (button_state s =? START_MODE) eqn:Estart;
      [|destruct (button_state s =? CONFIG_MODE) eqn:Econf; [|discriminate]]].
  - apply Z.eqb_eq in Estop. rewrite !andb_true_iff.
    intros ((Hss & Himu) & Hled). destruct e; cbn [press].
    + rewrite (ISR_START_from_stop s Estop). unfold mode_consistent. psoc_fields.
      change (START_MODE =? STOP_MODE) with false.
      change (START_MODE =? START_MODE) with true. cbv iota.
      rewrite retrieveStartStop_saveStartStop, IMU_Start_enables. reflexivity.
    + rewrite (ISR_CONFIG_enter s) by (rewrite Estop; discriminate).
      unfold mode_consistent. psoc_fields. rewrite Estop.
      change (STOP_MODE =? START_MODE) with false.
      change (CONFIG_MODE =? STOP_MODE) with false.
      change (CONFIG_MODE =? START_MODE) with false.
      change (CONFIG_MODE =? CONFIG_MODE) with true. cbv iota.
      rewrite Himu, retrieveConfig_saveConfig. reflexivity.
  - apply Z.eqb_eq in Estart. rewrite !andb_true_iff.
    intros (((Hss & Himu) & Hled) & Hcmp). destruct e; cbn [press].
    + rewrite (ISR_START_from_start s Estart). unfold mode_consistent.
      psoc_fields. change (STOP_MODE =? STOP_MODE) with true. cbv iota.
      rewrite retrieveStartStop_saveStartStop, IMU_Stop_disables. reflexivity.
    + rewrite (ISR_CONFIG_enter s) by (rewrite Estart; discriminate).
      unfold mode_consistent. psoc_fields. rewrite Estart.
      change (START_MODE =? START_MODE) with true.
      change (CONFIG_MODE =? STOP_MODE) with false.
      change (CONFIG_MODE =? START_MODE) with false.
      change (CONFIG_MODE =? CONFIG_MODE) with true. cbv iota.
      rewrite IMU_Stop_disables, retrieveConfig_saveConfig. reflexivity.
  - apply Z.eqb_eq in Econf. rewrite !andb_true_iff.
    intros (((Himu & Hled) & Hcmp) & Hcfg). destruct e; cbn [press].
    + rewrite (ISR_START_in_config s Econf). unfold mode_consistent.
      rewrite Estop, Estart, Econf, Himu, Hled, Hcmp, Hcfg. reflexivity.
    + rewrite (ISR_CONFIG_leave s Econf). unfold mode_consistent. psoc_fields.
      rewrite retrieveStartStop_saveSend, retrieveStartStop_saveConfig.
      destruct (retrieveStartStop_bit (cells s)) as [E | E]; rewrite E.
      * change (0 =? STOP_MODE) with true.
        change (0 =? START_MODE) with false. cbv iota.
        rewrite Himu. reflexivity.
      * change (1 =? STOP_MODE) with false.
        change (1 =? START_MODE) with true. cbv iota.
        rewrite IMU_Start_enables. reflexivity.
Qed.

Lemma boot_mode_consistent (m : eeprom) (r : imu_regs) :
  mode_consistent (main_setup (power_on m r)) = true.
Proof.
  unfold mode_consistent.
  change (button_state (main_setup (power_on m r))) with STOP_MODE.
  change (STOP_MODE =? STOP_MODE) with true. cbv iota.
  change (cells (main_setup (power_on m r)))
    with (EEPROM_saveStartStopState m 0).
  change (lis3dh (main_setup (power_on m r))) with (IMU_Init r).
  change (pwm_notify_enabled (main_setup (power_on m r))) with false.
  rewrite retrieveStartStop_saveStartStop.
  unfold IMU_Init. rewrite IMU_Stop_disables. reflexivity.
Qed.

(** X9. Whatever the EEPROM and the accelerometer hold at power-on and
    whatever sequence of double clicks and long presses follows, the mode,
    the persisted flags, the accelerometer and the notification LED agree:
    STOP with stop persisted, acquisition off and LED off; START with start
    persisted, acquisition on and LED fully on; CONFIG with acquisition off,
    LED at half duty and the configuration flag persisted. *)
Theorem mode_controller_invariant
        (m : eeprom) (r : imu_regs) (presses : list button_event) :
  mode_consistent (fold_left press presses (main_setup (power_on m r))) = true.
Proof.
  generalize (boot_mode_consistent m r).
  generalize (main_setup (power_on m r)).
  induction presses as [|e presses IH]; intros s Hs.
  - exact Hs.
  - cbn [fold_left]. apply IH. apply press_keeps_mode_consistent. exact Hs.
Qed.

(** X10. A double click toggles between STOP and START, persisting the new
    state, switching the accelerometer and the LED with it, and is ignored
    in CONFIG; nothing else of the board changes. *)
Theorem double_click_toggles (s : psoc) :
  (button_state s = STOP_MODE ->
   CUSTOM_ISR_START s
   = mk_psoc START_MODE (send_flag s) (IMU_data_ready_flag s)
             (IMU_over_threshold_flag s) (IMU_log_queue s)
             (EEPROM_saveStartStopState (cells s) 1) (IMU_Start (lis3dh s))
             true 255 (uart_rx s) (uart_tx s)
   /\ EEPROM_retrieveStartStopState (cells (CUSTOM_ISR_START s)) = START_MODE
   /\ button_state (CUSTOM_ISR_START (CUSTOM_ISR_START s)) = STOP_MODE
   /\ EEPROM_retrieveStartStopState
        (cells (CUSTOM_ISR_START (CUSTOM_ISR_START s))) = STOP_MODE
   /\ IMU_acquisition_disabled
        (lis3dh (CUSTOM_ISR_START (CUSTOM_ISR_START s))) = true)
  /\ (button_state s = START_MODE ->
      CUSTOM_ISR_START s
      = mk_psoc STOP_MODE (send_flag s) (IMU_data_ready_flag s)
                (IMU_over_threshold_flag s) (IMU_log_queue s)
                (EEPROM_saveStartStopState (cells s) 0) (IMU_Stop (lis3dh s))
                false (pwm_notify_compare s) (uart_rx s) (uart_tx s)
      /\ EEPROM_retrieveStartStopState (cells (CUSTOM_ISR_START s)) = STOP_MODE)
  /\ (button_state s = CONFIG_MODE -> CUSTOM_ISR_START s = s).
Proof.
  split; [|split].
  - intros H. rewrite (ISR_START_from_stop s H).
    split; [reflexivity|]. psoc_fields.
    rewrite ISR_START_from_start by reflexivity. psoc_fields.
    rewrite !retrieveStartStop_saveStartStop, IMU_Stop_disables.
    repeat apply conj; reflexivity.
  - intros H. rewrite (ISR_START_from_start s H).
    split; [reflexivity|]. psoc_fields.
    rewrite retrieveStartStop_saveStartStop. reflexivity.
  - apply ISR_START_in_config.
Qed.

Lemma double_click_toggles_witness :
  let s := main_setup (power_on factory_fresh lis3dh_zero) in
  let c := CUSTOM_ISR_CONFIG s in
  (button_state s = STOP_MODE
   /\ button_state (CUSTOM_ISR_START s) = START_MODE
   /\ button_state (CUSTOM_ISR_START s) = START_MODE
   /\ button_state c = CONFIG_MODE)
  /\ button_state (CUSTOM_ISR_START (CUSTOM_ISR_START s)) = STOP_MODE
  /\ EEPROM_retrieveStartStopState
       (cells (CUSTOM_ISR_START (CUSTOM_ISR_START s))) = STOP_MODE
  /\ CUSTOM_ISR_START c = c.
Proof.
  intros s c.
  assert (H1 : button_state s = STOP_MODE) by reflexivity.
  assert (H2 : button_state (CUSTOM_ISR_START s) = START_MODE) by reflexivity.
  assert (H3 : button_state c = CONFIG_MODE) by reflexivity.
  split; [repeat apply conj; assumption|].
  destruct (double_click_toggles s) as (Hstop & _ & _).
  destruct (double_click_toggles (CUSTOM_ISR_START s)) as (_ & Hstart & _).
  destruct (double_click_toggles c) as (_ & _ & Hconf).
  destruct (Hstop H1) as (_ & _ & Ha & Hb & _).
  destruct (Hstart H2) as (_ & Hc).
  repeat apply conj; [exact Ha | exact Hc | exact (Hconf H3)].
Defined.

(** X11. Configuration entered from START: the first long press stops the
    accelerometer and keeps start persisted; the second one returns to
    START, restarts the accelerometer, turns the LED fully on, clears the
    configuration flag and persists the send flag chosen meanwhile (1 for
    [send_flag = 1], 0 otherwise). *)
Theorem config_from_start_resumes_start (s : psoc) :
  button_state s = START_MODE ->
  EEPROM_retrieveStartStopState (cells s) = START_MODE ->
  let s1 := CUSTOM_ISR_CONFIG s in
  let s2 := CUSTOM_ISR_CONFIG s1 in
  (button_state s1 = CONFIG_MODE
   /\ IMU_acquisition_disabled (lis3dh s1) = true
   /\ EEPROM_retrieveStartStopState (cells s1) = START_MODE
   /\ EEPROM_retrieveConfigFlag (cells s1) = 1
   /\ EEPROM_retrieveSendFlag (cells s1) = EEPROM_retrieveSendFlag (cells s))
  /\ (button_state s2 = START_MODE
      /\ IMU_acquisition_enabled (lis3dh s2) = true
      /\ pwm_notify_enabled s2 = true /\ pwm_notify_compare s2 = 255
      /\ EEPROM_retrieveStartStopState (cells s2) = START_MODE
      /\ EEPROM_retrieveConfigFlag (cells s2) = 0
      /\ EEPROM_retrieveSendFlag (cells s2)
         = (if send_flag s =? 1 then 1 else 0)).
Proof.
  intros Hb Hss s1 s2.
  assert (E1 : s1 = mk_psoc CONFIG_MODE (send_flag s) (IMU_data_ready_flag s)
                      (IMU_over_threshold_flag s) (IMU_log_queue s)
                      (EEPROM_saveConfigFlag (cells s) 1)
                      (IMU_Stop (lis3dh s)) true 127 (uart_rx s) (uart_tx s)).
  { subst s1. rewrite ISR_CONFIG_enter by (rewrite Hb; discriminate).
    rewrite Hb. reflexivity. }
  assert (Hss1 : EEPROM_retrieveStartStopState (cells s1) = START_MODE).
  { rewrite E1. psoc_fields. rewrite retrieveStartStop_saveConfig. exact Hss. }
  destruct (flag_writers_table (cells s) 1) as (_ & (Hc1 & _ & Hs1 & _) & _).
  split.
  - rewrite E1. psoc_fields. rewrite IMU_Stop_disables.
    rewrite retrieveStartStop_saveConfig.
    repeat apply conj; try reflexivity; assumption.
  - assert (E2 : s2 = mk_psoc START_MODE (send_flag s1) (IMU_data_ready_flag s1)
                        (IMU_over_threshold_flag s1) (IMU_log_queue s1)
                        (EEPROM_saveSendFlag
                           (EEPROM_saveConfigFlag (cells s1) 0) (send_flag s1))
                        (IMU_Start (lis3dh s1)) true 255
                        (uart_rx s1) (uart_tx s1)).
    { subst s2. rewrite (ISR_CONFIG_leave s1) by (rewrite E1; reflexivity).
      rewrite Hss1. reflexivity. }
    rewrite E2. psoc_fields. rewrite IMU_Start_enables.
    rewrite retrieveStartStop_saveSend, retrieveStartStop_saveConfig.
    rewrite retrieveConfig_saveSend, retrieveConfig_saveConfig.
    destruct (flag_writers_table (EEPROM_saveConfigFlag (cells s1) 0)
                                 (send_flag s1)) as (_ & _ & (Hsend & _)).
    assert (Hsf1 : send_flag s1 = send_flag s) by (rewrite E1; reflexivity).
    rewrite Hsend, Hsf1, Hss1. repeat apply conj; reflexivity.
Qed.

Lemma config_from_start_resumes_start_witness :
  let s := set_send_flag
             (CUSTOM_ISR_START (main_setup (power_on factory_fresh lis3dh_zero)))
             1 in
  (button_state s = START_MODE
   /\ EEPROM_retrieveStartStopState (cells s) = START_MODE)
  /\ button_state (CUSTOM_ISR_CONFIG (CUSTOM_ISR_CONFIG s)) = START_MODE
  /\ EEPROM_retrieveSendFlag (cells (CUSTOM_ISR_CONFIG (CUSTOM_ISR_CONFIG s)))
     = (if send_flag s =? 1 then 1 else 0).
Proof.
  intros s.
  assert (H1 : button_state s = START_MODE) by reflexivity.
  assert (H2 : EEPROM_retrieveStartStopState (cells s) = START_MODE)
    by reflexivity.
  split; [split; assumption|].
  destruct (config_from_start_resumes_start s H1 H2)
    as (_ & Hb & _ & _ & _ & _ & _ & Hsend).
  split; [exact Hb | exact Hsend].
Defined.

(** ** The remote commands *)

Lemma ISR_RX_reset (s : psoc) (rx : list Z) :
  uart_rx s = UART_RX_RESET_MEMORY :: rx ->
  CUSTOM_ISR_RX s
  = set_uart (set_cells s (EEPROM_resetMemory (cells s))) rx
             (uart_tx s ++ [UART_RX_OPERATION_ACK]).
Proof.
  intros Hrx. unfold CUSTOM_ISR_RX, UART_GetChar. rewrite Hrx.
  change (UART_RX_RESET_MEMORY =? UART_RX_RESET_MEMORY) with true. cbv iota.
  destruct s; reflexivity.
Qed.

(** X12. The three one-byte commands.  RESET erases the store and answers
    with the acknowledge byte 0x4B; LOG_COUNT answers with the log count and
    READ_CONTROL with the control byte, both without changing the store.
    Each consumes exactly its command byte, sends exactly one byte and
    leaves the mode, the flags in RAM, the queue and the accelerometer as
    they were. *)
Theorem one_byte_commands (s : psoc) (rx : list Z) :
  (uart_rx s = UART_RX_RESET_MEMORY :: rx ->
   CUSTOM_ISR_RX s
   = set_uart (set_cells s (EEPROM_resetMemory (cells s))) rx
              (uart_tx s ++ [0x4B]))
  /\ (uart_rx s = UART_RX_NUMBER_OF_LOGS :: rx ->
      CUSTOM_ISR_RX s
      = set_uart s rx (uart_tx s ++ [EEPROM_retrieveLogCount (cells s)]))
  /\ (uart_rx s = UART_RX_READ_CTRL_REG :: rx ->
      CUSTOM_ISR_RX s
      = set_uart s rx
                 (uart_tx s ++ [EEPROM_readByte (cells s) CTRL_REG_PSOC_STATUS])).
Proof.
  split; [|split].
  - apply ISR_RX_reset.
  - intros Hrx. unfold CUSTOM_ISR_RX, UART_GetChar. rewrite Hrx.
    change (UART_RX_NUMBER_OF_LOGS =? UART_RX_RESET_MEMORY) with false.
    change (UART_RX_NUMBER_OF_LOGS =? UART_RX_NUMBER_OF_LOGS) with true.
    cbv iota. unfold UART_PutChar.
    cbn [set_uart uart_rx uart_tx cells].
    unfold EEPROM_retrieveLogCount. rewrite u8_idem.
    destruct s; reflexivity.
  - intros Hrx. unfold CUSTOM_ISR_RX, UART_GetChar. rewrite Hrx.
    change (UART_RX_READ_CTRL_REG =? UART_RX_RESET_MEMORY) with false.
    change (UART_RX_READ_CTRL_REG =? UART_RX_NUMBER_OF_LOGS) with false.
    change (UART_RX_READ_CTRL_REG =? UART_RX_READ_CTRL_REG) with true.
    cbv iota. unfold UART_PutChar.
    cbn [set_uart uart_rx uart_tx cells].
    unfold EEPROM_readByte. rewrite u8_idem.
    destruct s; reflexivity.
Qed.

Lemma one_byte_commands_witness :
  let s := after_events 3 in
  let count := set_uart s [UART_RX_NUMBER_OF_LOGS] [] in
  let ctrl := set_uart s [UART_RX_READ_CTRL_REG; 7] [] in
  let reset := set_uart s [UART_RX_RESET_MEMORY] [] in
  (uart_rx reset = UART_RX_RESET_MEMORY :: []
   /\ uart_rx count = UART_RX_NUMBER_OF_LOGS :: []
   /\ uart_rx ctrl = UART_RX_READ_CTRL_REG :: [7])
  /\ uart_tx (CUSTOM_ISR_RX reset) = [0x4B]
  /\ uart_tx (CUSTOM_ISR_RX count) = [3]
  /\ uart_tx (CUSTOM_ISR_RX ctrl) = [0]
  /\ uart_rx (CUSTOM_ISR_RX ctrl) = [7].
Proof.
  intros s count ctrl reset.
  assert (H1 : uart_rx reset = UART_RX_RESET_MEMORY :: []) by reflexivity.
  assert (H2 : uart_rx count = UART_RX_NUMBER_OF_LOGS :: []) by reflexivity.
  assert (H3 : uart_rx ctrl = UART_RX_READ_CTRL_REG :: [7]) by reflexivity.
  split; [repeat apply conj; assumption|].
  destruct (one_byte_commands reset []) as (Hr & _ & _).
  destruct (one_byte_commands count []) as (_ & Hn & _).
  destruct (one_byte_commands ctrl [7]) as (_ & _ & Hc).
  rewrite (Hr H1), (Hn H2), (Hc H3).
  repeat apply conj; vm_compute; reflexivity.
Defined.

(** X13. Anything else is ignored: a byte that is none of the four
    operation codes is consumed and nothing is sent or changed, and an
    interrupt that finds the receiver empty changes nothing at all. *)
Theorem unknown_command_ignored (s : psoc) (op : Z) (rx : list Z) :
  (uart_rx s = op :: rx ->
   op <> UART_RX_RESET_MEMORY -> op <> UART_RX_NUMBER_OF_LOGS ->
   op <> UART_RX_READ_CTRL_REG -> op <> UART_RX_SEND_LOG_ID ->
   CUSTOM_ISR_RX s = set_uart s rx (uart_tx s))
  /\ (uart_rx s = [] -> CUSTOM_ISR_RX s = s).
Proof.
  split.
  - intros Hrx H1 H2 H3 H4. unfold CUSTOM_ISR_RX, UART_GetChar. rewrite Hrx.
    apply Z.eqb_neq in H1, H2, H3, H4. rewrite H1, H2, H3, H4. reflexivity.
  - intros Hrx. unfold CUSTOM_ISR_RX, UART_GetChar. rewrite Hrx. reflexivity.
Qed.

Lemma unknown_command_ignored_witness :
  let s := set_uart (after_events 3) [0x5A; 0x4E] [1; 2] in
  let idle := after_events 3 in
  (uart_rx s = 0x5A :: [0x4E]
   /\ 0x5A <> UART_RX_RESET_MEMORY /\ 0x5A <> UART_RX_NUMBER_OF_LOGS
   /\ 0x5A <> UART_RX_READ_CTRL_REG /\ 0x5A <> UART_RX_SEND_LOG_ID
   /\ uart_rx idle = [])
  /\ CUSTOM_ISR_RX s = set_uart s [0x4E] (uart_tx s)
  /\ CUSTOM_ISR_RX idle = idle.
Proof.
  intros s idle.
  assert (H0 : uart_rx s = 0x5A :: [0x4E]) by reflexivity.
  assert (H1 : 0x5A <> UART_RX_RESET_MEMORY) by discriminate.
  assert (H2 : 0x5A <> UART_RX_NUMBER_OF_LOGS) by discriminate.
  assert (H3 : 0x5A <> UART_RX_READ_CTRL_REG) by discriminate.
  assert (H4 : 0x5A <> UART_RX_SEND_LOG_ID) by discriminate.
  assert (H5 : uart_rx idle = []) by reflexivity.
  split; [repeat apply conj; assumption|].
  split.
  - exact (proj1 (unknown_command_ignored s 0x5A [0x4E]) H0 H1 H2 H3 H4).
  - exact (proj2 (unknown_command_ignored idle 0 []) H5).
Defined.

(** X14. The erase forgets the running mode.  A board in [START_MODE] that
    receives RESET stays in [START_MODE], but the erase rewrites the control
    byte, so the persisted Start/Stop flag now reads stop; the next visit
    to [CONFIG_MODE] therefore ends in [STOP_MODE], not in the mode the
    board was in. *)
Theorem erase_forgets_running_mode (s : psoc) (rx : list Z) :
  button_state s = START_MODE ->
  uart_rx s = UART_RX_RESET_MEMORY :: rx ->
  let s1 := CUSTOM_ISR_RX s in
  button_state s1 = START_MODE
  /\ lis3dh s1 = lis3dh s
  /\ EEPROM_retrieveStartStopState (cells s1) = STOP_MODE
  /\ button_state (CUSTOM_ISR_CONFIG s1) = CONFIG_MODE
  /\ button_state (CUSTOM_ISR_CONFIG (CUSTOM_ISR_CONFIG s1)) = STOP_MODE
  /\ EEPROM_retrieveStartStopState
       (cells (CUSTOM_ISR_CONFIG (CUSTOM_ISR_CONFIG s1))) = STOP_MODE.
Proof.
  intros Hb Hrx s1.
  assert (E : s1 = set_uart (set_cells s (EEPROM_resetMemory (cells s))) rx
                            (uart_tx s ++ [UART_RX_OPERATION_ACK]))
    by (apply ISR_RX_reset; exact Hrx).
  assert (Hb1 : button_state s1 = START_MODE) by (rewrite E; exact Hb).
  assert (Hc1 : cells s1 = EEPROM_resetMemory (cells s))
    by (rewrite E; reflexivity).
  assert (Hss : EEPROM_retrieveStartStopState (EEPROM_resetMemory (cells s)) = 0).
  { unfold EEPROM_retrieveStartStopState. rewrite retrieve_flag_bit_spec.
    unfold EEPROM_readByte. rewrite status_cell, resetMemory_cells.
    reflexivity. }
  split; [exact Hb1|]. split; [rewrite E; reflexivity|].
  split; [rewrite Hc1; exact Hss|].
  set (s2 := CUSTOM_ISR_CONFIG s1).
  assert (E2 : s2 = mk_psoc CONFIG_MODE (send_flag s1) (IMU_data_ready_flag s1)
                      (IMU_over_threshold_flag s1) (IMU_log_queue s1)
                      (EEPROM_saveConfigFlag (cells s1) 1)
                      (IMU_Stop (lis3dh s1)) true 127 (uart_rx s1) (uart_tx s1)).
  { subst s2. rewrite ISR_CONFIG_enter by (rewrite Hb1; discriminate).
    rewrite Hb1. reflexivity. }
  assert (Hb2 : button_state s2 = CONFIG_MODE) by (rewrite E2; reflexivity).
  assert (Hss2 : EEPROM_retrieveStartStopState (cells s2) = 0).
  { rewrite E2. psoc_fields. rewrite retrieveStartStop_saveConfig, Hc1.
    exact Hss. }
  split; [exact Hb2|].
  rewrite (ISR_CONFIG_leave s2 Hb2). psoc_fields.
  rewrite retrieveStartStop_saveSend, retrieveStartStop_saveConfig.
  split; exact Hss2.
Qed.

Lemma erase_forgets_running_mode_witness :
  let s := set_uart
             (CUSTOM_ISR_START (main_setup (power_on blank lis3dh_zero)))
             [UART_RX_RESET_MEMORY] [] in
  (button_state s = START_MODE
   /\ EEPROM_retrieveStartStopState (cells s) = START_MODE
   /\ uart_rx s = UART_RX_RESET_MEMORY :: [])
  /\ button_state (CUSTOM_ISR_RX s) = START_MODE
  /\ button_state (CUSTOM_ISR_CONFIG (CUSTOM_ISR_CONFIG (CUSTOM_ISR_RX s)))
     = STOP_MODE.
Proof.
  intros s.
  assert (H1 : button_state s = START_MODE) by reflexivity.
  assert (H2 : EEPROM_retrieveStartStopState (cells s) = START_MODE)
    by reflexivity.
  assert (H3 : uart_rx s = UART_RX_RESET_MEMORY :: []) by reflexivity.
  split; [repeat apply conj; assumption|].
  destruct (erase_forgets_running_mode s [] H1 H3)
    as (Ha & _ & _ & _ & Hb & _).
  split; [exact Ha | exact Hb].
Defined.

(** ** The history queue and its five pages *)

Lemma concat_reduce_length (bursts : list (list Z)) :
  length (concat (map reduce bursts)) = (48 * length bursts)%nat.
Proof.
  induction bursts as [|b bs IH]; [reflexivity|].
  cbn [map concat length]. rewrite length_app, reduce_length, IH.
  change LIS3DH_BYTES_IN_FIFO_DOWNSAMPLED with 48%nat. lia.
Qed.

(** X15. The history queue after any number of FIFO reads.  The shift of
    [IMU_StoreFIFO] is a [memcpy] from the queue onto itself, so the result
    depends on the library.  Whatever the library does, the newest reduced
    burst heads the queue.  With a [memcpy] that reads its source before it
    writes, the queue holds the reduced bursts newest first, followed by
    what it held before, cut at 288 bytes, and from the sixth read on
    nothing of the initial content is left.  With a [memcpy] that copies
    byte by byte upwards, the queue after two or more reads is the newest
    reduced burst followed by five copies of the one before it.  In both
    cases the length stays 288. *)
Theorem history_queue_after_any_run (bursts : list (list Z)) (queue : list Z) :
  length queue = LIS3DH_BYTES_IN_LOG_BUFFER ->
  let q := fold_left (IMU_StoreFIFO memcpy_snapshot) bursts queue in
  let u := fold_left (IMU_StoreFIFO memcpy_upwards) bursts queue in
  (forall (libc : memcpy_lib) (bs : list (list Z)) (b : list Z),
     bursts = bs ++ [b] ->
     firstn LIS3DH_BYTES_IN_FIFO_DOWNSAMPLED
            (fold_left (IMU_StoreFIFO libc) bursts queue) = reduce b)
  /\ (q = firstn LIS3DH_BYTES_IN_LOG_BUFFER
                 (concat (map reduce (rev bursts)) ++ queue)
      /\ length q = LIS3DH_BYTES_IN_LOG_BUFFER
      /\ ((6 <= length bursts)%nat ->
          q = firstn LIS3DH_BYTES_IN_LOG_BUFFER
                     (concat (map reduce (rev bursts)))))
  /\ (length u = LIS3DH_BYTES_IN_LOG_BUFFER
      /\ (forall (bs : list (list Z)) (b1 b2 : list Z),
            bursts = bs ++ [b1; b2] ->
            u = reduce b2 ++ concat (repeat (reduce b1) 5))).
Proof.
  intros Hq q u.
  assert (E : q = firstn LIS3DH_BYTES_IN_LOG_BUFFER
                         (concat (map reduce (rev bursts)) ++ queue))
    by (apply StoreFIFO_history; exact Hq).
  assert (Lu : length u = LIS3DH_BYTES_IN_LOG_BUFFER)
    by (apply StoreFIFO_upwards_run_length; exact Hq).
  assert (Eu : forall bs b1 b2, bursts = bs ++ [b1; b2] ->
                                u = reduce b2 ++ concat (repeat (reduce b1) 5)).
  { intros bs b1 b2 Hb. subst u. rewrite Hb.
    apply StoreFIFO_upwards_history. exact Hq. }
  clearbody q u.
  change LIS3DH_BYTES_IN_LOG_BUFFER with 288%nat in *.
  pose proof (concat_reduce_length (rev bursts)) as Hl.
  rewrite length_rev in Hl.
  split; [|split; [split; [exact E | split] | split; [exact Lu | exact Eu]]].
  - intros libc bs b Hb. rewrite Hb, fold_left_app. cbn [fold_left].
    apply StoreFIFO_head.
  - rewrite E, length_firstn, length_app, Hq. lia.
  - intros H6. rewrite E, firstn_app.
    replace (288 - length (concat (map reduce (rev bursts))))%nat with 0%nat
      by lia.
    rewrite firstn_O. apply app_nil_r.
Qed.

Lemma history_queue_after_any_run_witness :
  let bursts := map sample_burst [1; 2; 3; 4; 5; 6; 7] in
  length sample_queue = LIS3DH_BYTES_IN_LOG_BUFFER
  /\ (6 <= length bursts)%nat
  /\ fold_left (IMU_StoreFIFO memcpy_snapshot) bursts sample_queue
     = firstn LIS3DH_BYTES_IN_LOG_BUFFER (concat (map reduce (rev bursts)))
  /\ fold_left (IMU_StoreFIFO memcpy_upwards) bursts sample_queue
     = reduce (sample_burst 7)
       ++ concat (repeat (reduce (sample_burst 6)) 5).
Proof.
  intros bursts.
  assert (H1 : length sample_queue = LIS3DH_BYTES_IN_LOG_BUFFER) by reflexivity.
  assert (H2 : (6 <= length bursts)%nat) by (cbn; lia).
  split; [exact H1 | split; [exact H2|]].
  destruct (history_queue_after_any_run bursts sample_queue H1)
    as [_ [[_ [_ G1]] [_ G2]]].
  split; [exact (G1 H2)|].
  exact (G2 (map sample_burst [1; 2; 3; 4; 5]) (sample_burst 6)
            (sample_burst 7) eq_refl).
Defined.

(** The page windows for any destination buffer of 60 bytes. *)
Lemma getPayload_slices (queue messagge : list Z) :
  length queue = LIS3DH_BYTES_IN_LOG_BUFFER ->
  length messagge = LOG_MESSAGE_DATA_BYTE ->
  IMU_getPayload queue messagge 0 = skipn 228 queue
  /\ IMU_getPayload queue messagge 1 = firstn 60 (skipn 168 queue)
  /\ IMU_getPayload queue messagge 2 = firstn 60 (skipn 108 queue)
  /\ IMU_getPayload queue messagge 3 = firstn 60 (skipn 48 queue)
  /\ IMU_getPayload queue messagge 4 = firstn 48 queue ++ repeat 0 12.
Proof.
  change LIS3DH_BYTES_IN_LOG_BUFFER with 288%nat.
  change LOG_MESSAGE_DATA_BYTE with 60%nat.
  intros Hq Hm.
  assert (W : forall k, memcpy messagge 0 queue k 60 = firstn 60 (skipn k queue)).
  { intros k. unfold memcpy. change (0 + 60)%nat with 60%nat.
    rewrite firstn_O, (skipn_all2 messagge) by lia.
    cbn [app]. apply app_nil_r. }
  unfold IMU_getPayload. cbv zeta.
  change (u8 (0 + 1) =? 5) with false. change (u8 (1 + 1) =? 5) with false.
  change (u8 (2 + 1) =? 5) with false. change (u8 (3 + 1) =? 5) with false.
  change (u8 (4 + 1) =? 5) with true. cbv iota.
  change (Z.to_nat (288 - u8 (0 + 1) * 60)) with 228%nat.
  change (Z.to_nat (288 - u8 (1 + 1) * 60)) with 168%nat.
  change (Z.to_nat (288 - u8 (2 + 1) * 60)) with 108%nat.
  change (Z.to_nat (288 - u8 (3 + 1) * 60)) with 48%nat.
  rewrite !W.
  split; [apply firstn_all2; rewrite length_skipn; lia|].
  do 3 (split; [reflexivity|]).
  unfold memcpy, memset. change (0 + 48)%nat with 48%nat.
  rewrite !skipn_O, firstn_O. cbn [app].
  rewrite (skipn_all2 messagge) by lia. rewrite app_nil_r.
  change (u8 0) with 0. reflexivity.
Qed.

(** X16. The five pages of a log tile the queue: page 4 holds its first 48
    bytes followed by 12 zero bytes, pages 3, 2, 1 and 0 the following four
    windows of 60 bytes, so that the 48 bytes of page 4 followed by pages 3
    to 0 are the queue itself, whatever the payload buffer held before. *)
Theorem payload_pages_tile_queue (queue messagge : list Z) :
  length queue = LIS3DH_BYTES_IN_LOG_BUFFER ->
  length messagge = LOG_MESSAGE_DATA_BYTE ->
  firstn 48 (IMU_getPayload queue messagge 4)
  ++ IMU_getPayload queue messagge 3 ++ IMU_getPayload queue messagge 2
  ++ IMU_getPayload queue messagge 1 ++ IMU_getPayload queue messagge 0
  = queue
  /\ skipn 48 (IMU_getPayload queue messagge 4) = repeat 0 12
  /\ (forall i, 0 <= i <= 4 ->
                length (IMU_getPayload queue messagge i) = 60%nat).
Proof.
  intros Hq Hm.
  destruct (getPayload_slices queue messagge Hq Hm)
    as (E0 & E1 & E2 & E3 & E4).
  change LIS3DH_BYTES_IN_LOG_BUFFER with 288%nat in Hq.
  rewrite E0, E1, E2, E3, E4.
  assert (H48 : length (firstn 48 queue) = 48%nat)
    by (rewrite length_firstn; lia).
  split; [|split].
  - rewrite firstn_app, H48. change (48 - 48)%nat with 0%nat.
    rewrite firstn_O, app_nil_r, firstn_firstn. change (Nat.min 48 48) with 48%nat.
    rewrite <- (firstn_skipn 48 queue) at 6. f_equal.
    rewrite <- (firstn_skipn 60 (skipn 48 queue)) at 2. f_equal.
    rewrite skipn_skipn. change (60 + 48)%nat with 108%nat.
    rewrite <- (firstn_skipn 60 (skipn 108 queue)) at 2. f_equal.
    rewrite skipn_skipn. change (60 + 108)%nat with 168%nat.
    rewrite <- (firstn_skipn 60 (skipn 168 queue)) at 2. f_equal.
    rewrite skipn_skipn. reflexivity.
  - rewrite skipn_app, H48. change (48 - 48)%nat with 0%nat.
    rewrite skipn_O, skipn_all2 by lia. reflexivity.
  - intros i Hi.
    assert (C : i = 0 \/ i = 1 \/ i = 2 \/ i = 3 \/ i = 4) by lia.
    destruct C as [-> | [-> | [-> | [-> | ->]]]].
    + rewrite E0, length_skipn. lia.
    + rewrite E1, length_firstn, length_skipn. lia.
    + rewrite E2, length_firstn, length_skipn. lia.
    + rewrite E3, length_firstn, length_skipn. lia.
    + rewrite E4, length_app, H48, repeat_length. lia.
Qed.

Lemma payload_pages_tile_queue_witness :
  (length sample_queue = LIS3DH_BYTES_IN_LOG_BUFFER
   /\ length (repeat 0xEE 60) = LOG_MESSAGE_DATA_BYTE)
  /\ firstn 48 (IMU_getPayload sample_queue (repeat 0xEE 60) 4)
     ++ IMU_getPayload sample_queue (repeat 0xEE 60) 3
     ++ IMU_getPayload sample_queue (repeat 0xEE 60) 2
     ++ IMU_getPayload sample_queue (repeat 0xEE 60) 1
     ++ IMU_getPayload sample_queue (repeat 0xEE 60) 0
     = sample_queue.
Proof.
  assert (H1 : length sample_queue = LIS3DH_BYTES_IN_LOG_BUFFER) by reflexivity.
  assert (H2 : length (repeat 0xEE 60) = LOG_MESSAGE_DATA_BYTE) by reflexivity.
  split; [split; assumption|].
  exact (proj1 (payload_pages_tile_queue sample_queue (repeat 0xEE 60) H1 H2)).
Defined.

(** ** The codec, from bytes to record and back *)

Lemma timestamp_split (lo hi : Z) :
  0 <= lo < 256 -> 0 <= hi < 256 ->
  let t := u16 (Z.lor (Z.shiftl hi 8) lo) in
  u8 (Z.land t 0xFF) = lo /\ u8 (Z.land (Z.shiftr t 8) 0xFF) = hi.
Proof.
  intros Hlo Hhi t. subst t.
  rewrite lor_shift_byte by assumption. rewrite u16_small by lia.
  change 0xFF with (Z.ones 8). rewrite !Z.land_ones by lia.
  rewrite Z.shiftr_div_pow2 by lia. change (2 ^ 8) with 256.
  assert (E1 : (256 * hi + lo) mod 256 = lo).
  { rewrite Z.add_comm, Z.mul_comm, Z.mod_add by lia. apply Z.mod_small. lia. }
  assert (E2 : (256 * hi + lo) / 256 = hi).
  { rewrite Z.add_comm, Z.mul_comm, Z.div_add by lia.
    rewrite Z.div_small by lia. lia. }
  rewrite E1, E2, (Z.mod_small hi) by lia.
  split; apply u8_small; assumption.
Qed.

Lemma unpackMessage_packMessage (page buffer : list Z) (msg : log_t) :
  length page = LOG_MESSAGE_TOT_BYTE ->
  length buffer = LOG_MESSAGE_TOT_BYTE ->
  length (data msg) = LOG_MESSAGE_DATA_BYTE ->
  is_byte (nth 2 page 0) = true ->
  is_byte (nth 3 page 0) = true ->
  LOG_unpackMessage buffer (LOG_packMessage msg page) = page.
Proof.
  change LOG_MESSAGE_TOT_BYTE with 64%nat.
  change LOG_MESSAGE_DATA_BYTE with 60%nat.
  intros Hp Hb Hd H2 H3.
  destruct page as [|p0 [|p1 [|p2 [|p3 rest]]]]; try discriminate.
  cbn [length] in Hp. cbn [nth] in H2, H3.
  apply is_byte_range in H2, H3.
  assert (Hr : length rest = 60%nat) by lia.
  assert (E : LOG_packMessage msg (p0 :: p1 :: p2 :: p3 :: rest)
              = mk_log p0 p1 (u16 (Z.lor (Z.shiftl p3 8) p2)) rest).
  { unfold LOG_packMessage, memcpy.
    cbn [nth logID intReg timestamp data].
    change (skipn 4 (p0 :: p1 :: p2 :: p3 :: rest)) with rest.
    change LOG_MESSAGE_DATA_BYTE with 60%nat. change (0 + 60)%nat with 60%nat.
    rewrite firstn_O, (firstn_all2 rest), (skipn_all2 (data msg)) by lia.
    cbn [app]. rewrite app_nil_r. reflexivity. }
  rewrite E, unpackMessage_layout by (cbn [data]; assumption).
  cbn [logID intReg timestamp data].
  destruct (timestamp_split p2 p3 H2 H3) as [-> ->]. reflexivity.
Qed.

(** X17. Bytes to record and back: for a 64-byte page of byte values,
    [LOG_unpackMessage] of [LOG_packMessage] gives the page back, whatever
    the destination buffer and the record held before, and the record
    carries the two header bytes, the little-endian timestamp and bytes 4
    to 63 as payload. *)
Theorem codec_bytes_round_trip (page buffer : list Z) (msg : log_t) :
  length page = LOG_MESSAGE_TOT_BYTE ->
  length buffer = LOG_MESSAGE_TOT_BYTE ->
  length (data msg) = LOG_MESSAGE_DATA_BYTE ->
  forallb is_byte page = true ->
  LOG_unpackMessage buffer (LOG_packMessage msg page) = page
  /\ logID (LOG_packMessage msg page) = nth 0 page 0
  /\ intReg (LOG_packMessage msg page) = nth 1 page 0
  /\ timestamp (LOG_packMessage msg page)
     = nth 2 page 0 + 256 * nth 3 page 0
  /\ data (LOG_packMessage msg page) = skipn 4 page.
Proof.
  intros Hp Hb Hd Hbytes.
  assert (H2 : is_byte (nth 2 page 0) = true)
    by (apply forallb_nth; [exact Hbytes | rewrite Hp; cbv; lia]).
  assert (H3 : is_byte (nth 3 page 0) = true)
    by (apply forallb_nth; [exact Hbytes | rewrite Hp; cbv; lia]).
  split; [apply unpackMessage_packMessage; assumption|].
  unfold LOG_packMessage. cbn [logID intReg timestamp data].
  split; [reflexivity | split; [reflexivity | split]].
  - apply is_byte_range in H2, H3.
    rewrite lor_shift_byte by assumption. rewrite u16_small by lia. lia.
  - unfold memcpy. change LOG_MESSAGE_TOT_BYTE with 64%nat in Hp.
    change LOG_MESSAGE_DATA_BYTE with 60%nat in *.
    change (0 + 60)%nat with 60%nat.
    rewrite firstn_O, (skipn_all2 (data msg)) by lia.
    cbn [app]. rewrite app_nil_r. apply firstn_all2.
    rewrite length_skipn. lia.
Qed.

Lemma codec_bytes_round_trip_witness :
  let page := map (fun i => Z.of_nat i * 3 mod 256) (seq 0 64) in
  (length page = LOG_MESSAGE_TOT_BYTE
   /\ length (uninit 64) = LOG_MESSAGE_TOT_BYTE
   /\ length (data log_uninit) = LOG_MESSAGE_DATA_BYTE
   /\ forallb is_byte page = true)
  /\ LOG_unpackMessage (uninit 64) (LOG_packMessage log_uninit page) = page.
Proof.
  intros page.
  assert (H1 : length page = LOG_MESSAGE_TOT_BYTE) by reflexivity.
  assert (H2 : length (uninit 64) = LOG_MESSAGE_TOT_BYTE) by reflexivity.
  assert (H3 : length (data log_uninit) = LOG_MESSAGE_DATA_BYTE) by reflexivity.
  assert (H4 : forallb is_byte page = true) by reflexivity.
  split; [repeat apply conj; assumption|].
  exact (proj1 (codec_bytes_round_trip page (uninit 64) log_uninit H1 H2 H3 H4)).
Defined.

Lemma readPage_bytes (m : eeprom) (addr : Z) (n : nat) :
  length (EEPROM_readPage m addr n) = n
  /\ forallb is_byte (EEPROM_readPage m addr n) = true.
Proof.
  unfold EEPROM_readPage. split; [rewrite length_map; apply length_seq|].
  apply forallb_forall. intros x Hx. apply in_map_iff in Hx as (i & <- & _).
  pose proof (u8_range (m (bus_addr addr + Z.of_nat i))).
  unfold is_byte. apply andb_true_iff.
  split; [apply Z.leb_le | apply Z.ltb_lt]; lia.
Qed.

Lemma sendData_retrieved_page (m : eeprom) (id pageIndex : Z) :
  LOG_unpackMessage (uninit 64) (EEPROM_retrieveLogMessage m id pageIndex)
  = EEPROM_retrieveLogData m id pageIndex.
Proof.
  unfold EEPROM_retrieveLogMessage. cbv zeta.
  assert (H : length (EEPROM_retrieveLogData m id pageIndex) = 64%nat
              /\ forallb is_byte (EEPROM_retrieveLogData m id pageIndex) = true)
    by (unfold EEPROM_retrieveLogData; apply readPage_bytes).
  destruct H as [Hl Hb].
  generalize dependent (EEPROM_retrieveLogData m id pageIndex).
  intros page Hl Hb.
  apply unpackMessage_packMessage;
    [exact Hl | reflexivity | reflexivity
     | apply forallb_nth; [exact Hb | rewrite Hl; cbv; lia]
     | apply forallb_nth; [exact Hb | rewrite Hl; cbv; lia]].
Qed.

(** X18. READ_LOG is transparent: for every store and every identifier,
    stored or not, the handler consumes the two command bytes and transmits
    the 64 bytes of each of the five pages exactly as
    [EEPROM_retrieveLogData] reads them, in page order; decoding a page into
    a record and encoding it again loses nothing. *)
Theorem read_log_sends_pages_as_read (s : psoc) (id : Z) (rx : list Z) :
  uart_rx s = UART_RX_SEND_LOG_ID :: id :: rx ->
  CUSTOM_ISR_RX s
  = set_uart s rx
      (uart_tx s
       ++ flat_map (fun i => EEPROM_retrieveLogData (cells s) id (Z.of_nat i))
                   (seq 0 5)).
Proof.
  intros Hrx.
  assert (E : CUSTOM_ISR_RX s = send_log_pages (set_uart s rx (uart_tx s)) id).
  { unfold CUSTOM_ISR_RX, UART_GetChar. rewrite Hrx.
    cbn [set_uart uart_rx uart_tx].
    change (UART_RX_SEND_LOG_ID =? UART_RX_RESET_MEMORY) with false.
    change (UART_RX_SEND_LOG_ID =? UART_RX_NUMBER_OF_LOGS) with false.
    change (UART_RX_SEND_LOG_ID =? UART_RX_READ_CTRL_REG) with false.
    change (UART_RX_SEND_LOG_ID =? UART_RX_SEND_LOG_ID) with true.
    cbv iota. reflexivity. }
  rewrite E, send_log_pages_tx.
  - cbn [set_uart uart_rx uart_tx cells seq flat_map].
    rewrite !sendData_retrieved_page. destruct s; reflexivity.
  - intros i Hi. cbn [set_uart cells]. rewrite sendData_retrieved_page.
    unfold EEPROM_retrieveLogData. apply readPage_bytes.
Qed.

Lemma read_log_sends_pages_as_read_witness :
  let s := set_uart (after_events 3) [UART_RX_SEND_LOG_ID; 99] [] in
  uart_rx s = UART_RX_SEND_LOG_ID :: 99 :: []
  /\ CUSTOM_ISR_RX s
     = set_uart s []
         (uart_tx s
          ++ flat_map (fun i => EEPROM_retrieveLogData (cells s) 99 (Z.of_nat i))
                      (seq 0 5)).
Proof.
  intros s.
  assert (H1 : uart_rx s = UART_RX_SEND_LOG_ID :: 99 :: []) by reflexivity.
  split; [exact H1|].
  exact (read_log_sends_pages_as_read s 99 [] H1).
Defined.

(** ** The accelerometer registers *)

Lemma IMU_WriteReg_other (r : imu_regs) (reg value x : Z) :
  x <> reg -> IMU_WriteReg r reg value x = r x.
Proof.
  intros H. unfold IMU_WriteReg. apply Z.eqb_neq in H. rewrite H. reflexivity.
Qed.

Lemma run_imu_op_frame (r : imu_regs) (op : imu_op) (x : Z) :
  x <> LIS3DH_CTRL_REG1 -> x <> LIS3DH_CTRL_REG3 -> x <> LIS3DH_CTRL_REG5 ->
  x <> LIS3DH_FIFO_CTRL_REG -> x <> LIS3DH_INT1_CFG ->
  run_imu_op r op x = r x.
Proof.
  intros H1 H3 H5 HF HI.
  destruct op; unfold run_imu_op, IMU_Start, IMU_Stop, IMU_ResetFIFO;
    cbv zeta; rewrite !IMU_WriteReg_other by assumption; reflexivity.
Qed.

(** X19. The configuration written once by [IMU_Init] is never lost:
    after any sequence of [IMU_Start], [IMU_Stop] and [IMU_ResetFIFO] the
    threshold register still holds 0x64, the duration register 0x14 and
    control register 4 the block-data-update bit, and a register that is
    none of the eight the driver configures holds what it held at
    power-on. *)
Theorem imu_configuration_retained (r : imu_regs) (ops : list imu_op) :
  let r' := fold_left run_imu_op ops (IMU_Init r) in
  r' LIS3DH_INT1_THS = LIS3DH_INT1_THS_VALUE
  /\ r' LIS3DH_INT1_DURATION = LIS3DH_INT1_DURATION_VALUE
  /\ r' LIS3DH_CTRL_REG4 = LIS3DH_CTRL_REG4_BDU_ACTIVE
  /\ forall x,
       x <> LIS3DH_CTRL_REG1 -> x <> LIS3DH_CTRL_REG3 ->
       x <> LIS3DH_CTRL_REG4 -> x <> LIS3DH_CTRL_REG5 ->
       x <> LIS3DH_FIFO_CTRL_REG -> x <> LIS3DH_INT1_CFG ->
       x <> LIS3DH_INT1_THS -> x <> LIS3DH_INT1_DURATION ->
       r' x = r x.
Proof.
  intros r'.
  assert (F : forall x,
             x <> LIS3DH_CTRL_REG1 -> x <> LIS3DH_CTRL_REG3 ->
             x <> LIS3DH_CTRL_REG5 -> x <> LIS3DH_FIFO_CTRL_REG ->
             x <> LIS3DH_INT1_CFG ->
             r' x = IMU_Init r x).
  { intros x H1 H3 H5 HF HI. subst r'. generalize (IMU_Init r).
    induction ops as [|op ops IH]; intros r0; [reflexivity|].
    cbn [fold_left]. rewrite IH. apply run_imu_op_frame; assumption. }
  split; [|split; [|split]].
  - rewrite F by discriminate. reflexivity.
  - rewrite F by discriminate. reflexivity.
  - rewrite F by discriminate. reflexivity.
  - intros x H1 H3 H4 H5 HF HI HT HD. rewrite F by assumption.
    unfold IMU_Init, IMU_Stop, IMU_Setup. cbv zeta.
    rewrite !IMU_WriteReg_other by assumption. reflexivity.
Qed.

Lemma imu_configuration_retained_witness :
  let r' := fold_left run_imu_op [ImuStart; ImuResetFIFO; ImuStop; ImuStart]
                      (IMU_Init lis3dh_zero) in
  (0x0F <> LIS3DH_CTRL_REG1 /\ 0x0F <> LIS3DH_CTRL_REG3
   /\ 0x0F <> LIS3DH_CTRL_REG4 /\ 0x0F <> LIS3DH_CTRL_REG5
   /\ 0x0F <> LIS3DH_FIFO_CTRL_REG /\ 0x0F <> LIS3DH_INT1_CFG
   /\ 0x0F <> LIS3DH_INT1_THS /\ 0x0F <> LIS3DH_INT1_DURATION)
  /\ r' LIS3DH_INT1_THS = LIS3DH_INT1_THS_VALUE
  /\ r' 0x0F = lis3dh_zero 0x0F.
Proof.
  intros r'.
  destruct (imu_configuration_retained
              lis3dh_zero [ImuStart; ImuResetFIFO; ImuStop; ImuStart])
    as (Ht & _ & _ & Hx).
  split; [repeat apply conj; discriminate|].
  split; [exact Ht|].
  apply Hx; discriminate.
Defined.

(** ** Timestamp, telemetry frames and the knob *)

(** X20. The timestamp is the number of whole seconds since the timer
    started, reduced modulo 65536: exact for the first 65536 seconds, and
    two instants 65536 seconds apart get the same timestamp. *)
Theorem timestamp_wraps_after_65536_seconds (counter : Z) :
  0 <= counter <= LOG_TIMER_OVERFLOW ->
  let elapsed_ms := LOG_TIMER_OVERFLOW - counter in
  LOG_getTimestamp counter = (elapsed_ms / 1000) mod 65536
  /\ (elapsed_ms < 65536000 -> LOG_getTimestamp counter = elapsed_ms / 1000)
  /\ (65536000 <= counter ->
      LOG_getTimestamp (counter - 65536000) = LOG_getTimestamp counter).
Proof.
  intros Hc elapsed_ms. unfold LOG_TIMER_OVERFLOW in *.
  assert (G : forall c, 0 <= c <= 0xFFFFFFFF ->
                        LOG_getTimestamp c = ((0xFFFFFFFF - c) / 1000) mod 65536).
  { intros c Hcc. unfold LOG_getTimestamp, u32, u16, LOG_TIMER_OVERFLOW,
      LOG_TICK_PER_SECOND.
    change (2 ^ 32) with 4294967296. change (2 ^ 16) with 65536.
    rewrite (Z.mod_small (0xFFFFFFFF - c)) by lia. reflexivity. }
  split; [apply G; exact Hc | split].
  - intros He. rewrite G by exact Hc. apply Z.mod_small.
    subst elapsed_ms. split.
    + apply Z.div_pos; lia.
    + apply Z.div_lt_upper_bound; lia.
  - intros Hlate. rewrite !G by lia.
    replace (0xFFFFFFFF - (counter - 65536000))
      with (0xFFFFFFFF - counter + 65536 * 1000) by lia.
    rewrite Z.div_add by lia.
    rewrite <- (Z.mul_1_l 65536) at 1. apply Z.mod_add. lia.
Qed.

Lemma timestamp_wraps_after_65536_seconds_witness :
  (0 <= 0xFFFFFFFF - 7500 <= LOG_TIMER_OVERFLOW
   /\ LOG_TIMER_OVERFLOW - (0xFFFFFFFF - 7500) < 65536000)
  /\ LOG_getTimestamp (0xFFFFFFFF - 7500) = 7500 / 1000.
Proof.
  assert (H1 : 0 <= 0xFFFFFFFF - 7500 <= LOG_TIMER_OVERFLOW)
    by (unfold LOG_TIMER_OVERFLOW; lia).
  assert (H2 : LOG_TIMER_OVERFLOW - (0xFFFFFFFF - 7500) < 65536000)
    by (unfold LOG_TIMER_OVERFLOW; lia).
  split; [split; assumption|].
  exact (proj1 (proj2
           (timestamp_wraps_after_65536_seconds (0xFFFFFFFF - 7500) H1)) H2).
Defined.

Lemma DataSend_fill_shape (h : list Z) (i : nat) (d0 d1 d2 d3 d4 : Z) :
  DataSend_fill h i [d0; d1; d2; d3; d4]
  = [d0; nth (i * 3) h 0; nth (i * 3 + 1) h 0; nth (i * 3 + 2) h 0; d4].
Proof.
  unfold DataSend_fill. cbn [seq fold_left array_set].
  replace (i * 3 + 1 - 1)%nat with (i * 3)%nat by lia.
  replace (i * 3 + 2 - 1)%nat with (i * 3 + 1)%nat by lia.
  replace (i * 3 + 3 - 1)%nat with (i * 3 + 2)%nat by lia.
  reflexivity.
Qed.

Lemma DataSend_loop (h : list Z) (l : list nat) :
  forall (s : psoc) (d1 d2 d3 : Z),
    fst (fold_left
           (fun acc i =>
              (let '(s, DataSend) := acc in
               let DataSend := DataSend_fill h i DataSend in
               (UART_PutArray s DataSend 5, DataSend)))
           l (s, [0xA0; d1; d2; d3; 0xC0]))
    = set_uart s (uart_rx s)
        (uart_tx s
         ++ flat_map (fun i => [0xA0; nth (i * 3) h 0; nth (i * 3 + 1) h 0;
                                nth (i * 3 + 2) h 0; 0xC0]) l).
Proof.
  induction l as [|i l IH]; intros s d1 d2 d3.
  - cbn [fold_left fst flat_map]. rewrite app_nil_r. destruct s; reflexivity.
  - cbn [fold_left flat_map]. rewrite DataSend_fill_shape, IH.
    unfold UART_PutArray. cbn [seq map nth set_uart uart_rx uart_tx].
    rewrite <- app_assoc. reflexivity.
Qed.

Lemma IMU_DataSend_frames (s : psoc) (buffer : list Z) :
  IMU_DataSend s buffer
  = set_uart s (uart_rx s)
      (uart_tx s
       ++ flat_map (fun i => [0xA0;
                              nth (6 * i + 1) buffer 0;
                              nth (6 * i + 3) buffer 0;
                              nth (6 * i + 5) buffer 0;
                              0xC0])
                   (seq 0 32)).
Proof.
  etransitivity;
    [exact (DataSend_loop (high_registers buffer) (seq 0 32) s 0 0 0)|].
  reflexivity.
Qed.

(** X21. [IMU_DataSend] frames the burst for the serial plotter: 32 frames
    of five bytes, one per FIFO level, each the header 0xA0, the high
    register of X, Y and Z of that level and the tail 0xC0; 160 bytes are
    sent and nothing else of the board changes. *)
Theorem telemetry_frames (s : psoc) (buffer : list Z) :
  IMU_DataSend s buffer
  = set_uart s (uart_rx s)
      (uart_tx s
       ++ flat_map (fun i => [0xA0;
                              nth (6 * i + 1) buffer 0;
                              nth (6 * i + 3) buffer 0;
                              nth (6 * i + 5) buffer 0;
                              0xC0])
                   (seq 0 32))
  /\ length (uart_tx (IMU_DataSend s buffer)) = (length (uart_tx s) + 160)%nat.
Proof.
  split; [apply IMU_DataSend_frames|].
  rewrite IMU_DataSend_frames. cbn [set_uart uart_tx]. rewrite length_app.
  reflexivity.
Qed.

(** X22. The knob has hysteresis: a reading below 64 gives send flag 0,
    one above 190 gives 1, and anything between keeps the flag as it was;
    readings outside 0 .. 255 are clipped first, so a negative reading
    gives 0 and one beyond 255 gives 1. *)
Theorem knob_hysteresis (raw oldFlag : Z) :
  POT_Read_Value raw oldFlag
  = if raw <? 64 then 0 else if 190 <? raw then 1 else oldFlag.
Proof.
  unfold POT_Read_Value, POT_MID_RANGE. cbv zeta.
  change (127 - 127 / 2) with 64. change (127 + 127 / 2) with 190.
  set (clipped := if raw >? 255 then 255 else if raw <? 0 then 0 else raw).
  assert (Hc : 0 <= clipped <= 255
               /\ (raw < 64 <-> clipped < 64) /\ (190 < raw <-> 190 < clipped)).
  { subst clipped. destruct (Z.gtb_spec raw 255); [lia|].
    destruct (Z.ltb_spec raw 0); lia. }
  destruct Hc as (Hr & H64 & H190).
  assert (Hp : u8 (Z.land clipped 255) = clipped).
  { change 255 with (Z.ones 8). rewrite Z.land_ones by lia.
    change (2 ^ 8) with 256. rewrite Z.mod_small by lia. apply u8_small. lia. }
  rewrite Hp.
  destruct (Z.ltb_spec clipped 64); destruct (Z.ltb_spec raw 64);
    try reflexivity; try lia.
  destruct (Z.gtb_spec clipped 190); destruct (Z.ltb_spec 190 raw);
    try reflexivity; lia.
Qed.

(** ** The RGB driver *)

Lemma s8_range (x : Z) : -128 <= s8 x <= 127.
Proof.
  unfold s8. pose proof (Z.mod_pos_bound (x + 128) 256 ltac:(lia)). lia.
Qed.

Lemma s8_small (v : Z) : -128 <= v <= 127 -> s8 v = v.
Proof. intros H. unfold s8. rewrite Z.mod_small by lia. lia. Qed.

Lemma s8_u8 (v : Z) : s8 (u8 v) = s8 v.
Proof.
  unfold s8, u8. change (2 ^ 8) with 256.
  rewrite Z.add_mod_idemp_l by lia. reflexivity.
Qed.

Lemma s16_small (v : Z) : -32768 <= v < 32768 -> s16 v = v.
Proof. intros H. unfold s16. rewrite Z.mod_small by lia. lia. Qed.

Lemma Absolute_Value_abs (v : Z) :
  -128 <= v <= 127 -> Absolute_Value v = Z.abs v.
Proof.
  intros Hv.
  rewrite <- (s8_small v Hv), <- s8_u8.
  pose proof (u8_range v) as Hb. revert Hb. generalize (u8 v). intros b Hb.
  revert b Hb.
  apply (forall_byte_eq (fun b => Absolute_Value (s8 b)) (fun b => Z.abs (s8 b))).
  vm_compute. reflexivity.
Qed.

(** X23. The branch-free absolute value is the absolute value on the
    whole range of [int8_t]: for every [v] from -128 to 127 the result is
    [|v|], the value 128 for [v = -128] included, which fits the unsigned
    byte returned. *)
Theorem absolute_value_correct (v : Z) :
  -128 <= v <= 127 ->
  Absolute_Value v = Z.abs v /\ 0 <= Absolute_Value v <= 128.
Proof.
  intros Hv. rewrite Absolute_Value_abs by exact Hv. lia.
Qed.

Lemma absolute_value_correct_witness :
  -128 <= -128 <= 127 /\ Absolute_Value (-128) = Z.abs (-128).
Proof.
  assert (H : -128 <= -128 <= 127) by lia.
  split; [exact H | exact (proj1 (absolute_value_correct (-128) H))].
Defined.

Lemma dataProcess_channel (v : Z) :
  (if Absolute_Value (s8 v) >? 127
   then u8 (u8 (127 * 2))
   else u8 (u8 (Absolute_Value (s8 v) * 2)))
  = led_duty (s8 v).
Proof.
  pose proof (s8_range v) as Hs.
  rewrite (Absolute_Value_abs (s8 v) Hs). unfold led_duty.
  destruct (Z.gtb_spec (Z.abs (s8 v)) 127) as [H | H].
  - rewrite Z.min_r by lia. reflexivity.
  - rewrite Z.min_l by lia. rewrite u8_idem, u8_small by lia. lia.
Qed.

Lemma RGB_dataProcess_channels (x y z : Z) :
  RGB_dataProcess [x; y; z]
  = [led_duty (s8 x); led_duty (s8 y); led_duty (s8 z)].
Proof.
  rewrite <- (dataProcess_channel x), <- (dataProcess_channel y),
    <- (dataProcess_channel z).
  unfold RGB_dataProcess, for_loop. cbn [seq fold_left array_set nth].
  destruct (Absolute_Value (s8 x) >? 127); cbn [array_set nth];
    (destruct (Absolute_Value (s8 y) >? 127); cbn [array_set nth];
     (destruct (Absolute_Value (s8 z) >? 127); cbn [array_set nth];
      reflexivity)).
Qed.

(** X24. [RGB_dataProcess] maps each of the three bytes, read as a signed
    value [v], to [2 * min(|v|, 127)]: the result is even, at most 254, and
    never wraps around; -128 and 127 both give 254. *)
Theorem dataProcess_saturates (x y z : Z) :
  RGB_dataProcess [x; y; z]
  = [led_duty (s8 x); led_duty (s8 y); led_duty (s8 z)]
  /\ (forall v, 0 <= led_duty (s8 v) <= 254 /\ led_duty (s8 v) mod 2 = 0)
  /\ RGB_dataProcess [0x80; 0x7F; 0xFF] = [254; 254; 2].
Proof.
  split; [apply RGB_dataProcess_channels | split].
  - intros v. pose proof (s8_range v). unfold led_duty. split; [lia|].
    rewrite Z.mul_comm. apply Z.mod_mul. lia.
  - rewrite RGB_dataProcess_channels. reflexivity.
Qed.

(** *** The moving average *)

Lemma for_loop_S {S : Type} (n : nat) (body : nat -> S -> S) (s : S) :
  for_loop (Datatypes.S n) body s = body n (for_loop n body s).
Proof.
  unfold for_loop. rewrite seq_S, fold_left_app. reflexivity.
Qed.

Lemma axis_sample_range (dataPtr : list Z) (i j : nat) :
  -128 <= axis_sample dataPtr i j <= 127.
Proof. apply s8_range. Qed.

Lemma axis_sum_between (dataPtr : list Z) (j n : nat) (lo hi : Z) :
  (forall i, (i < n)%nat -> lo <= axis_sample dataPtr i j <= hi) ->
  lo * Z.of_nat n <= axis_sum dataPtr j n <= hi * Z.of_nat n.
Proof.
  induction n as [|n IH]; intros H; [cbn [axis_sum]; lia|].
  cbn [axis_sum]. specialize (IH ltac:(intros i Hi; apply H; lia)).
  specialize (H n ltac:(lia)). lia.
Qed.

Lemma axis_sum_range (dataPtr : list Z) (j n : nat) :
  -128 * Z.of_nat n <= axis_sum dataPtr j n <= 127 * Z.of_nat n.
Proof.
  apply axis_sum_between. intros i _. apply axis_sample_range.
Qed.

(** The accumulation loop: no [int16_t] overflow for any window the
    [uint8_t] parameter can give. *)
Lemma Moving_Average_sums (dataPtr : list Z) (n : nat) :
  (n <= 255)%nat ->
  for_loop n
    (fun i dataSum =>
       for_loop 3
         (fun j dataSum =>
            let tmp := s8 (nth (1 + i * 6 + j * 2) dataPtr 0) in
            array_set dataSum j (s16 (nth j dataSum 0 + tmp)))
         dataSum)
    [0; 0; 0]
  = [axis_sum dataPtr 0 n; axis_sum dataPtr 1 n; axis_sum dataPtr 2 n].
Proof.
  induction n as [|n IH]; intros Hn; [reflexivity|].
  rewrite for_loop_S, IH by lia.
  unfold for_loop at 1. cbn [seq fold_left array_set nth].
  fold (axis_sample dataPtr n 0). fold (axis_sample dataPtr n 1).
  fold (axis_sample dataPtr n 2).
  pose proof (axis_sum_range dataPtr 0 n). pose proof (axis_sum_range dataPtr 1 n).
  pose proof (axis_sum_range dataPtr 2 n).
  pose proof (axis_sample_range dataPtr n 0).
  pose proof (axis_sample_range dataPtr n 1).
  pose proof (axis_sample_range dataPtr n 2).
  rewrite !s16_small by lia. reflexivity.
Qed.

Lemma Moving_Average_32 (dataPtr : list Z) (f0 f1 f2 : Z) :
  Moving_Average dataPtr [f0; f1; f2] 32
  = [u8 (Z.quot (axis_sum dataPtr 0 32) 32);
     u8 (Z.quot (axis_sum dataPtr 1 32) 32);
     u8 (Z.quot (axis_sum dataPtr 2 32) 32)].
Proof.
  unfold Moving_Average. cbv zeta. change (Z.to_nat 32) with 32%nat.
  rewrite Moving_Average_sums by lia.
  unfold for_loop. cbn [seq fold_left array_set nth]. reflexivity.
Qed.

Lemma quot_between (s lo hi : Z) :
  lo * 32 <= s <= hi * 32 -> lo <= Z.quot s 32 <= hi.
Proof.
  intros H.
  pose proof (Z.quot_rem' s 32) as E.
  destruct (Z.le_gt_cases 0 s) as [Hs | Hs].
  - pose proof (Z.rem_bound_pos s 32 Hs ltac:(lia)). lia.
  - pose proof (Z.rem_bound_pos (- s) 32 ltac:(lia) ltac:(lia)) as Hr.
    rewrite Z.rem_opp_l in Hr by lia. lia.
Qed.

Lemma average_between (dataPtr : list Z) (j : nat) (lo hi : Z) :
  (forall i, (i < 32)%nat -> lo <= axis_sample dataPtr i j <= hi) ->
  lo <= s8 (u8 (Z.quot (axis_sum dataPtr j 32) 32)) <= hi.
Proof.
  intros Hs.
  pose proof (axis_sum_between dataPtr j 32 lo hi Hs) as Hb.
  pose proof (axis_sum_range dataPtr j 32) as Hr.
  pose proof (quot_between (axis_sum dataPtr j 32) lo hi ltac:(lia)) as Hq.
  pose proof (quot_between (axis_sum dataPtr j 32) (-128) 127 ltac:(lia)) as Hq8.
  rewrite s8_u8, s8_small by lia. exact Hq.
Qed.

(** X25. The moving average over the 32 levels of a FIFO read: the sums
    never overflow their [int16_t], and the average of each axis, read as a
    signed byte, lies between the smallest and the largest sample of that
    axis; a constant signal is reproduced exactly. *)
Theorem moving_average_within_samples
        (dataPtr filtPtr : list Z) (j : nat) (lo hi : Z) :
  length filtPtr = 3%nat ->
  (j < 3)%nat ->
  (forall i, (i < 32)%nat -> lo <= axis_sample dataPtr i j <= hi) ->
  nth j (Moving_Average dataPtr filtPtr 32) 0
  = u8 (Z.quot (axis_sum dataPtr j 32) 32)
  /\ lo <= s8 (nth j (Moving_Average dataPtr filtPtr 32) 0) <= hi.
Proof.
  intros Hf Hj Hs.
  destruct filtPtr as [|f0 [|f1 [|f2 [|]]]]; try discriminate.
  rewrite Moving_Average_32.
  assert (E : nth j [u8 (Z.quot (axis_sum dataPtr 0 32) 32);
                     u8 (Z.quot (axis_sum dataPtr 1 32) 32);
                     u8 (Z.quot (axis_sum dataPtr 2 32) 32)] 0
              = u8 (Z.quot (axis_sum dataPtr j 32) 32)).
  { do 3 (destruct j as [|j]; [reflexivity|]). lia. }
  rewrite E. split; [reflexivity|].
  apply average_between. exact Hs.
Qed.

Lemma moving_average_within_samples_witness :
  let d := flat_map (fun i => [0; 5; 0; 0xFB; 0; Z.of_nat i]) (seq 0 32) in
  (length [0; 0; 0] = 3%nat /\ (1 < 3)%nat
   /\ forall i, (i < 32)%nat -> -5 <= axis_sample d i 1 <= -5)
  /\ -5 <= s8 (nth 1 (Moving_Average d [0; 0; 0] 32) 0) <= -5.
Proof.
  intros d.
  assert (H1 : length [0; 0; 0] = 3%nat) by reflexivity.
  assert (H2 : (1 < 3)%nat) by lia.
  assert (H3 : forall i, (i < 32)%nat -> -5 <= axis_sample d i 1 <= -5).
  { intros i Hi.
    do 32 (destruct i as [|i]; [vm_compute; split; discriminate|]). lia. }
  split; [repeat apply conj; assumption|].
  exact (proj2 (moving_average_within_samples d [0; 0; 0] 1 (-5) (-5) H1 H2 H3)).
Defined.

(** X26. [RGB_Driver] on a steady burst: when every sample of the burst
    has the signed high bytes [x], [y] and [z], the red channel gets duty
    [2 * min(|x|, 127)], the blue channel that of [y] and the green channel
    that of [z]; the PWM enable bits are not touched. *)
Theorem rgb_driver_steady_burst (l : rgb_led) (dataPtr : list Z) (x y z : Z) :
  length (RGB_DataBuffer l) = 3%nat ->
  -128 <= x <= 127 -> -128 <= y <= 127 -> -128 <= z <= 127 ->
  (forall i, (i < 32)%nat ->
     axis_sample dataPtr i 0 = x /\ axis_sample dataPtr i 1 = y
     /\ axis_sample dataPtr i 2 = z) ->
  let l' := RGB_Driver l dataPtr in
  pwm_rg_compare1 l' = led_duty x
  /\ pwm_b_compare l' = led_duty y
  /\ pwm_rg_compare2 l' = led_duty z
  /\ pwm_rg_enabled l' = pwm_rg_enabled l
  /\ pwm_b_enabled l' = pwm_b_enabled l.
Proof.
  intros Hf Hx Hy Hz Hs l'.
  destruct l as [buf erg eb c1 c2 cb]. cbn [RGB_DataBuffer] in Hf.
  destruct buf as [|f0 [|f1 [|f2 [|]]]]; try discriminate.
  assert (A : forall j v, (forall i, (i < 32)%nat -> axis_sample dataPtr i j = v) ->
            s8 (u8 (Z.quot (axis_sum dataPtr j 32) 32)) = v).
  { intros j v Hv.
    pose proof (average_between dataPtr j v v
                  ltac:(intros i Hi; rewrite (Hv i Hi); lia)).
    lia. }
  subst l'. unfold RGB_Driver, set_RGB_DataBuffer, PWM_Driver,
    PWM_RG_WriteCompare1, PWM_RG_WriteCompare2, PWM_B_WriteCompare.
  cbn [RGB_DataBuffer pwm_rg_enabled pwm_b_enabled pwm_rg_compare1
       pwm_rg_compare2 pwm_b_compare].
  rewrite Moving_Average_32, RGB_dataProcess_channels. cbn [nth].
  rewrite (A 0%nat x), (A 1%nat y), (A 2%nat z)
    by (intros i Hi; apply (Hs i Hi)).
  assert (D : forall v, -128 <= v <= 127 -> u8 (led_duty v) = led_duty v)
    by (intros v Hv; apply u8_small; unfold led_duty; lia).
  rewrite !D by assumption.
  repeat apply conj; reflexivity.
Qed.

Lemma rgb_driver_steady_burst_witness :
  let d := flat_map (fun _ => [0; 5; 0; 0xFB; 0; 0x80]) (seq 0 32) in
  let l := mk_rgb [0; 0; 0] true true 0 0 0 in
  (length (RGB_DataBuffer l) = 3%nat
   /\ -128 <= 5 <= 127 /\ -128 <= -5 <= 127 /\ -128 <= -128 <= 127
   /\ forall i, (i < 32)%nat ->
        axis_sample d i 0 = 5 /\ axis_sample d i 1 = -5
        /\ axis_sample d i 2 = -128)
  /\ pwm_rg_compare1 (RGB_Driver l d) = led_duty 5
  /\ pwm_b_compare (RGB_Driver l d) = led_duty (-5)
  /\ pwm_rg_compare2 (RGB_Driver l d) = led_duty (-128).
Proof.
  intros d l.
  assert (H1 : length (RGB_DataBuffer l) = 3%nat) by reflexivity.
  assert (H2 : -128 <= 5 <= 127) by lia.
  assert (H3 : -128 <= -5 <= 127) by lia.
  assert (H4 : -128 <= -128 <= 127) by lia.
  assert (H5 : forall i, (i < 32)%nat ->
             axis_sample d i 0 = 5 /\ axis_sample d i 1 = -5
             /\ axis_sample d i 2 = -128).
  { intros i Hi.
    do 32 (destruct i as [|i]; [vm_compute; repeat split|]). lia. }
  split; [split; [exact H1 | split; [exact H2 | split; [exact H3 | split;
    [exact H4 | exact H5]]]]|].
  destruct (rgb_driver_steady_burst l d 5 (-5) (-128) H1 H2 H3 H4 H5)
    as (Ha & Hb & Hc & _).
  repeat apply conj; assumption.
Defined.

(** ** The body of the main loop *)

Lemma firstn_add_skipn {A : Type} (a b : nat) (l : list A) :
  firstn (a + b) l = firstn a l ++ firstn b (skipn a l).
Proof.
  rewrite <- (firstn_skipn a (firstn (a + b) l)).
  rewrite firstn_firstn, Nat.min_l by lia.
  rewrite firstn_skipn_comm. reflexivity.
Qed.

Lemma IMU_ReadFIFO_levels (fifo buffer : list Z) (k : nat) :
  length fifo = LIS3DH_BYTES_IN_FIFO ->
  length buffer = LIS3DH_BYTES_IN_FIFO ->
  (k <= 32)%nat ->
  for_loop k
    (fun i buffer => memcpy buffer (i * 6) fifo (i * 6) LIS3DH_FIFO_BYTES_IN_LEVEL)
    buffer
  = firstn (k * 6) fifo ++ skipn (k * 6) buffer.
Proof.
  change LIS3DH_BYTES_IN_FIFO with 192%nat.
  change LIS3DH_FIFO_BYTES_IN_LEVEL with 6%nat.
  intros Hf Hb. induction k as [|k IH]; intros Hk; [reflexivity|].
  rewrite for_loop_S, IH by lia. unfold memcpy.
  assert (Hl : length (firstn (k * 6) fifo) = (k * 6)%nat)
    by (rewrite length_firstn; lia).
  rewrite firstn_app, Hl, Nat.sub_diag, firstn_O, app_nil_r.
  rewrite firstn_firstn, Nat.min_id.
  rewrite skipn_app, Hl.
  rewrite (skipn_all2 (firstn (k * 6) fifo)) by lia.
  replace (k * 6 + 6 - k * 6)%nat with 6%nat by lia.
  rewrite skipn_skipn. cbn [app].
  replace (S k * 6)%nat with (k * 6 + 6)%nat by lia.
  rewrite (firstn_add_skipn (k * 6) 6 fifo), <- app_assoc.
  replace (6 + k * 6)%nat with (k * 6 + 6)%nat by lia. reflexivity.
Qed.

Lemma IMU_ReadFIFO_full (fifo buffer : list Z) :
  length fifo = LIS3DH_BYTES_IN_FIFO ->
  length buffer = LIS3DH_BYTES_IN_FIFO ->
  IMU_ReadFIFO fifo buffer = fifo.
Proof.
  intros Hf Hb. unfold IMU_ReadFIFO.
  rewrite IMU_ReadFIFO_levels by (assumption || lia).
  change LIS3DH_BYTES_IN_FIFO with 192%nat in *.
  change (32 * 6)%nat with 192%nat.
  rewrite firstn_all2, skipn_all2 by lia. apply app_nil_r.
Qed.

Lemma data_ready_branch (libc : memcpy_lib) (x : machine) (fifo : list Z) :
  IMU_data_ready_flag (board x) = 1 ->
  length fifo = LIS3DH_BYTES_IN_FIFO ->
  length (IMU_DataBuffer x) = LIS3DH_BYTES_IN_FIFO ->
  let x' := main_data_ready libc x fifo in
  IMU_DataBuffer x' = fifo
  /\ IMU_log_queue (board x')
     = IMU_StoreFIFO libc (IMU_log_queue (board x)) fifo
  /\ IMU_data_ready_flag (board x') = 0
  /\ cells (board x') = cells (board x)
  /\ lis3dh (board x') LIS3DH_FIFO_CTRL_REG = LIS3DH_FIFO_CTRL_REG_FIFO_MODE
  /\ uart_tx (board x')
     = (if EEPROM_retrieveSendFlag (cells (board x)) =? 1
        then uart_tx (board x)
             ++ flat_map (fun i => [0xA0; nth (6 * i + 1) fifo 0;
                                    nth (6 * i + 3) fifo 0;
                                    nth (6 * i + 5) fifo 0; 0xC0])
                         (seq 0 32)
        else uart_tx (board x))
  /\ button_state (board x') = button_state (board x)
  /\ led x' = led x.
Proof.
  intros Hflag Hf Hb x'. subst x'. unfold main_data_ready.
  rewrite Hflag. change (1 =? 1) with true. cbv iota zeta.
  rewrite (IMU_ReadFIFO_full fifo (IMU_DataBuffer x) Hf Hb).
  cbn [board IMU_DataBuffer led].
  destruct x as [s buf l]. cbn [board IMU_DataBuffer led] in *.
  destruct s as [b sf dr ot q m r en cmp rx tx].
  cbn [set_log_queue cells button_state send_flag IMU_data_ready_flag
       IMU_over_threshold_flag IMU_log_queue lis3dh pwm_notify_enabled
       pwm_notify_compare uart_rx uart_tx].
  destruct (EEPROM_retrieveSendFlag m =? 1).
  - rewrite IMU_DataSend_frames.
    repeat apply conj; reflexivity.
  - repeat apply conj; reflexivity.
Qed.

(** X27. The overrun branch of the main loop.  With the data-ready flag
    raised, one pass reads the 192 bytes of the FIFO into [IMU_DataBuffer],
    hands them to [IMU_StoreFIFO], re-arms the FIFO and lowers the flag.
    The reduction of the burst becomes the first 48 bytes of the history
    queue whatever the linked [memcpy] does with the overlapping shift; the
    240 bytes behind it are the previous first 240 bytes when [memcpy]
    reads its source before it writes, and five copies of the previous
    first 48 bytes when it copies byte by byte upwards.  The burst is
    streamed as 160 bytes of telemetry exactly when the send flag persisted
    in the EEPROM reads 1, whatever [send_flag] in RAM is; the EEPROM
    itself is not written.  With the flag down the branch does nothing. *)
Theorem data_ready_pass (libc : memcpy_lib) (x : machine) (fifo : list Z) :
  (IMU_data_ready_flag (board x) = 1 ->
   length fifo = LIS3DH_BYTES_IN_FIFO ->
   length (IMU_DataBuffer x) = LIS3DH_BYTES_IN_FIFO ->
   let x' := main_data_ready libc x fifo in
   IMU_DataBuffer x' = fifo
   /\ IMU_log_queue (board x')
      = IMU_StoreFIFO libc (IMU_log_queue (board x)) fifo
   /\ firstn LIS3DH_BYTES_IN_FIFO_DOWNSAMPLED (IMU_log_queue (board x'))
      = reduce fifo
   /\ IMU_data_ready_flag (board x') = 0
   /\ cells (board x') = cells (board x)
   /\ lis3dh (board x') LIS3DH_FIFO_CTRL_REG = LIS3DH_FIFO_CTRL_REG_FIFO_MODE
   /\ uart_tx (board x')
      = (if EEPROM_retrieveSendFlag (cells (board x)) =? 1
         then uart_tx (board x)
              ++ flat_map (fun i => [0xA0; nth (6 * i + 1) fifo 0;
                                     nth (6 * i + 3) fifo 0;
                                     nth (6 * i + 5) fifo 0; 0xC0])
                          (seq 0 32)
         else uart_tx (board x))
   /\ button_state (board x') = button_state (board x)
   /\ led x' = led x)
  /\ (IMU_data_ready_flag (board x) = 1 ->
      length fifo = LIS3DH_BYTES_IN_FIFO ->
      length (IMU_DataBuffer x) = LIS3DH_BYTES_IN_FIFO ->
      length (IMU_log_queue (board x)) = LIS3DH_BYTES_IN_LOG_BUFFER ->
      IMU_log_queue (board (main_data_ready memcpy_snapshot x fifo))
      = reduce fifo ++ firstn 240 (IMU_log_queue (board x))
      /\ IMU_log_queue (board (main_data_ready memcpy_upwards x fifo))
         = reduce fifo
           ++ concat (repeat (firstn 48 (IMU_log_queue (board x))) 5))
  /\ (IMU_data_ready_flag (board x) <> 1 -> main_data_ready libc x fifo = x).
Proof.
  split; [|split].
  - intros Hflag Hf Hb x'.
    destruct (data_ready_branch libc x fifo Hflag Hf Hb)
      as (G1 & G2 & G3 & G4 & G5 & G6 & G7 & G8).
    fold x' in G1, G2, G3, G4, G5, G6, G7, G8.
    split; [exact G1 | split; [exact G2 | split]].
    + rewrite G2. apply StoreFIFO_head.
    + repeat apply conj; assumption.
  - intros Hflag Hf Hb Hq.
    destruct (data_ready_branch memcpy_snapshot x fifo Hflag Hf Hb)
      as (_ & G2 & _).
    destruct (data_ready_branch memcpy_upwards x fifo Hflag Hf Hb)
      as (_ & G2' & _).
    cbv zeta in G2, G2'. rewrite G2, G2'.
    split; [apply StoreFIFO_shift | apply StoreFIFO_upwards]; exact Hq.
  - intros Hflag. unfold main_data_ready.
    apply Z.eqb_neq in Hflag. rewrite Hflag. reflexivity.
Qed.

Lemma data_ready_pass_witness :
  let s := set_data_ready
             (CUSTOM_ISR_START (main_setup (power_on blank lis3dh_zero))) 1 in
  let x := mk_machine (set_log_queue s sample_queue) (repeat 0 192)
                      (mk_rgb [0; 0; 0] true true 0 0 0) in
  let idle := mk_machine (set_data_ready s 0) (repeat 0 192)
                         (mk_rgb [0; 0; 0] true true 0 0 0) in
  (IMU_data_ready_flag (board x) = 1
   /\ length (sample_burst 1) = LIS3DH_BYTES_IN_FIFO
   /\ length (IMU_DataBuffer x) = LIS3DH_BYTES_IN_FIFO
   /\ length (IMU_log_queue (board x)) = LIS3DH_BYTES_IN_LOG_BUFFER
   /\ IMU_data_ready_flag (board idle) <> 1)
  /\ firstn LIS3DH_BYTES_IN_FIFO_DOWNSAMPLED
            (IMU_log_queue (board (main_data_ready memcpy_upwards x
                                                   (sample_burst 1))))
     = reduce (sample_burst 1)
  /\ IMU_log_queue (board (main_data_ready memcpy_snapshot x (sample_burst 1)))
     = reduce (sample_burst 1) ++ firstn 240 sample_queue
  /\ IMU_log_queue (board (main_data_ready memcpy_upwards x (sample_burst 1)))
     = reduce (sample_burst 1) ++ concat (repeat (firstn 48 sample_queue) 5)
  /\ IMU_data_ready_flag
       (board (main_data_ready memcpy_upwards x (sample_burst 1))) = 0
  /\ main_data_ready memcpy_upwards idle (sample_burst 1) = idle.
Proof.
  intros s x idle.
  assert (H1 : IMU_data_ready_flag (board x) = 1) by reflexivity.
  assert (H2 : length (sample_burst 1) = LIS3DH_BYTES_IN_FIFO) by reflexivity.
  assert (H3 : length (IMU_DataBuffer x) = LIS3DH_BYTES_IN_FIFO) by reflexivity.
  assert (H4 : length (IMU_log_queue (board x)) = LIS3DH_BYTES_IN_LOG_BUFFER)
    by reflexivity.
  assert (H5 : IMU_data_ready_flag (board idle) <> 1) by discriminate.
  split; [repeat apply conj; assumption|].
  destruct (data_ready_pass memcpy_upwards x (sample_burst 1))
    as [Hup [Hlib _]].
  destruct (data_ready_pass memcpy_upwards idle (sample_burst 1))
    as [_ [_ Hdown]].
  destruct (Hup H1 H2 H3) as (_ & _ & Hh & Hf & _).
  destruct (Hlib H1 H2 H3 H4) as [Hs Hu].
  split; [exact Hh | split; [exact Hs | split; [exact Hu | split]]].
  - exact Hf.
  - exact (Hdown H5).
Defined.

(** X28. The knob in [CONFIG_MODE].  A pass of the main loop sets
    [send_flag] in RAM from the potentiometer and shows it on the blue
    channel alone, fully on for 1 and off for 0; the EEPROM is not written
    by the pass, and the long press that leaves [CONFIG_MODE] persists the
    flag chosen. *)
Theorem config_knob_sets_send_flag (x : machine) (raw : Z) :
  button_state (board x) = CONFIG_MODE ->
  send_flag (board x) = 0 \/ send_flag (board x) = 1 ->
  let x' := main_mode_handler x raw in
  let flag := POT_Read_Value raw (send_flag (board x)) in
  (flag = 0 \/ flag = 1)
  /\ board x' = set_send_flag (board x) flag
  /\ pwm_b_compare (led x') = 255 * flag
  /\ pwm_rg_compare1 (led x') = 0
  /\ pwm_rg_compare2 (led x') = 0
  /\ cells (board x') = cells (board x)
  /\ EEPROM_retrieveSendFlag (cells (CUSTOM_ISR_CONFIG (board x'))) = flag.
Proof.
  intros Hmode Hsf x' flag.
  assert (Hflag : flag = 0 \/ flag = 1).
  { subst flag. unfold POT_Read_Value. cbv zeta.
    destruct (_ <? _); [left; reflexivity|].
    destruct (_ >? _); [right; reflexivity | exact Hsf]. }
  assert (E : x' = mk_machine (set_send_flag (board x) flag) (IMU_DataBuffer x)
                              (RGB_sendFlagNotify (led x) flag)).
  { subst x'. unfold main_mode_handler. rewrite Hmode.
    change (CONFIG_MODE =? STOP_MODE) with false.
    change (CONFIG_MODE =? START_MODE) with false.
    change (CONFIG_MODE =? CONFIG_MODE) with true. cbv iota zeta.
    reflexivity. }
  rewrite E. cbn [board led].
  split; [exact Hflag|]. split; [reflexivity|].
  unfold RGB_sendFlagNotify, PWM_Driver, PWM_RG_WriteCompare1,
    PWM_RG_WriteCompare2, PWM_B_WriteCompare.
  cbn [nth pwm_b_compare pwm_rg_compare1 pwm_rg_compare2].
  change PWM_CYCLE_LENGTH with 255.
  split; [rewrite u8_idem; apply u8_small; lia|].
  do 2 (split; [reflexivity|]).
  split; [destruct (board x); reflexivity|].
  rewrite ISR_CONFIG_leave by (destruct (board x); exact Hmode).
  cbn [cells].
  destruct (flag_writers_table
              (EEPROM_saveConfigFlag (cells (set_send_flag (board x) flag)) 0)
              (send_flag (set_send_flag (board x) flag)))
    as (_ & _ & (Hsend & _)).
  rewrite Hsend.
  replace (send_flag (set_send_flag (board x) flag)) with flag
    by (destruct (board x); reflexivity).
  destruct Hflag as [-> | ->]; reflexivity.
Qed.

Lemma config_knob_sets_send_flag_witness :
  let s := CUSTOM_ISR_CONFIG (main_setup (power_on blank lis3dh_zero)) in
  let x := mk_machine s (repeat 0 192) (mk_rgb [0; 0; 0] true true 7 7 7) in
  (button_state (board x) = CONFIG_MODE
   /\ (send_flag (board x) = 0 \/ send_flag (board x) = 1))
  /\ pwm_b_compare (led (main_mode_handler x 230))
     = 255 * POT_Read_Value 230 (send_flag (board x))
  /\ EEPROM_retrieveSendFlag
       (cells (CUSTOM_ISR_CONFIG (board (main_mode_handler x 230))))
     = POT_Read_Value 230 (send_flag (board x)).
Proof.
  intros s x.
  assert (H1 : button_state (board x) = CONFIG_MODE) by reflexivity.
  assert (H2 : send_flag (board x) = 0 \/ send_flag (board x) = 1)
    by (left; reflexivity).
  split; [split; assumption|].
  destruct (config_knob_sets_send_flag x 230 H1 H2)
    as (_ & _ & Hb & _ & _ & _ & Hp).
  split; [exact Hb | exact Hp].
Defined.

(** *** From the interrupt to the log *)

Lemma log_event_of_data_ready (s : psoc) (e : event) :
  IMU_data_ready_flag (log_event_of s e) = IMU_data_ready_flag s.
Proof. destruct s; reflexivity. Qed.

Lemma log_events_data_ready (evs : list event) :
  forall s, IMU_data_ready_flag (fold_left log_event_of evs s)
            = IMU_data_ready_flag s.
Proof.
  induction evs as [|e evs IH]; intros s; [reflexivity|].
  cbn [fold_left]. rewrite IH. apply log_event_of_data_ready.
Qed.

Lemma mode_handler_board (x : machine) (raw : Z) :
  exists sf, board (main_mode_handler x raw) = set_send_flag (board x) sf.
Proof.
  unfold main_mode_handler. cbv zeta.
  destruct (button_state (board x) =? STOP_MODE);
    [exists (send_flag (board x)); destruct x as [[] ? ?]; reflexivity|].
  destruct (button_state (board x) =? START_MODE);
    [exists (send_flag (board x)); destruct x as [[] ? ?]; reflexivity|].
  destruct (button_state (board x) =? CONFIG_MODE).
  - eexists. reflexivity.
  - exists (send_flag (board x)). destruct x as [[] ? ?]; reflexivity.
Qed.

(** One pass of the loop on a board whose over-threshold flag is up and
    whose data-ready flag is down: what it leaves in the EEPROM. *)
Lemma loop_pass_logs (libc : memcpy_lib) (x : machine) (inp : inputs) :
  IMU_over_threshold_flag (board x) = 1 ->
  IMU_data_ready_flag (board x) <> 1 ->
  let s' := board (main_loop_body libc x inp) in
  cells s'
  = appendLog (cells (board x)) (EEPROM_retrieveLogCount (cells (board x)))
              (u8 (imu_int1_src inp)) (LOG_getTimestamp (timer_counter inp))
              (IMU_log_queue (board x))
  /\ IMU_over_threshold_flag s' = 0
  /\ IMU_log_queue s' = IMU_log_queue (board x)
  /\ button_state s' = button_state (board x).
Proof.
  intros Hot Hdr s'. subst s'. unfold main_loop_body. cbv zeta. cbn [board].
  destruct (mode_handler_board x (adc_raw inp)) as [sf Hb].
  set (x1 := main_mode_handler x (adc_raw inp)) in *.
  assert (Hdr1 : (IMU_data_ready_flag (board x1) =? 1) = false).
  { rewrite Hb. apply Z.eqb_neq. destruct (board x); exact Hdr. }
  unfold main_data_ready. rewrite Hdr1. rewrite Hb.
  unfold main_over_threshold.
  replace (IMU_over_threshold_flag (set_send_flag (board x) sf)) with 1
    by (destruct (board x); symmetry; exact Hot).
  change (1 =? 1) with true. cbv iota zeta.
  destruct (board x); repeat apply conj; reflexivity.
Qed.

Lemma ISR_IMU_over_threshold (s : psoc) (fifo_src int1_src : Z) :
  Z.land fifo_src LIS3DH_FIFO_SRC_REG_OVR_MASK = 0 ->
  Z.land int1_src LIS3DH_INT1_SRC_IA_MASK <> 0 ->
  CUSTOM_ISR_IMU s fifo_src int1_src = set_over_threshold s 1.
Proof.
  intros H0 H1. unfold CUSTOM_ISR_IMU. rewrite H0.
  apply Z.eqb_neq in H1. rewrite H1. reflexivity.
Qed.

(** X29. From the interrupt to the log.  On a board that has logged at
    most 50 events on a store without earlier logs, an accelerometer
    interrupt with the over-threshold bit set and no overrun, followed by
    one pass of the main loop, stores one more log: the log count grows by
    one, the flag is lowered, and page [i] of the new log reads back with
    the previous log count as identifier, the interrupt register byte, the
    timestamp of [LOG_getTimestamp] and the [i]-th window of the queue. *)
Theorem over_threshold_interrupt_logs_event
        (libc : memcpy_lib)
        (evs : list event) (s0 : psoc) (queue buf : list Z) (l : rgb_led)
        (inp : inputs) (fifo_src int1_src : Z) (i : nat) :
  u8 (cells s0 0x16) = 0 ->
  EEPROM_retrieveLogPages (cells s0) = 0 ->
  IMU_data_ready_flag s0 = 0 ->
  (length evs <= 50)%nat ->
  forallb event_wf evs = true ->
  length queue = LIS3DH_BYTES_IN_LOG_BUFFER ->
  forallb is_byte queue = true ->
  Z.land fifo_src LIS3DH_FIFO_SRC_REG_OVR_MASK = 0 ->
  Z.land int1_src LIS3DH_INT1_SRC_IA_MASK <> 0 ->
  (i < 5)%nat ->
  let b := set_log_queue (fold_left log_event_of evs s0) queue in
  let x := mk_machine (CUSTOM_ISR_IMU b fifo_src int1_src) buf l in
  let s' := board (main_loop_body libc x inp) in
  IMU_over_threshold_flag s' = 0
  /\ EEPROM_retrieveLogCount (cells s') = Z.of_nat (length evs) + 1
  /\ EEPROM_retrieveLogMessage (cells s') (Z.of_nat (length evs)) (Z.of_nat i)
     = mk_log (Z.of_nat (length evs)) (u8 (imu_int1_src inp))
              (LOG_getTimestamp (timer_counter inp))
              (IMU_getPayload queue (uninit LOG_MESSAGE_DATA_BYTE) (Z.of_nat i)).
Proof.
  intros Hhigh Hcnt Hdr Hlen Hwf Hql Hqb Hovr Hia Hi b x s'.
  set (e := mk_event (u8 (imu_int1_src inp))
                     (LOG_getTimestamp (timer_counter inp)) queue).
  set (b0 := fold_left log_event_of evs s0) in *.
  assert (Ex : board x = set_over_threshold b 1).
  { subst x. cbn [board]. apply ISR_IMU_over_threshold; assumption. }
  assert (Hdr0 : IMU_data_ready_flag b0 = 0).
  { subst b0. rewrite log_events_data_ready. exact Hdr. }
  destruct (loop_pass_logs libc x inp) as (Hc & Hf & _).
  { rewrite Ex. destruct b; reflexivity. }
  { rewrite Ex. subst b. destruct b0. cbn in *. rewrite Hdr0. discriminate. }
  fold s' in Hc, Hf.
  assert (Ec : cells s' = cells (log_event_of b0 e)).
  { rewrite Hc, log_event_of_cells, Ex. subst b e.
    destruct b0; reflexivity. }
  assert (Hwfe : event_wf e = true).
  { unfold event_wf. subst e. cbn [event_queue].
    rewrite Hql, Nat.eqb_refl, Hqb. reflexivity. }
  assert (Hh : logs_hold (evs ++ [e]) (cells s')).
  { rewrite Ec. apply logs_hold_next; [exact Hlen|].
    apply logs_hold_after; [exact Hhigh | exact Hcnt | lia]. }
  assert (Hl1 : (length (evs ++ [e]) <= 51)%nat)
    by (rewrite length_app; cbn [length]; lia).
  assert (Hj : (length evs < length (evs ++ [e]))%nat)
    by (rewrite length_app; cbn [length]; lia).
  assert (Hn : nth (length evs) (evs ++ [e]) no_event = e)
    by (rewrite app_nth2, Nat.sub_diag by lia; reflexivity).
  destruct (logs_hold_retrieve (evs ++ [e]) (cells s') (length evs) i
              Hl1 Hh Hj Hi ltac:(rewrite Hn; exact Hwfe)) as (_ & _ & Hr).
  split; [exact Hf | split].
  - rewrite (logCount_of_logs_stored (Z.of_nat (length (evs ++ [e]))) (cells s'))
      by (lia || apply Hh).
    rewrite length_app. cbn [length]. lia.
  - rewrite Hr, Hn. unfold event_page. subst e.
    cbn [event_int_reg event_time event_queue].
    rewrite createMessage_fields
      by (apply (getPayload_wf queue i Hql Hqb Hi)).
    rewrite (u8_small (Z.of_nat (length evs))) by lia.
    rewrite u8_idem.
    rewrite (u16_small (LOG_getTimestamp (timer_counter inp)))
      by (unfold LOG_getTimestamp; apply u16_range).
    reflexivity.
Qed.

Lemma over_threshold_interrupt_logs_event_witness :
  let s0 := main_setup (power_on (EEPROM_resetMemory factory_fresh) lis3dh_zero) in
  let evs := [mk_event 0x6A 7 sample_queue] in
  let inp := mk_inputs 0 [] 0x6A (0xFFFFFFFF - 12345) in
  (u8 (cells s0 0x16) = 0
   /\ EEPROM_retrieveLogPages (cells s0) = 0
   /\ IMU_data_ready_flag s0 = 0
   /\ (length evs <= 50)%nat
   /\ forallb event_wf evs = true
   /\ length (rev sample_queue) = LIS3DH_BYTES_IN_LOG_BUFFER
   /\ forallb is_byte (rev sample_queue) = true
   /\ Z.land 0 LIS3DH_FIFO_SRC_REG_OVR_MASK = 0
   /\ Z.land 0x6A LIS3DH_INT1_SRC_IA_MASK <> 0
   /\ (0 < 5)%nat)
  /\ EEPROM_retrieveLogCount
       (cells (board (main_loop_body memcpy_upwards
                        (mk_machine
                           (CUSTOM_ISR_IMU
                              (set_log_queue (fold_left log_event_of evs s0)
                                             (rev sample_queue))
                              0 0x6A)
                           [] (mk_rgb [0; 0; 0] true true 0 0 0))
                        inp)))
     = Z.of_nat (length evs) + 1.
Proof.
  intros s0 evs inp.
  assert (H1 : u8 (cells s0 0x16) = 0) by (vm_compute; reflexivity).
  assert (H2 : EEPROM_retrieveLogPages (cells s0) = 0) by (vm_compute; reflexivity).
  assert (H3 : IMU_data_ready_flag s0 = 0) by reflexivity.
  assert (H4 : (length evs <= 50)%nat) by (cbn; lia).
  assert (H5 : forallb event_wf evs = true) by (vm_compute; reflexivity).
  assert (H6 : length (rev sample_queue) = LIS3DH_BYTES_IN_LOG_BUFFER)
    by (vm_compute; reflexivity).
  assert (H7 : forallb is_byte (rev sample_queue) = true)
    by (vm_compute; reflexivity).
  assert (H8 : Z.land 0 LIS3DH_FIFO_SRC_REG_OVR_MASK = 0) by reflexivity.
  assert (H9 : Z.land 0x6A LIS3DH_INT1_SRC_IA_MASK <> 0) by discriminate.
  assert (H10 : (0 < 5)%nat) by lia.
  split; [repeat apply conj; assumption|].
  destruct (over_threshold_interrupt_logs_event memcpy_upwards
              evs s0 (rev sample_queue) [] (mk_rgb [0; 0; 0] true true 0 0 0)
              inp 0 0x6A 0%nat H1 H2 H3 H4 H5 H6 H7 H8 H9 H10)
    as (_ & Hc & _).
  exact Hc.
Defined.

(** *** The mode controller on a running board *)


Lemma IMU_ResetFIFO_sampling (r : imu_regs) :
  IMU_sampling_off (IMU_ResetFIFO r) = IMU_sampling_off r.
Proof. reflexivity. Qed.
















(** ** Logging leaves the control byte alone *)

Lemma storeLogMessage_ctrl (m : eeprom) (message : log_t) :
  EEPROM_retrieveLogPages m <= SPI_EEPROM_PAGE_COUNT ->
  EEPROM_storeLogMessage m message 0 = m 0.
Proof.
  change SPI_EEPROM_PAGE_COUNT with 512. intros Hpc.
  pose proof (u16_range (Z.lor (u16 (Z.shiftl (EEPROM_readByte m CTRL_REG_LOG_PAGES_HIGH) 8))
                               (EEPROM_readByte m CTRL_REG_LOG_PAGES_LOW))) as H0.
  fold (EEPROM_retrieveLogPages m) in H0.
  unfold EEPROM_storeLogMessage. cbv zeta.
  set (buffer := LOG_unpackMessage (uninit 64) message).
  assert (Hd : EEPROM_storeLogData m buffer 0 = m 0).
  { unfold EEPROM_storeLogData. cbv zeta.
    change LOG_DATA_BASE_ADDR with 64. change SPI_EEPROM_PAGE_SIZE with 64.
    rewrite u16_small by lia.
    destruct (_ <=? _); [|reflexivity].
    unfold EEPROM_waitForWriteComplete.
    apply writePage_frame; [lia|].
    left. replace (64 + EEPROM_retrieveLogPages m * 64)
      with (0 + (1 + EEPROM_retrieveLogPages m) * 64) by lia.
    rewrite Z.mod_add by lia. rewrite Z.mod_0_l by lia. lia. }
  pose proof (storeLogData_counter m buffer Hpc) as Hc.
  destruct (Z.lt_ge_cases (EEPROM_retrieveLogPages (EEPROM_storeLogData m buffer))
                          SPI_EEPROM_PAGE_COUNT) as [Hlt | Hge].
  - rewrite incrementLogCounter_cells by exact Hlt.
    unfold upd. cbn [Z.eqb]. exact Hd.
  - rewrite incrementLogCounter_saturated by exact Hge. exact Hd.
Qed.

(** X30. Logging leaves the mode flags alone: with the page counter within
    its range of 0 to 512, the five page writes and counter updates of one
    logged event never touch the control byte, so the Start/Stop,
    configuration, send and reset flags read the same before and after, and
    the counter stays within its range. *)
Theorem logging_keeps_control_byte
        (m : eeprom) (log_id int_reg time : Z) (queue : list Z) :
  EEPROM_retrieveLogPages m <= SPI_EEPROM_PAGE_COUNT ->
  let m' := appendLog m log_id int_reg time queue in
  EEPROM_readByte m' CTRL_REG_PSOC_STATUS = EEPROM_readByte m CTRL_REG_PSOC_STATUS
  /\ EEPROM_retrieveStartStopState m' = EEPROM_retrieveStartStopState m
  /\ EEPROM_retrieveConfigFlag m' = EEPROM_retrieveConfigFlag m
  /\ EEPROM_retrieveSendFlag m' = EEPROM_retrieveSendFlag m
  /\ EEPROM_retrieveResetFlag m' = EEPROM_retrieveResetFlag m
  /\ EEPROM_retrieveLogPages m' <= SPI_EEPROM_PAGE_COUNT.
Proof.
  intros Hpc m'.
  assert (H : EEPROM_retrieveLogPages m' <= SPI_EEPROM_PAGE_COUNT /\ m' 0 = m 0).
  { subst m'. unfold appendLog.
    apply (for_loop_invariant
             (fun x => EEPROM_retrieveLogPages x <= SPI_EEPROM_PAGE_COUNT
                       /\ x 0 = m 0)); [|split; [exact Hpc | reflexivity]].
    intros i x [Hx Hx0]. cbv zeta. split.
    - apply storeLogMessage_bound. exact Hx.
    - rewrite storeLogMessage_ctrl by exact Hx. exact Hx0. }
  destruct H as [Hb H0].
  assert (E : EEPROM_readByte m' CTRL_REG_PSOC_STATUS
              = EEPROM_readByte m CTRL_REG_PSOC_STATUS).
  { unfold EEPROM_readByte. rewrite status_cell, H0. reflexivity. }
  unfold EEPROM_retrieveStartStopState, EEPROM_retrieveConfigFlag,
    EEPROM_retrieveSendFlag, EEPROM_retrieveResetFlag.
  rewrite !retrieve_flag_bit_spec, !E.
  split; [reflexivity|]. do 4 (split; [reflexivity|]). exact Hb.
Qed.

Lemma logging_keeps_control_byte_witness :
  let m := EEPROM_saveSendFlag (EEPROM_saveStartStopState blank 1) 1 in
  EEPROM_retrieveLogPages m <= SPI_EEPROM_PAGE_COUNT
  /\ EEPROM_retrieveSendFlag (appendLog m 0 0x6A 7 sample_queue)
     = EEPROM_retrieveSendFlag m
  /\ EEPROM_retrieveStartStopState (appendLog m 0 0x6A 7 sample_queue)
     = EEPROM_retrieveStartStopState m.
Proof.
  intros m.
  assert (H : EEPROM_retrieveLogPages m <= SPI_EEPROM_PAGE_COUNT)
    by (vm_compute; discriminate).
  split; [exact H|].
  destruct (logging_keeps_control_byte m 0 0x6A 7 sample_queue H)
    as (_ & Hs & _ & Hf & _).
  split; [exact Hf | exact Hs].
Defined.
